(** * kratt: the pull-request worker

    A shallow embedding of the [worker] package of dhamidi/kratt
    (worker/worker.go, the GitRunner and GitHubCLI adapters and the
    in-memory fakes), with the properties of its two workflows,
    [ProcessPR] and [Start].

    Go strings are byte strings: [string] is read as a sequence of bytes.
    A Go [error] is [nil] or a value with an [Error()] text: [option string].
    Capabilities (the [LocalGit], [GitHub] and [CommandRunner] interfaces)
    are type classes over the state of their implementation; every call a
    workflow makes through them is recorded, with its result, in a trace. *)

From Stdlib Require Import String Ascii List ZArith Lia Bool DecimalString.
From stdpp Require Import base option gmap strings.
Import ListNotations.
Open Scope string_scope.
Open Scope list_scope.

(** ** Bytes and text *)

Definition byte_of (n : nat) : ascii := ascii_of_nat n.

Fixpoint bytes (l : list nat) : string :=
  match l with
  | [] => EmptyString
  | n :: l' => String (byte_of n) (bytes l')
  end.

Definition LF : string := bytes [10].

(** The two markers of worker.go are the UTF-8 encodings of U+274C (cross
    mark) and U+2705 (check mark). *)
Definition cross_mark : string := bytes [226; 157; 140].
Definition check_mark : string := bytes [226; 156; 133].

Fixpoint rev_string (s : string) (acc : string) : string :=
  match s with
  | EmptyString => acc
  | String c s' => rev_string s' (String c acc)
  end.

(** strconv.Itoa *)
Definition Itoa (n : Z) : string := NilZero.string_of_int (Z.to_int n).

(** ** Package strings of the Go library, as far as the worker uses it *)

Module strings.

(** [s] starts with [prefix]. *)
Definition HasPrefix (s prefix : string) : bool := String.prefix prefix s.

Fixpoint drop (n : nat) (s : string) : string :=
  match n, s with
  | O, _ => s
  | S n', String _ s' => drop n' s'
  | S _, EmptyString => EmptyString
  end.

Fixpoint take (n : nat) (s : string) : string :=
  match n, s with
  | O, _ => EmptyString
  | S n', String c s' => String c (take n' s')
  | S _, EmptyString => EmptyString
  end.

Definition TrimPrefix (s prefix : string) : string :=
  if HasPrefix s prefix then drop (String.length prefix) s else s.

Definition HasSuffix (s suffix : string) : bool :=
  (String.length suffix <=? String.length s)%nat
  && String.eqb (drop (String.length s - String.length suffix) s) suffix.

(** [substr] occurs in [s] (strings.Index(s, substr) >= 0). *)
Fixpoint Contains (s substr : string) : bool :=
  String.prefix substr s
  || match s with
     | EmptyString => false
     | String _ s' => Contains s' substr
     end.

(** Split around every occurrence of a separator. [skip] counts the bytes
    of a separator just matched that are still to be passed over; [cur] is
    the piece being collected, in reverse. *)
Fixpoint split_from (sep : string) (skip : nat) (cur : string) (s : string)
  : list string :=
  match s with
  | EmptyString => [rev_string cur EmptyString]
  | String c s' =>
      match skip with
      | S k => split_from sep k cur s'
      | O =>
          if String.prefix sep s
          then rev_string cur EmptyString
               :: split_from sep (String.length sep - 1) EmptyString s'
          else split_from sep 0 (String c cur) s'
      end
  end.

(** The worker splits on a line feed and on a slash only. With an empty separator Go
    explodes the string into its UTF-8 sequences; that case is given here
    byte by byte and is never reached by the worker. *)
Definition Split (s sep : string) : list string :=
  match sep with
  | EmptyString => map (fun c => String c EmptyString) (list_ascii_of_string s)
  | _ => split_from sep 0 EmptyString s
  end.

Definition Join (elems : list string) (sep : string) : string :=
  String.concat sep elems.

(** unicode.IsSpace on one byte: tab, LF, VT, FF, CR and space. *)
Definition asciiSpace (c : ascii) : bool :=
  let n := nat_of_ascii c in
  ((9 <=? n) && (n <=? 13))%nat || (n =? 32)%nat.

(** The white space above U+007F, in UTF-8: U+0085, U+00A0, U+1680,
    U+2000 to U+200A, U+2028, U+2029, U+202F, U+205F and U+3000. *)
Definition wideSpaces : list string :=
  bytes [194; 133] :: bytes [194; 160] :: bytes [225; 154; 128]
  :: map (fun k => bytes [226; 128; 128 + k]) (seq 0 11)
  ++ [bytes [226; 128; 168]; bytes [226; 128; 169]; bytes [226; 128; 175];
      bytes [226; 129; 159]; bytes [227; 128; 128]].

(** Width in bytes of the white-space character [s] starts with, written
    as given or (for the scan from the right) reversed; [0] if none. *)
Definition spaceWidth (encodings : list string) (s : string) : nat :=
  match s with
  | EmptyString => 0
  | String c _ =>
      if asciiSpace c then 1
      else match find (fun e => String.prefix e s) encodings with
           | Some e => String.length e
           | None => 0
           end
  end.

Fixpoint trimLeading (encodings : list string) (fuel : nat) (s : string)
  : string :=
  match fuel with
  | O => s
  | S fuel' =>
      match spaceWidth encodings s with
      | O => s
      | S k => trimLeading encodings fuel' (drop (S k) s)
      end
  end.

Definition TrimLeft (s : string) : string :=
  trimLeading wideSpaces (String.length s) s.

Definition TrimRight (s : string) : string :=
  let r := rev_string s EmptyString in
  rev_string
    (trimLeading (map (fun e => rev_string e EmptyString) wideSpaces)
                 (String.length r) r)
    EmptyString.

(** strings.TrimSpace: all leading and trailing white space removed. *)
Definition TrimSpace (s : string) : string := TrimRight (TrimLeft s).

End strings.

(** ** Package regexp: the three patterns of extractBranchFromPRInfo

    The patterns are compiled once and for all into a small syntax tree and
    matched by backtracking, greedy operators first, the leftmost match
    winning: on these patterns that is the match Go's regexp returns. One
    capturing group is enough. A class stands for one byte: the classes used
    contain or exclude ASCII bytes only, so the bytes of a longer UTF-8
    sequence are all in a negated class and in no positive one. *)

Module regexp.

Inductive Regexp : Type :=
| Class (p : ascii -> bool)
| Cat (r1 r2 : Regexp)
| Star (r : Regexp)
| Group (r : Regexp).

Definition Plus (r : Regexp) : Regexp := Cat r (Star r).

(** The text between position [s] and the later position [s']. *)
Definition consumed (s s' : string) : string :=
  strings.take (String.length s - String.length s') s.

Section Matching.
Context {R : Type}.

Fixpoint matchHere (r : Regexp) (s : string) (cap : option string)
         (k : string -> option string -> option R) {struct r} : option R :=
  match r with
  | Class p =>
      match s with
      | String c s' => if p c then k s' cap else None
      | EmptyString => None
      end
  | Cat r1 r2 =>
      matchHere r1 s cap (fun s' cap' => matchHere r2 s' cap' k)
  | Star r1 =>
      (fix loop (fuel : nat) (s : string) (cap : option string)
         {struct fuel} : option R :=
         match fuel with
         | O => k s cap
         | S fuel' =>
             match matchHere r1 s cap
                     (fun s' cap' =>
                        if (String.length s' <? String.length s)%nat
                        then loop fuel' s' cap' else None) with
             | Some res => Some res
             | None => k s cap
             end
         end) (String.length s) s cap
  | Group r1 =>
      matchHere r1 s cap (fun s' _ => k s' (Some (consumed s s')))
  end.
End Matching.

(** Whole match and group 1 of the leftmost match; [[]] (Go's nil slice)
    when there is none. *)
Fixpoint FindStringSubmatch (re : Regexp) (s : string) : list string :=
  match matchHere re s None (fun s' cap => Some (s', cap)) with
  | Some (s', cap) => [consumed s s'; default EmptyString cap]
  | None =>
      match s with
      | EmptyString => []
      | String _ s' => FindStringSubmatch re s'
      end
  end.

Definition byte_is (c : ascii) : Regexp := Class (Ascii.eqb c).

Definition lower (c : ascii) : ascii :=
  let n := nat_of_ascii c in
  if ((65 <=? n) && (n <=? 90))%nat then ascii_of_nat (n + 32) else c.

(** One byte under [(?i)]: equal up to the case of ASCII letters. (None of
    b, r, a, n, c, h, e, d has a fold outside ASCII.) *)
Definition byte_fold (c : ascii) : Regexp :=
  Class (fun x => Ascii.eqb (lower x) (lower c)).

Fixpoint literal (one : ascii -> Regexp) (c : ascii) (s : string) : Regexp :=
  match s with
  | EmptyString => one c
  | String c' s' => Cat (one c) (literal one c' s')
  end.

(** [\s] is [[\t\n\f\r ]]. *)
Definition space (c : ascii) : bool :=
  let n := nat_of_ascii c in
  (n =? 9)%nat || (n =? 10)%nat || (n =? 12)%nat || (n =? 13)%nat
  || (n =? 32)%nat.

Definition quote : ascii := byte_of 34.

End regexp.

Import regexp.

(** The first pattern of worker.go, where Q stands for the double quote:
    [QheadRefNameQ:\s*Q([^Q]+)Q] *)
Definition re_headRefName : Regexp :=
  Cat (literal byte_is quote "headRefName")
      (Cat (byte_is quote)
           (Cat (byte_is ":")
                (Cat (Star (Class space))
                     (Cat (byte_is quote)
                          (Cat (Group (Plus (Class (fun c => negb (Ascii.eqb c quote)))))
                               (byte_is quote)))))).

(** [(?i)branch:\s*([^\s\n]+)] *)
Definition re_branch : Regexp :=
  Cat (literal byte_fold "b" "ranch:")
      (Cat (Star (Class space))
           (Group (Plus (Class (fun c => negb (space c)))))).

(** [(?i)head:\s*([^\s\n]+)] *)
Definition re_head : Regexp :=
  Cat (literal byte_fold "h" "ead:")
      (Cat (Star (Class space))
           (Group (Plus (Class (fun c => negb (space c)))))).

(** ** Errors, control flow and traces *)

(** A Go error: [None] is nil, [Some msg] an error whose text is [msg]. *)
Definition error : Type := option string.

(** [fmt.Errorf(prefix + "%w", err)] for a non-nil [err] with text [msg]. *)
Definition Errorf_w (prefix msg : string) : error := Some (prefix +:+ msg).

(** How a statement ends: control goes on to the next one, the function
    returns its results [R], or the goroutine panics. *)
Inductive step (R A : Type) : Type :=
| Next (a : A)
| Return (r : R)
| Panic (msg : string).
Arguments Next {R A} a.
Arguments Return {R A} r.
Arguments Panic {R A} msg.

(** How a call of a function ends. *)
Inductive outcome (R : Type) : Type :=
| Returned (r : R)
| Panicked (msg : string).
Arguments Returned {R} r.
Arguments Panicked {R} msg.

(** The state [S] of the injected implementations and the trace [E] of the
    calls made so far, oldest first. *)
Record World (S E : Type) : Type := mkWorld { impl : S; trace : list E }.
Arguments mkWorld {S E} impl trace.
Arguments impl {S E} w.
Arguments trace {S E} w.

(** A piece of the body of a function with results [R]. *)
Definition M (S E R A : Type) : Type := World S E -> step R A * World S E.

Definition ret {S E R A} (a : A) : M S E R A := fun w => (Next a, w).

Definition bind {S E R A B} (m : M S E R A) (k : A -> M S E R B) : M S E R B :=
  fun w =>
    match m w with
    | (Next a, w') => k a w'
    | (Return r, w') => (Return r, w')
    | (Panic msg, w') => (Panic msg, w')
    end.

Definition return_ {S E R A} (r : R) : M S E R A := fun w => (Return r, w).

Definition panic {S E R A} (msg : string) : M S E R A := fun w => (Panic msg, w).

Notation "'let*' x ':=' m 'in' k" := (bind m (fun x => k))
  (at level 10, x pattern, m at level 100, k at level 200,
   format "'[v' 'let*'  x  ':='  m  'in' '/' k ']'").
Notation "m >> k" := (bind m (fun _ => k))
  (at level 190, right associativity).

(** [if err != nil { return fmt.Errorf(prefix + "%w", err) }] in a function
    whose only result is an error. *)
Definition return_if_err {S E} (err : error) (prefix : string)
  : M S E error unit :=
  match err with
  | Some msg => return_ (Errorf_w prefix msg)
  | None => ret tt
  end.

(** One call through an interface: run the method on the implementation's
    state and record the call with what it returned. *)
Definition invoke {S E R A} (method : S -> A * S) (event : A -> E)
  : M S E R A :=
  fun w =>
    let '(a, s') := method (impl w) in
    (Next a, mkWorld s' (trace w ++ [event a])).

(** A whole call of a function, on a fresh trace. A body that runs to its
    end has returned what its last statement gives. *)
Definition run {S E R} (body : M S E R R) (s : S) : outcome R * World S E :=
  match body (mkWorld s []) with
  | (Next r, w) => (Returned r, w)
  | (Return r, w) => (Returned r, w)
  | (Panic msg, w) => (Panicked msg, w)
  end.

(** [v[0]] and [v[1:]] of a slice, as two arguments of one call. On an
    empty slice either expression is out of bounds; the compiled program
    checks the bounds of the slice expression [v[1:]] first, so that is the
    panic of the run. A slice of one element passes both. *)
Definition slice_bounds_panic : string :=
  "runtime error: slice bounds out of range [1:0]".

Definition head_tail {S E R} (v : list string)
  : M S E R (string * list string) :=
  match v with
  | [] => panic slice_bounds_panic
  | x :: rest => ret (x, rest)
  end.

(** ** The three capabilities (worker/git.go, github.go, exec.go) *)

(** The context handed to the command runner. Of a context only the timeout
    it was made with is kept here; which context value it is, and the
    moment its deadline falls, are not part of the model. *)
Record Context : Type := WithTimeout { timeout : Z }.

Class LocalGit (S : Type) : Type := {
  CheckWorktreeExists : string -> S -> (bool * error) * S;
  CreateWorktree : string -> string -> S -> error * S;
  ChangeDirectory : string -> S -> error * S;
  CommitAndPush : string -> S -> error * S;
  GetWorktreePath : string -> S -> (string * error) * S;
  IsGitRepository : S -> (bool * error) * S;
  GetGitHubRepository : S -> (string * string * error) * S;
  CreateBranch : string -> S -> error * S;
  WriteFile : string -> string -> S -> error * S;
  PushBranchUpstream : string -> S -> error * S;
  BranchExists : string -> S -> (bool * error) * S
}.

Class GitHub (S : Type) : Type := {
  GetPRInfo : Z -> S -> (string * error) * S;
  PostComment : Z -> string -> S -> error * S;
  CreatePR : string -> string -> S -> error * S
}.

Class CommandRunner (S : Type) : Type := {
  RunWithStdin : Context -> string -> string -> list string -> S -> error * S;
  RunWithOutput : Context -> string -> list string -> S -> (string * error) * S
}.

(** A call a workflow made, with its arguments and what came back. *)
Inductive Event : Type :=
| EGetPRInfo (prNumber : Z) (info : string) (err : error)
| EPostComment (prNumber : Z) (body : string) (err : error)
| ECreatePR (title description : string) (err : error)
| ECheckWorktreeExists (branch : string) (found : bool) (err : error)
| ECreateWorktree (branch path : string) (err : error)
| EChangeDirectory (path : string) (err : error)
| ECommitAndPush (message : string) (err : error)
| EGetWorktreePath (branch : string) (path : string) (err : error)
| ECreateBranch (branchName : string) (err : error)
| EWriteFile (path content : string) (err : error)
| EPushBranchUpstream (branchName : string) (err : error)
| ERunWithStdin (ctx : Context) (stdin command : string) (args : list string)
                (err : error)
| ERunWithOutput (ctx : Context) (command : string) (args : list string)
                 (output : string) (err : error).

Inductive Method : Type :=
| MGetPRInfo | MPostComment | MCreatePR | MCheckWorktreeExists
| MCreateWorktree | MChangeDirectory | MCommitAndPush | MGetWorktreePath
| MCreateBranch | MWriteFile | MPushBranchUpstream | MRunWithStdin
| MRunWithOutput.

Definition method_of (ev : Event) : Method :=
  match ev with
  | EGetPRInfo _ _ _ => MGetPRInfo
  | EPostComment _ _ _ => MPostComment
  | ECreatePR _ _ _ => MCreatePR
  | ECheckWorktreeExists _ _ _ => MCheckWorktreeExists
  | ECreateWorktree _ _ _ => MCreateWorktree
  | EChangeDirectory _ _ => MChangeDirectory
  | ECommitAndPush _ _ => MCommitAndPush
  | EGetWorktreePath _ _ _ => MGetWorktreePath
  | ECreateBranch _ _ => MCreateBranch
  | EWriteFile _ _ _ => MWriteFile
  | EPushBranchUpstream _ _ => MPushBranchUpstream
  | ERunWithStdin _ _ _ _ _ => MRunWithStdin
  | ERunWithOutput _ _ _ _ _ => MRunWithOutput
  end.

(** The error a call came back with. *)
Definition err_of (ev : Event) : error :=
  match ev with
  | EGetPRInfo _ _ e | EPostComment _ _ e | ECreatePR _ _ e
  | ECheckWorktreeExists _ _ e | ECreateWorktree _ _ e | EChangeDirectory _ e
  | ECommitAndPush _ e | EGetWorktreePath _ _ e | ECreateBranch _ e
  | EWriteFile _ _ e | EPushBranchUpstream _ e | ERunWithStdin _ _ _ _ e
  | ERunWithOutput _ _ _ _ e => e
  end.

Definition Method_eq_dec (a b : Method) : {a = b} + {a <> b}.
Proof. decide equality. Defined.

(** How often a method was called in a trace. *)
Definition calls (m : Method) (tr : list Event) : nat :=
  count_occ Method_eq_dec (map method_of tr) m.

(** Every event of the trace that satisfies [Q] has an earlier one that
    satisfies [P]. *)
Definition preceded_by (P Q : Event -> Prop) (tr : list Event) : Prop :=
  forall pre ev post, tr = pre ++ ev :: post -> Q ev -> Exists P pre.

(** ** worker/worker.go *)

(** The configuration of a worker. The three dependencies of the Go struct
    (Git, GitHub, Runner) are not fields here: they are the implementation
    state the workflows run on, with its instances of the three interfaces.
    The deadline is a time.Duration, in nanoseconds. *)
Record Worker : Type := mkWorker {
  Instructions : string;
  AgentCommand : list string;
  LintCommand : list string;
  TestCommand : list string;
  Deadline : Z
}.

(** extractBranchFromPRInfo *)
Definition extractBranchFromPRInfo (w : Worker) (prInfo : string)
  : string * error :=
  let matches := FindStringSubmatch re_headRefName prInfo in
  if (1 <? length matches)%nat then (nth 1 matches EmptyString, None) else
  let matches := FindStringSubmatch re_branch prInfo in
  if (1 <? length matches)%nat then (nth 1 matches EmptyString, None) else
  let matches := FindStringSubmatch re_head prInfo in
  if (1 <? length matches)%nat then (nth 1 matches EmptyString, None) else
  (EmptyString, Some "could not extract branch name from PR info").

(** generatePrompt *)
Definition generatePrompt (w : Worker) (prInfo : string) : string :=
  Instructions w +:+ LF +:+ LF +:+ "<pull-request>" +:+ LF +:+ prInfo
  +:+ LF +:+ "</pull-request>".

Definition fence : string := "```".

(** The marker line of a failing and of a passing check. *)
Definition failed_marker : string := cross_mark +:+ " **Failed**" +:+ LF.
Definition passed_marker : string := check_mark +:+ " **Passed**" +:+ LF.

(** A fenced block: the opening fence, the text, the closing fence. *)
Definition fenced (text : string) : string :=
  fence +:+ LF +:+ text +:+ LF +:+ fence +:+ LF.

(** One half of formatResultsComment: what is written after the heading of
    a check, from its error and its captured output. *)
Definition formatCheck (output : string) (err : error) : string :=
  (match err with
   | Some msg => failed_marker +:+ fenced msg
   | None => passed_marker
   end)
  +:+ (if (0 <? String.length output)%nat then fenced output else EmptyString).

(** formatResultsComment *)
Definition formatResultsComment (w : Worker) (lintOutput : string)
           (lintErr : error) (testOutput : string) (testErr : error) : string :=
  "## Kratt Worker Results" +:+ LF +:+ LF
  +:+ "### Lint Results" +:+ LF
  +:+ formatCheck lintOutput lintErr
  +:+ LF
  +:+ "### Test Results" +:+ LF
  +:+ formatCheck testOutput testErr.

Section Workflows.
Context {S : Type} `{!LocalGit S} `{!GitHub S} `{!CommandRunner S}.

(** ProcessPR *)
Definition ProcessPR (w : Worker) (prNumber : Z) : M S Event error error :=
  let* (prInfo, err) := invoke (GetPRInfo prNumber) (fun r => EGetPRInfo prNumber r.1 r.2) in
  return_if_err err "failed to get PR info: " >>
  let '(branch, err) := extractBranchFromPRInfo w prInfo in
  return_if_err err "failed to extract branch from PR info: " >>
  let* (found, err) := invoke (CheckWorktreeExists branch)
                          (fun r => ECheckWorktreeExists branch r.1 r.2) in
  return_if_err err "failed to check worktree existence: " >>
  (if negb found then
     let* (path, err) := invoke (GetWorktreePath branch)
                            (fun r => EGetWorktreePath branch r.1 r.2) in
     return_if_err err "failed to get worktree path: " >>
     let* err := invoke (CreateWorktree branch path) (ECreateWorktree branch path) in
     return_if_err err "failed to create worktree: "
   else ret tt) >>
  let* (path, err) := invoke (GetWorktreePath branch)
                         (fun r => EGetWorktreePath branch r.1 r.2) in
  return_if_err err "failed to get worktree path: " >>
  let* err := invoke (ChangeDirectory path) (EChangeDirectory path) in
  return_if_err err "failed to change directory: " >>
  let prompt := generatePrompt w prInfo in
  let ctx := WithTimeout (Deadline w) in
  let* (command, args) := head_tail (AgentCommand w) in
  let* err := invoke (RunWithStdin ctx prompt command args)
                (ERunWithStdin ctx prompt command args) in
  return_if_err err "failed to run agent: " >>
  let* (command, args) := head_tail (LintCommand w) in
  let* (lintOutput, lintErr) := invoke (RunWithOutput ctx command args)
                                   (fun r => ERunWithOutput ctx command args r.1 r.2) in
  let* (command, args) := head_tail (TestCommand w) in
  let* (testOutput, testErr) := invoke (RunWithOutput ctx command args)
                                   (fun r => ERunWithOutput ctx command args r.1 r.2) in
  let commentBody := formatResultsComment w lintOutput lintErr testOutput testErr in
  let* err := invoke (PostComment prNumber commentBody)
                (EPostComment prNumber commentBody) in
  return_if_err err "failed to post comment: " >>
  let* err := invoke (CommitAndPush "Automated changes from kratt worker")
                (ECommitAndPush "Automated changes from kratt worker") in
  return_if_err err "failed to commit and push: " >>
  ret None.

(** Start *)
Definition Start (w : Worker) (branchName instruction : string)
  : M S Event error error :=
  let* err := invoke (CreateBranch branchName) (ECreateBranch branchName) in
  return_if_err err "failed to create branch: " >>
  let filePath := "docs/" +:+ branchName +:+ "-instructions.md" in
  let* err := invoke (WriteFile filePath instruction) (EWriteFile filePath instruction) in
  return_if_err err "failed to write instructions file: " >>
  let* err := invoke (CommitAndPush ("Add instructions for " +:+ branchName))
                (ECommitAndPush ("Add instructions for " +:+ branchName)) in
  return_if_err err "failed to commit instructions file: " >>
  let* err := invoke (PushBranchUpstream branchName) (EPushBranchUpstream branchName) in
  return_if_err err "failed to push branch upstream: " >>
  let title := "Implement " +:+ branchName in
  let description :=
    "Study docs/" +:+ branchName
    +:+ "-instructions.md and make a list of necessary implementation steps in docs/"
    +:+ branchName +:+ "-implementation-status.md" in
  let* err := invoke (CreatePR title description) (ECreatePR title description) in
  return_if_err err "failed to create pull request: " >>
  ret None.

End Workflows.

(** ** The adapters that shell out (GitRunner, GitHubCLI) *)

(** What os/exec gives the adapters: [exec.Command(argv...).Run()] and
    [exec.Command(argv...).Output()], on the state of the machine. *)
Class OS (S : Type) : Type := {
  cmd_Run : list string -> S -> error * S;
  cmd_Output : list string -> S -> (string * error) * S
}.

(** A command an adapter ran, with what came back. *)
Inductive ExecEvent : Type :=
| ExRun (argv : list string) (err : error)
| ExOutput (argv : list string) (output : string) (err : error).

Definition argv_of (ev : ExecEvent) : list string :=
  match ev with
  | ExRun argv _ => argv
  | ExOutput argv _ _ => argv
  end.

(** The command is [git] with this subcommand. *)
Definition is_git (sub : string) (ev : ExecEvent) : Prop :=
  exists rest, argv_of ev = "git" :: sub :: rest.

(** The part of a [*url.URL] the worker reads. *)
Record URL : Type := mkURL { Scheme : string; Host : string; Path : string }.

(** parseGitHubPath *)
Definition parseGitHubPath (path : string) : string * string * error :=
  let path := strings.TrimPrefix path "/" in
  let path :=
    if strings.HasSuffix path ".git"
    then strings.take (String.length path - 4) path
    else path in
  let parts := strings.Split path "/" in
  if (length parts <? 2)%nat
  then (EmptyString, EmptyString,
        Some ("invalid GitHub path format: " +:+ path))
  else (nth 0 parts EmptyString, nth 1 parts EmptyString, None).

Module GitRunner.
Section GitRunner.
Context {S : Type} `{!OS S}.

(** [url.Parse] of Go's net/url, which is not part of this repository:
    the URL, or the text of the error. *)
Variable url_Parse : string -> URL + string.

Definition Run {R} (argv : list string) : M S ExecEvent R error :=
  invoke (cmd_Run argv) (ExRun argv).

Definition Output {R} (argv : list string)
  : M S ExecEvent R (string * error) :=
  invoke (cmd_Output argv) (fun r => ExOutput argv r.1 r.2).

(** The loop of CheckWorktreeExists: return at the first line that
    matches, go on after the last. *)
Fixpoint range_lines (branch : string) (lines : list string)
  : M S ExecEvent (bool * error) unit :=
  match lines with
  | [] => ret tt
  | line :: rest =>
      if strings.HasPrefix line "branch " && strings.Contains line branch
      then return_ (true, None)
      else range_lines branch rest
  end.

(** CheckWorktreeExists *)
Definition CheckWorktreeExists (branch : string)
  : M S ExecEvent (bool * error) (bool * error) :=
  let* (output, err) := Output ["git"; "worktree"; "list"; "--porcelain"] in
  match err with
  | Some msg => return_ (false, Errorf_w "failed to list worktrees: " msg)
  | None =>
      let lines := strings.Split output LF in
      range_lines branch lines >>
      ret (false, None)
  end.

(** CommitAndPush *)
Definition CommitAndPush (message : string) : M S ExecEvent error error :=
  let* err := Run ["git"; "add"; "."] in
  return_if_err err "failed to add changes: " >>
  let* (statusOutput, err) := Output ["git"; "status"; "--porcelain"] in
  return_if_err err "failed to check git status: " >>
  if (String.length (strings.TrimSpace statusOutput) =? 0)%nat
  then return_ None
  else
    let* err := Run ["git"; "commit"; "-m"; message] in
    return_if_err err "failed to commit changes: " >>
    let* (branchOutput, err) := Output ["git"; "branch"; "--show-current"] in
    return_if_err err "failed to get current branch: " >>
    let branchName := strings.TrimSpace branchOutput in
    let* err := Run ["git"; "push"; "-u"; "origin"; branchName] in
    return_if_err err "failed to push changes: " >>
    ret None.

(** GetGitHubRepository *)
Definition GetGitHubRepository
  : M S ExecEvent (string * string * error) (string * string * error) :=
  let* (output, err) := Output ["git"; "remote"; "get-url"; "origin"] in
  match err with
  | Some msg =>
      return_ (EmptyString, EmptyString,
               Errorf_w "failed to get remote origin URL: " msg)
  | None =>
      let remoteURL := strings.TrimSpace output in
      if strings.HasPrefix remoteURL "git@github.com:"
      then
        let path := strings.TrimPrefix remoteURL "git@github.com:" in
        return_ (parseGitHubPath path)
      else
        match url_Parse remoteURL with
        | inr msg =>
            return_ (EmptyString, EmptyString,
                     Errorf_w "failed to parse remote URL: " msg)
        | inl parsedURL =>
            if negb (String.eqb (Host parsedURL) "github.com")
            then return_ (EmptyString, EmptyString,
                          Some ("not a GitHub repository: " +:+ remoteURL))
            else return_ (parseGitHubPath (Path parsedURL))
        end
  end.

End GitRunner.
End GitRunner.

(** A function body run as a method: the trace is dropped, a panic (none of
    the adapters has one) is reported through [on_panic]. *)
Definition as_method {S E R} (on_panic : string -> R) (body : M S E R R)
  : S -> R * S :=
  fun s =>
    match run body s with
    | (Returned r, w) => (r, impl w)
    | (Panicked msg, w) => (on_panic msg, impl w)
    end.

Module GitHubCLI.
Section GitHubCLI.
Context {S : Type} `{!OS S}.

(** GetPRInfo *)
Definition GetPRInfo (prNumber : Z)
  : M S ExecEvent (string * error) (string * error) :=
  let* (output, err) :=
    GitRunner.Output ["gh"; "pr"; "view"; Itoa prNumber; "--json";
                      "title,body,headRefName,comments"] in
  match err with
  | Some msg =>
      return_ (EmptyString,
               Errorf_w ("failed to get PR info for #" +:+ Itoa prNumber
                         +:+ ": ") msg)
  | None => ret (output, None)
  end.

(** PostComment *)
Definition PostComment (prNumber : Z) (body : string)
  : M S ExecEvent error error :=
  let* err :=
    GitRunner.Run ["gh"; "pr"; "comment"; Itoa prNumber; "--body"; body] in
  return_if_err err ("failed to post comment to PR #" +:+ Itoa prNumber
                     +:+ ": ") >>
  ret None.

(** CreatePR *)
Definition CreatePR (title description : string)
  : M S ExecEvent error error :=
  let* err :=
    GitRunner.Run ["gh"; "pr"; "create"; "--title"; title; "--body";
                   description] in
  return_if_err err ("failed to create PR with title '" +:+ title
                     +:+ "': ") >>
  ret None.

End GitHubCLI.
End GitHubCLI.

#[export] Instance GitHubCLI_GitHub {S : Type} `{!OS S} : GitHub S := {
  GetPRInfo n := as_method (fun msg => (EmptyString, Some msg)) (GitHubCLI.GetPRInfo n);
  PostComment n body := as_method Some (GitHubCLI.PostComment n body);
  CreatePR title description := as_method Some (GitHubCLI.CreatePR title description)
}.

(** ** The in-memory fakes *)

Record FakeLocalGit : Type := mkFakeLocalGit {
  worktrees : gmap string string;
  currentDir : string;
  commits : list string;
  isGitRepo : bool;
  githubOwner : string;
  githubRepo : string;
  createdBranches : list string;
  writtenFiles : gmap string string;
  pushedBranches : list string;
  FailCreateBranch : bool;
  FailWriteFile : bool;
  FailCommitAndPush : bool;
  FailPushBranchUpstream : bool;
  FailGetGitHubRepository : bool
}.

Definition NewFakeLocalGit : FakeLocalGit := {|
  worktrees := ∅;
  currentDir := "/fake/repo";
  commits := [];
  isGitRepo := true;
  githubOwner := "owner";
  githubRepo := "repo";
  createdBranches := [];
  writtenFiles := ∅;
  pushedBranches := [];
  FailCreateBranch := false;
  FailWriteFile := false;
  FailCommitAndPush := false;
  FailPushBranchUpstream := false;
  FailGetGitHubRepository := false
|}.

Module FakeLocalGit.

(** The fields a method of the fake assigns to; the others are kept. *)
Definition set_worktrees (f : FakeLocalGit) (v : gmap string string) :=
  mkFakeLocalGit v (currentDir f) (commits f) (isGitRepo f) (githubOwner f)
    (githubRepo f) (createdBranches f) (writtenFiles f) (pushedBranches f)
    (FailCreateBranch f) (FailWriteFile f) (FailCommitAndPush f)
    (FailPushBranchUpstream f) (FailGetGitHubRepository f).

Definition set_currentDir (f : FakeLocalGit) (v : string) :=
  mkFakeLocalGit (worktrees f) v (commits f) (isGitRepo f) (githubOwner f)
    (githubRepo f) (createdBranches f) (writtenFiles f) (pushedBranches f)
    (FailCreateBranch f) (FailWriteFile f) (FailCommitAndPush f)
    (FailPushBranchUpstream f) (FailGetGitHubRepository f).

Definition set_commits (f : FakeLocalGit) (v : list string) :=
  mkFakeLocalGit (worktrees f) (currentDir f) v (isGitRepo f) (githubOwner f)
    (githubRepo f) (createdBranches f) (writtenFiles f) (pushedBranches f)
    (FailCreateBranch f) (FailWriteFile f) (FailCommitAndPush f)
    (FailPushBranchUpstream f) (FailGetGitHubRepository f).

Definition set_createdBranches (f : FakeLocalGit) (v : list string) :=
  mkFakeLocalGit (worktrees f) (currentDir f) (commits f) (isGitRepo f)
    (githubOwner f) (githubRepo f) v (writtenFiles f) (pushedBranches f)
    (FailCreateBranch f) (FailWriteFile f) (FailCommitAndPush f)
    (FailPushBranchUpstream f) (FailGetGitHubRepository f).

Definition set_writtenFiles (f : FakeLocalGit) (v : gmap string string) :=
  mkFakeLocalGit (worktrees f) (currentDir f) (commits f) (isGitRepo f)
    (githubOwner f) (githubRepo f) (createdBranches f) v (pushedBranches f)
    (FailCreateBranch f) (FailWriteFile f) (FailCommitAndPush f)
    (FailPushBranchUpstream f) (FailGetGitHubRepository f).

Definition set_pushedBranches (f : FakeLocalGit) (v : list string) :=
  mkFakeLocalGit (worktrees f) (currentDir f) (commits f) (isGitRepo f)
    (githubOwner f) (githubRepo f) (createdBranches f) (writtenFiles f) v
    (FailCreateBranch f) (FailWriteFile f) (FailCommitAndPush f)
    (FailPushBranchUpstream f) (FailGetGitHubRepository f).

Definition CheckWorktreeExists (branch : string) (f : FakeLocalGit)
  : (bool * error) * FakeLocalGit :=
  ((bool_decide (is_Some (worktrees f !! branch)), None), f).

Definition CreateWorktree (branch path : string) (f : FakeLocalGit)
  : error * FakeLocalGit :=
  (None, set_worktrees f (<[branch := path]> (worktrees f))).

Definition ChangeDirectory (path : string) (f : FakeLocalGit)
  : error * FakeLocalGit :=
  (None, set_currentDir f path).

Definition CommitAndPush (message : string) (f : FakeLocalGit)
  : error * FakeLocalGit :=
  if FailCommitAndPush f then (Some "fake commit and push failure", f)
  else (None, set_commits f (commits f ++ [message])).

Definition GetWorktreePath (branch : string) (f : FakeLocalGit)
  : (string * error) * FakeLocalGit :=
  match worktrees f !! branch with
  | Some path => ((path, None), f)
  | None => (("/fake/repo-" +:+ branch, None), f)
  end.

Definition IsGitRepository (f : FakeLocalGit)
  : (bool * error) * FakeLocalGit :=
  ((isGitRepo f, None), f).

Definition GetGitHubRepository (f : FakeLocalGit)
  : (string * string * error) * FakeLocalGit :=
  if FailGetGitHubRepository f
  then ((EmptyString, EmptyString, Some "fake get github repository failure"), f)
  else ((githubOwner f, githubRepo f, None), f).

Definition CreateBranch (branchName : string) (f : FakeLocalGit)
  : error * FakeLocalGit :=
  if FailCreateBranch f then (Some "fake create branch failure", f)
  else (None, set_createdBranches f (createdBranches f ++ [branchName])).

Definition WriteFile (path content : string) (f : FakeLocalGit)
  : error * FakeLocalGit :=
  if FailWriteFile f then (Some "fake write file failure", f)
  else (None, set_writtenFiles f (<[path := content]> (writtenFiles f))).

Definition PushBranchUpstream (branchName : string) (f : FakeLocalGit)
  : error * FakeLocalGit :=
  if FailPushBranchUpstream f then (Some "fake push branch upstream failure", f)
  else (None, set_pushedBranches f (pushedBranches f ++ [branchName])).

Definition BranchExists (branchName : string) (f : FakeLocalGit)
  : (bool * error) * FakeLocalGit :=
  ((existsb (String.eqb branchName) (createdBranches f), None), f).

End FakeLocalGit.

#[export] Instance FakeLocalGit_LocalGit : LocalGit FakeLocalGit := {
  CheckWorktreeExists := FakeLocalGit.CheckWorktreeExists;
  CreateWorktree := FakeLocalGit.CreateWorktree;
  ChangeDirectory := FakeLocalGit.ChangeDirectory;
  CommitAndPush := FakeLocalGit.CommitAndPush;
  GetWorktreePath := FakeLocalGit.GetWorktreePath;
  IsGitRepository := FakeLocalGit.IsGitRepository;
  GetGitHubRepository := FakeLocalGit.GetGitHubRepository;
  CreateBranch := FakeLocalGit.CreateBranch;
  WriteFile := FakeLocalGit.WriteFile;
  PushBranchUpstream := FakeLocalGit.PushBranchUpstream;
  BranchExists := FakeLocalGit.BranchExists
}.

Record CreatedPR : Type := mkCreatedPR { Title : string; Description : string }.

Record FakeGitHub : Type := mkFakeGitHub {
  prData : gmap Z string;
  comments : gmap Z (list string);
  createdPRs : list CreatedPR;
  FailCreatePR : bool
}.

Definition NewFakeGitHub : FakeGitHub := {|
  prData := ∅; comments := ∅; createdPRs := []; FailCreatePR := false
|}.

Module FakeGitHub.

Definition SetPRInfo (prNumber : Z) (info : string) (f : FakeGitHub)
  : FakeGitHub :=
  mkFakeGitHub (<[prNumber := info]> (prData f)) (comments f) (createdPRs f)
               (FailCreatePR f).

Definition GetPRInfo (prNumber : Z) (f : FakeGitHub)
  : (string * error) * FakeGitHub :=
  match prData f !! prNumber with
  | Some info => ((info, None), f)
  | None => ((EmptyString, Some ("PR #" +:+ Itoa prNumber +:+ " not found")), f)
  end.

Definition PostComment (prNumber : Z) (body : string) (f : FakeGitHub)
  : error * FakeGitHub :=
  (None,
   mkFakeGitHub (prData f)
     (<[prNumber := default [] (comments f !! prNumber) ++ [body]]> (comments f))
     (createdPRs f) (FailCreatePR f)).

Definition CreatePR (title description : string) (f : FakeGitHub)
  : error * FakeGitHub :=
  if FailCreatePR f then (Some "fake create PR failure", f)
  else (None,
        mkFakeGitHub (prData f) (comments f)
          (createdPRs f ++ [mkCreatedPR title description]) (FailCreatePR f)).

Definition GetComments (prNumber : Z) (f : FakeGitHub) : list string :=
  default [] (comments f !! prNumber).

End FakeGitHub.

#[export] Instance FakeGitHub_GitHub : GitHub FakeGitHub := {
  GetPRInfo := FakeGitHub.GetPRInfo;
  PostComment := FakeGitHub.PostComment;
  CreatePR := FakeGitHub.CreatePR
}.

Record FakeCommandRunner : Type := mkFakeCommandRunner {
  stdinInputs : gmap string string;
  responses : gmap string string;
  errors : gmap string string
}.

Definition NewFakeCommandRunner : FakeCommandRunner := {|
  stdinInputs := ∅; responses := ∅; errors := ∅
|}.

Module FakeCommandRunner.

(** [fmt.Sprintf("%s %s", command, strings.Join(args, " "))] *)
Definition cmdKey (command : string) (args : list string) : string :=
  command +:+ " " +:+ strings.Join args " ".

Definition SetResponse (commandPattern output : string) (err : error)
           (f : FakeCommandRunner) : FakeCommandRunner :=
  mkFakeCommandRunner (stdinInputs f)
    (<[commandPattern := output]> (responses f))
    (match err with
     | Some msg => <[commandPattern := msg]> (errors f)
     | None => errors f
     end).

Definition RunWithStdin (ctx : Context) (stdin command : string)
           (args : list string) (f : FakeCommandRunner)
  : error * FakeCommandRunner :=
  let key := cmdKey command args in
  let f' := mkFakeCommandRunner (<[key := stdin]> (stdinInputs f))
                                (responses f) (errors f) in
  (errors f !! key, f').

Definition RunWithOutput (ctx : Context) (command : string)
           (args : list string) (f : FakeCommandRunner)
  : (string * error) * FakeCommandRunner :=
  let key := cmdKey command args in
  match responses f !! key with
  | Some output => ((output, errors f !! key), f)
  | None => (("fake output", None), f)
  end.

End FakeCommandRunner.

#[export] Instance FakeCommandRunner_CommandRunner
  : CommandRunner FakeCommandRunner := {
  RunWithStdin := FakeCommandRunner.RunWithStdin;
  RunWithOutput := FakeCommandRunner.RunWithOutput
}.

(** A machine that answers each command from a table and has no state of
    its own: what a test would script. An entry answers every command line
    that starts with its words; the first such entry counts, and a command
    with no entry fails to start. *)
Record Scripted : Type := mkScripted {
  answers : list (list string * (string * error))
}.

Fixpoint starts_with (argv words : list string) : bool :=
  match words, argv with
  | [], _ => true
  | x :: words', y :: argv' => String.eqb x y && starts_with argv' words'
  | _ :: _, [] => false
  end.

Definition answer (argv : list string) (m : Scripted) : string * error :=
  match find (fun a => starts_with argv a.1) (answers m) with
  | Some a => a.2
  | None => (EmptyString, Some "executable file not found in $PATH")
  end.

#[export] Instance Scripted_OS : OS Scripted := {
  cmd_Run argv m := ((answer argv m).2, m);
  cmd_Output argv m := (answer argv m, m)
}.

(** ** The dependencies of a worker, injected together *)

Record Deps (G H R : Type) : Type := mkDeps { Git : G; GitHub_ : H; Runner : R }.
Arguments mkDeps {G H R} Git GitHub_ Runner.
Arguments Git {G H R} d.
Arguments GitHub_ {G H R} d.
Arguments Runner {G H R} d.

Section Deps.
Context {G H R : Type}.

Definition on_Git {A} (f : G -> A * G) (d : Deps G H R) : A * Deps G H R :=
  let '(a, g) := f (Git d) in (a, mkDeps g (GitHub_ d) (Runner d)).

Definition on_GitHub {A} (f : H -> A * H) (d : Deps G H R) : A * Deps G H R :=
  let '(a, h) := f (GitHub_ d) in (a, mkDeps (Git d) h (Runner d)).

Definition on_Runner {A} (f : R -> A * R) (d : Deps G H R) : A * Deps G H R :=
  let '(a, r) := f (Runner d) in (a, mkDeps (Git d) (GitHub_ d) r).

#[export] Instance Deps_LocalGit `{!LocalGit G} : LocalGit (Deps G H R) := {
  CheckWorktreeExists branch := on_Git (CheckWorktreeExists branch);
  CreateWorktree branch path := on_Git (CreateWorktree branch path);
  ChangeDirectory path := on_Git (ChangeDirectory path);
  CommitAndPush message := on_Git (CommitAndPush message);
  GetWorktreePath branch := on_Git (GetWorktreePath branch);
  IsGitRepository := on_Git IsGitRepository;
  GetGitHubRepository := on_Git GetGitHubRepository;
  CreateBranch branchName := on_Git (CreateBranch branchName);
  WriteFile path content := on_Git (WriteFile path content);
  PushBranchUpstream branchName := on_Git (PushBranchUpstream branchName);
  BranchExists branchName := on_Git (BranchExists branchName)
}.

#[export] Instance Deps_GitHub `{!GitHub H} : GitHub (Deps G H R) := {
  GetPRInfo prNumber := on_GitHub (GetPRInfo prNumber);
  PostComment prNumber body := on_GitHub (PostComment prNumber body);
  CreatePR title description := on_GitHub (CreatePR title description)
}.

#[export] Instance Deps_CommandRunner `{!CommandRunner R}
  : CommandRunner (Deps G H R) := {
  RunWithStdin ctx stdin command args :=
    on_Runner (RunWithStdin ctx stdin command args);
  RunWithOutput ctx command args := on_Runner (RunWithOutput ctx command args)
}.
End Deps.

(** A stand-in for [url.Parse] on plain remotes [scheme://host/path]: a
    scheme of letters, a host of letters, digits, dots and dashes, a path of
    unreserved characters and slashes. On these Go answers with the three
    parts as they stand (the scheme in lower case); everything else is left
    to the real parser and refused here. *)
Definition plain_url_Parse (rawURL : string) : URL + string :=
  let is_letter c :=
    let n := nat_of_ascii (lower c) in ((97 <=? n) && (n <=? 122))%nat in
  let is_digit c :=
    let n := nat_of_ascii c in ((48 <=? n) && (n <=? 57))%nat in
  let host_byte c :=
    is_letter c || is_digit c || Ascii.eqb c "." || Ascii.eqb c "-" in
  let path_byte c :=
    host_byte c || Ascii.eqb c "/" || Ascii.eqb c "_" || Ascii.eqb c "~" in
  match strings.Split rawURL "://" with
  | [scheme; rest] =>
      let host := hd EmptyString (strings.Split rest "/") in
      let path := strings.drop (String.length host) rest in
      if negb (String.eqb scheme EmptyString)
         && forallb is_letter (list_ascii_of_string scheme)
         && negb (String.eqb host EmptyString)
         && forallb host_byte (list_ascii_of_string host)
         && forallb path_byte (list_ascii_of_string path)
      then inl (mkURL (string_of_list_ascii (map lower (list_ascii_of_string scheme)))
                      host path)
      else inr "not a plain scheme://host/path URL"
  | _ => inr "not a plain scheme://host/path URL"
  end.

(** ** Reading a trace *)

(** The trace ends with this event. *)
Definition ends_with {E} (tr : list E) (ev : E) : Prop :=
  exists pre, tr = pre ++ [ev].

(** The output and error of every check (lint, test) that was run. *)
Definition check_results (tr : list Event) : list (string * error) :=
  flat_map (fun ev =>
              match ev with
              | ERunWithOutput _ _ _ output err => [(output, err)]
              | _ => []
              end) tr.

(** The comments posted, with the pull request they went to. *)
Definition posted (tr : list Event) : list (Z * string) :=
  flat_map (fun ev =>
              match ev with
              | EPostComment prNumber body _ => [(prNumber, body)]
              | _ => []
              end) tr.

(** None of the three patterns of extractBranchFromPRInfo matches. *)
Definition no_branch_name (prInfo : string) : Prop :=
  FindStringSubmatch re_headRefName prInfo = []
  /\ FindStringSubmatch re_branch prInfo = []
  /\ FindStringSubmatch re_head prInfo = [].

(** [s] is [pre], then [sub], then [post]. *)
Definition occurs_in (sub s : string) : Prop :=
  exists pre post, s = pre +:+ sub +:+ post.

(** ** The set-up of worker_test.go and variations of it *)

Definition quoted (s : string) : string :=
  String quote s +:+ String quote EmptyString.

Definition TAB : string := bytes [9].

(** The pull-request info of TestWorkerProcessPR. *)
Definition test_prInfo : string :=
  "{" +:+ LF
  +:+ TAB +:+ TAB +:+ quoted "title" +:+ ": " +:+ quoted "Test PR" +:+ "," +:+ LF
  +:+ TAB +:+ TAB +:+ quoted "body" +:+ ": " +:+ quoted "This is a test PR" +:+ "," +:+ LF
  +:+ TAB +:+ TAB +:+ quoted "headRefName" +:+ ": " +:+ quoted "feature-branch" +:+ "," +:+ LF
  +:+ TAB +:+ TAB +:+ quoted "comments" +:+ ": []" +:+ LF
  +:+ TAB +:+ "}".

(** Five seconds, in nanoseconds. *)
Definition test_worker : Worker := {|
  Instructions := "You are a helpful AI assistant.";
  AgentCommand := ["echo"; "agent-output"];
  LintCommand := ["goimports"; "-w"; "./..."];
  TestCommand := ["go"; "test"; "./..."];
  Deadline := 5000000000
|}.

Definition test_runner : FakeCommandRunner :=
  FakeCommandRunner.SetResponse "go test ./..." ("PASS" +:+ LF +:+ "ok") None
    (FakeCommandRunner.SetResponse "goimports -w ./..." "goimports output" None
       NewFakeCommandRunner).

Definition Fakes : Type := Deps FakeLocalGit FakeGitHub FakeCommandRunner.

(** The fakes as TestWorkerProcessPR sets them up. *)
Definition test_deps : Fakes :=
  mkDeps NewFakeLocalGit (FakeGitHub.SetPRInfo 123 test_prInfo NewFakeGitHub)
         test_runner.

(** The same, with a lint command that fails. *)
Definition lint_fails : Fakes :=
  mkDeps NewFakeLocalGit (FakeGitHub.SetPRInfo 123 test_prInfo NewFakeGitHub)
         (FakeCommandRunner.SetResponse "goimports -w ./..." "main.go"
            (Some "exit status 1") test_runner).

(** The same, with an agent that fails. *)
Definition agent_fails : Fakes :=
  mkDeps NewFakeLocalGit (FakeGitHub.SetPRInfo 123 test_prInfo NewFakeGitHub)
         (FakeCommandRunner.SetResponse "echo agent-output" EmptyString
            (Some "exit status 1") test_runner).

(** A pull request whose info names no branch. *)
Definition no_branch_prInfo : string :=
  "{" +:+ quoted "title" +:+ ": " +:+ quoted "Test PR" +:+ "}".

Definition no_branch : Fakes :=
  mkDeps NewFakeLocalGit
         (FakeGitHub.SetPRInfo 123 no_branch_prInfo NewFakeGitHub) test_runner.

(** The fakes before any pull request is known to them. *)
Definition no_pull_request : Fakes :=
  mkDeps NewFakeLocalGit NewFakeGitHub test_runner.

(** A worker whose agent command was left empty. *)
Definition no_agent_worker : Worker := {|
  Instructions := "You are a helpful AI assistant.";
  AgentCommand := [];
  LintCommand := ["goimports"; "-w"; "./..."];
  TestCommand := ["go"; "test"; "./..."];
  Deadline := 5000000000
|}.

(** The GitHub CLI on a machine where viewing pull request 123 works and
    commenting is refused, next to the fakes for git and for commands, the
    lint command failing. *)
Definition comments_refused
  : Deps FakeLocalGit Scripted FakeCommandRunner :=
  mkDeps NewFakeLocalGit
         (mkScripted [(["gh"; "pr"; "view"; "123"], (test_prInfo, None));
                      (["gh"; "pr"; "comment"], (EmptyString, Some "exit status 1"))])
         (Runner lint_fails).

(** A repository with nothing to commit, one worktree (for the branch
    feature-2) and its origin on GitHub, given by SSH. *)
Definition clean_machine : Scripted :=
  mkScripted
    [(["git"; "add"; "."], (EmptyString, None));
     (["git"; "status"; "--porcelain"], (" " +:+ LF, None));
     (["git"; "worktree"; "list"; "--porcelain"],
      ("worktree /src/kratt-feature-2" +:+ LF
       +:+ "HEAD 0123456789abcdef0123456789abcdef01234567" +:+ LF
       +:+ "branch refs/heads/feature-2" +:+ LF +:+ LF, None));
     (["git"; "remote"; "get-url"; "origin"],
      ("git@github.com:acme/widgets.git" +:+ LF, None))].

(** The same origin given by HTTPS, and an origin on another host. *)
Definition https_machine : Scripted :=
  mkScripted [(["git"; "remote"; "get-url"; "origin"],
               ("https://github.com/acme/widgets.git" +:+ LF, None))].

Definition gitlab_machine : Scripted :=
  mkScripted [(["git"; "remote"; "get-url"; "origin"],
               ("https://gitlab.com/acme/widgets.git" +:+ LF, None))].

(** ** More ways to read a trace *)

(** The text ProcessPR puts in front of the error of a failed call. *)
Definition ProcessPR_stage (m : Method) : string :=
  match m with
  | MGetPRInfo => "failed to get PR info: "
  | MCheckWorktreeExists => "failed to check worktree existence: "
  | MGetWorktreePath => "failed to get worktree path: "
  | MCreateWorktree => "failed to create worktree: "
  | MChangeDirectory => "failed to change directory: "
  | MRunWithStdin => "failed to run agent: "
  | MPostComment => "failed to post comment: "
  | MCommitAndPush => "failed to commit and push: "
  | _ => EmptyString
  end.

(** The text Start puts in front of the error of a failed call. *)
Definition Start_stage (m : Method) : string :=
  match m with
  | MCreateBranch => "failed to create branch: "
  | MWriteFile => "failed to write instructions file: "
  | MCommitAndPush => "failed to commit instructions file: "
  | MPushBranchUpstream => "failed to push branch upstream: "
  | MCreatePR => "failed to create pull request: "
  | _ => EmptyString
  end.

(** The command lines run to capture their output, in order. *)
Definition checks_run (tr : list Event) : list (list string) :=
  flat_map (fun ev =>
              match ev with
              | ERunWithOutput _ command args _ _ => [command :: args]
              | _ => []
              end) tr.

(** [a] is followed at once by [b]. *)
Definition adjacent {E} (a b : E) (tr : list E) : Prop :=
  exists pre post, tr = pre ++ a :: b :: post.

(** The branch a worktree call is about. *)
Definition worktree_branch (ev : Event) : option string :=
  match ev with
  | ECheckWorktreeExists branch _ _ => Some branch
  | ECreateWorktree branch _ _ => Some branch
  | EGetWorktreePath branch _ _ => Some branch
  | _ => None
  end.

(** ** The accessors of the fakes *)

(** FakeCommandRunner.GetStdinInput: the zero value for a missing key. *)
Definition GetStdinInput (command : string) (f : FakeCommandRunner) : string :=
  default EmptyString (stdinInputs f !! command).

(** FakeLocalGit.SetGitRepository *)
Definition SetGitRepository (isRepo : bool) (f : FakeLocalGit) : FakeLocalGit :=
  mkFakeLocalGit (worktrees f) (currentDir f) (commits f) isRepo (githubOwner f)
    (githubRepo f) (createdBranches f) (writtenFiles f) (pushedBranches f)
    (FailCreateBranch f) (FailWriteFile f) (FailCommitAndPush f)
    (FailPushBranchUpstream f) (FailGetGitHubRepository f).

(** FakeLocalGit.SetGitHubRepository *)
Definition SetGitHubRepository (owner repo : string) (f : FakeLocalGit)
  : FakeLocalGit :=
  mkFakeLocalGit (worktrees f) (currentDir f) (commits f) (isGitRepo f) owner
    repo (createdBranches f) (writtenFiles f) (pushedBranches f)
    (FailCreateBranch f) (FailWriteFile f) (FailCommitAndPush f)
    (FailPushBranchUpstream f) (FailGetGitHubRepository f).

(** What is left of a path for parseGitHubPath to split: one leading slash
    and one .git suffix are taken off. *)
Definition bare_path (path : string) : string :=
  let path := strings.TrimPrefix path "/" in
  if strings.HasSuffix path ".git"
  then strings.take (String.length path - 4) path
  else path.

(** The text CommitAndPush of the GitRunner puts in front of the error of a
    failed command, by the git subcommand. *)
Definition CommitAndPush_stage (ev : ExecEvent) : string :=
  match argv_of ev with
  | _ :: "add" :: _ => "failed to add changes: "
  | _ :: "status" :: _ => "failed to check git status: "
  | _ :: "commit" :: _ => "failed to commit changes: "
  | _ :: "branch" :: _ => "failed to get current branch: "
  | _ :: "push" :: _ => "failed to push changes: "
  | _ => EmptyString
  end.

(** The error a command came back with. *)
Definition exec_err (ev : ExecEvent) : error :=
  match ev with
  | ExRun _ err => err
  | ExOutput _ _ err => err
  end.

(** A repository with a modified file, on the branch feature-branch, where
    committing and pushing work. *)
Definition dirty_machine : Scripted :=
  mkScripted
    [(["git"; "add"; "."], (EmptyString, None));
     (["git"; "status"; "--porcelain"], (" M main.go" +:+ LF, None));
     (["git"; "commit"; "-m"], (EmptyString, None));
     (["git"; "branch"; "--show-current"], ("feature-branch" +:+ LF, None));
     (["git"; "push"; "-u"; "origin"; "feature-branch"], (EmptyString, None))].

(** Every byte of the string is in the class. *)
Fixpoint every (p : ascii -> bool) (s : string) : bool :=
  match s with
  | EmptyString => true
  | String c s' => p c && every p s'
  end.

Definition not_quote (c : ascii) : bool := negb (Ascii.eqb c quote).
Definition not_space (c : ascii) : bool := negb (space c).

(** Wherever the pattern matches, its group holds one or more bytes of the
    class. *)
Definition captures (p : ascii -> bool) (r : Regexp) : Prop :=
  forall (s : string) (cap : option string)
         (k : string -> option string -> option (string * option string))
         (res : string * option string),
    matchHere r s cap k = Some res ->
    exists x s', x <> EmptyString /\ every p x = true
                 /\ k s' (Some x) = Some res.

(** The text does not start at any position inside [pre], read on into
    [rest]. *)
Fixpoint starts_nowhere_in (text pre rest : string) : bool :=
  match pre with
  | EmptyString => true
  | String c pre' =>
      negb (String.prefix text (pre +:+ rest))
      && starts_nowhere_in text pre' rest
  end.

(** The key of the branch field as the GitHub CLI prints it, with its colon. *)
Definition headRefName_key : string := quoted "headRefName" +:+ ":".

(** The continuation FindStringSubmatch matches with: the match is over. *)
Definition found (s' : string) (cap : option string)
  : option (string * option string) := Some (s', cap).

(** ** The command line: kratt worker start (cmd/root.go,
    cmd/worker_start.go) *)

Module cmd.

(** MatchString of a compiled pattern: the text holds a match of it. *)
Definition MatchString (re : Regexp) (s : string) : bool :=
  negb (length (FindStringSubmatch re s) =? 0)%nat.

(** The class of the first pattern of isValidBranchName: tilde, caret,
    colon, question mark, asterisk, the two square brackets, [\s] and the
    backslash. *)
Definition invalid_char (c : ascii) : bool :=
  existsb (Ascii.eqb c) (list_ascii_of_string "\~^:?*[]") || space c.

Definition re_invalidChars : Regexp := Class invalid_char.

(** The second pattern: two dots. *)
Definition re_dots : Regexp := Cat (byte_is ".") (byte_is ".").

(** [name[i] == c]. The index is in range wherever isValidBranchName reads
    it: Go's [||] has settled the condition before when the name is empty. *)
Definition byte_at_is (name : string) (i : nat) (c : ascii) : bool :=
  match String.get i name with
  | Some x => Ascii.eqb x c
  | None => false
  end.

Definition isValidBranchName (name : string) : bool :=
  if MatchString re_invalidChars name then false else
  if (String.length name =? 0)%nat
     || byte_at_is name 0 "."
     || byte_at_is name 0 "/"
     || byte_at_is name (String.length name - 1) "."
     || byte_at_is name (String.length name - 1) "/"
  then false else
  if MatchString re_dots name then false else
  true.

(** A byte a branch name may hold. *)
Definition allowed (c : ascii) : bool := negb (invalid_char c).

(** The first, the last byte of the text is [c]. *)
Definition first_is (c : ascii) (s : string) : bool :=
  match s with
  | EmptyString => false
  | String x _ => Ascii.eqb x c
  end.

Fixpoint last_is (c : ascii) (s : string) : bool :=
  match s with
  | EmptyString => false
  | String x EmptyString => Ascii.eqb x c
  | String _ s' => last_is c s'
  end.

(** The table of TestIsValidBranchName. *)
Definition branch_name_tests : list (string * bool) :=
  [("feature", true); ("feature/auth", true); ("feature-auth", true);
   ("feature_auth", true); (EmptyString, false); (".feature", false);
   ("feature.", false); ("/feature", false); ("feature/", false);
   ("feature auth", false); ("feature:auth", false); ("feature?auth", false);
   ("feature*auth", false); ("feature[auth]", false);
   ("feature..auth", false); ("feature~auth", false); ("feature^auth", false)].

(** The flags of the root command, package variables of cmd. *)
Record Flags : Type := mkFlags {
  timeout : Z;
  instructions : string;
  agentCommand : list string;
  lintCommand : list string;
  testCommand : list string;
  verbose : bool
}.

(** What a command does: the calls of the repository checks, what it
    prints, and the calls the worker makes for it. *)
Inductive Call : Type :=
| EIsGitRepository (isGitRepo : bool) (err : error)
| EGetGitHubRepository (owner repo : string) (err : error)
| EBranchExists (branchName : string) (found : bool) (err : error)
| EPrintf (text : string)
| EWorker (ev : Event).

Definition index_panic (i n : nat) : string :=
  "runtime error: index out of range [" +:+ Itoa (Z.of_nat i)
  +:+ "] with length " +:+ Itoa (Z.of_nat n).

Section Commands.
Context {S : Type} `{!LocalGit S} `{!GitHub S} `{!CommandRunner S}.

(** [args[i]]. *)
Definition index {E R} (args : list string) (i : nat) : M S E R string :=
  match nth_error args i with
  | Some x => ret x
  | None => panic (index_panic i (length args))
  end.

Definition Printf {R} (text : string) : M S Call R unit :=
  fun W => (Next tt, mkWorld (impl W) (trace W ++ [EPrintf text])).

(** A method of the worker called from a command; the calls it makes are
    the command's, and so is its panic. *)
Definition call {R A} (body : M S Event A A) : M S Call R A :=
  fun W =>
    match run body (impl W) with
    | (Returned a, W') =>
        (Next a, mkWorld (impl W') (trace W ++ map EWorker (trace W')))
    | (Panicked msg, W') =>
        (Panic msg, mkWorld (impl W') (trace W ++ map EWorker (trace W')))
    end.

Definition start_instructions : string :=
  "You are an AI assistant helping with implementation. Please analyze the instructions and implement the requested feature.".

(** runWorkerStart. The command builds its worker on GitRunner, GitHubCLI
    and ExecRunner; here they are whatever implements the three
    capabilities on the state [S], so what is proved holds for them too. *)
Definition runWorkerStart (f : Flags) (args : list string)
  : M S Call error error :=
  let* branchName := index args 0 in
  let* instructions := index args 1 in
  (if negb (isValidBranchName branchName)
   then return_ (Some "invalid branch name: must not contain invalid characters")
   else ret tt) >>
  let* (isGitRepo, err) :=
    invoke IsGitRepository (fun r => EIsGitRepository r.1 r.2) in
  return_if_err err "error checking git repository: " >>
  (if negb isGitRepo
   then return_ (Some "current directory is not a git repository")
   else ret tt) >>
  let* (owner, repo, err) :=
    invoke GetGitHubRepository
           (fun r => EGetGitHubRepository r.1.1 r.1.2 r.2) in
  return_if_err err "no GitHub remote found in current repository: " >>
  (if verbose f
   then Printf ("Creating branch " +:+ branchName +:+ " in repository "
                +:+ owner +:+ "/" +:+ repo +:+ LF)
   else ret tt) >>
  let* (found, err) :=
    invoke (BranchExists branchName)
           (fun r => EBranchExists branchName r.1 r.2) in
  return_if_err err "error checking if branch exists: " >>
  (if found
   then return_ (Some ("branch already exists: " +:+ branchName))
   else ret tt) >>
  let w := {|
    Instructions := start_instructions;
    AgentCommand := agentCommand f;
    LintCommand := lintCommand f;
    TestCommand := testCommand f;
    Deadline := timeout f
  |} in
  let* err := call (Start w branchName instructions) in
  return_if_err err ("failed to start branch " +:+ branchName +:+ ": ") >>
  (if verbose f
   then Printf ("Successfully created branch " +:+ branchName
                +:+ " and opened pull request" +:+ LF)
   else ret tt) >>
  ret None.

End Commands.

(** The calls of a run of the start command in which every check passed. *)
Definition checks_passed (f : Flags) (branchName owner repo : string)
  : list Call :=
  [EIsGitRepository true None; EGetGitHubRepository owner repo None]
  ++ (if verbose f
      then [EPrintf ("Creating branch " +:+ branchName +:+ " in repository "
                     +:+ owner +:+ "/" +:+ repo +:+ LF)]
      else [])
  ++ [EBranchExists branchName false None].

(** The five calls of a Start that went through. *)
Definition started (branchName instruction : string) : list Event :=
  [ECreateBranch branchName None;
   EWriteFile ("docs/" +:+ branchName +:+ "-instructions.md") instruction None;
   ECommitAndPush ("Add instructions for " +:+ branchName) None;
   EPushBranchUpstream branchName None;
   ECreatePR ("Implement " +:+ branchName)
             ("Study docs/" +:+ branchName
              +:+ "-instructions.md and make a list of necessary implementation steps in docs/"
              +:+ branchName +:+ "-implementation-status.md") None].

(** The calls the worker made for a command. *)
Definition worker_calls (tr : list Call) : list Event :=
  flat_map (fun c => match c with EWorker ev => [ev] | _ => [] end) tr.

(** The defaults of the flags. *)
Definition default_flags : Flags := {|
  timeout := 30 * 60 * 1000000000;
  instructions := EmptyString;
  agentCommand := ["amp"; "--stdin"];
  lintCommand := ["go"; "fmt"; "./..."];
  testCommand := ["go"; "test"; "./..."];
  verbose := false
|}.

End cmd.

(** * Properties *)

(** ** Strings *)

Lemma append_cons (x : ascii) (a b : string) :
  String x a +:+ b = String x (a +:+ b).
Proof. reflexivity. Qed.

Lemma append_nil_r (a : string) : a +:+ EmptyString = a.
Proof.
  induction a as [|x a IH]; [reflexivity|].
  change (String x (a +:+ EmptyString) = String x a). now rewrite IH.
Qed.

Lemma append_nil_l (a : string) : EmptyString +:+ a = a.
Proof. reflexivity. Qed.

Lemma append_assoc (a b c : string) : (a +:+ b) +:+ c = a +:+ (b +:+ c).
Proof.
  induction a as [|x a IH]; [reflexivity|].
  rewrite !append_cons, IH. reflexivity.
Qed.

Lemma prefix_append (sub post : string) : String.prefix sub (sub +:+ post) = true.
Proof.
  induction sub as [|x sub IH].
  - rewrite append_nil_l. now destruct post.
  - rewrite append_cons. simpl.
    destruct (ascii_dec x x) as [_|Hne]; [exact IH | now destruct Hne].
Qed.

Lemma prefix_split (sub s : string) :
  String.prefix sub s = true -> exists post, s = sub +:+ post.
Proof.
  revert s. induction sub as [|x sub IH]; intros s Hp.
  - exists s. reflexivity.
  - destruct s as [|y s]; simpl in Hp; [discriminate|].
    destruct (ascii_dec x y) as [->|_]; [|discriminate].
    destruct (IH _ Hp) as [post ->]. exists post. reflexivity.
Qed.

(** strings.Contains finds exactly the substrings. *)
Lemma Contains_occurs (s sub : string) :
  strings.Contains s sub = true <-> occurs_in sub s.
Proof.
  split.
  - induction s as [|x s IH]; cbn [strings.Contains]; intros Hc.
    + rewrite orb_false_r in Hc. destruct (prefix_split _ _ Hc) as [post Hpost].
      exists EmptyString, post. exact Hpost.
    + apply orb_true_iff in Hc as [Hp|Hc].
      * destruct (prefix_split _ _ Hp) as [post Hpost].
        exists EmptyString, post. exact Hpost.
      * destruct (IH Hc) as (pre & post & ->).
        exists (String x pre), post. reflexivity.
  - intros (pre & post & ->). induction pre as [|x pre IH].
    + rewrite append_nil_l.
      assert (Hp := prefix_append sub post).
      destruct (sub +:+ post); cbn [strings.Contains]; rewrite Hp; reflexivity.
    + rewrite append_cons. cbn [strings.Contains]. rewrite IH. apply orb_true_r.
Qed.

Lemma occurs_in_start (sub post : string) : occurs_in sub (sub +:+ post).
Proof. exists EmptyString, post. reflexivity. Qed.

Lemma occurs_in_whole (sub : string) : occurs_in sub sub.
Proof. exists EmptyString, EmptyString. now rewrite append_nil_l, append_nil_r. Qed.

Lemma occurs_in_later (a sub t : string) :
  occurs_in sub t -> occurs_in sub (a +:+ t).
Proof.
  intros (pre & post & ->). exists (a +:+ pre), post.
  now rewrite append_assoc.
Qed.

Lemma occurs_in_shared (a sub t : string) :
  (exists post, t = sub +:+ post) ->
  occurs_in (a +:+ sub) (a +:+ t).
Proof.
  intros (post & ->). exists EmptyString, post.
  now rewrite append_nil_l, append_assoc.
Qed.

(** Find [sub] among the pieces of a concatenation. *)
Ltac find_piece :=
  rewrite ?append_assoc;
  repeat first
    [ apply occurs_in_whole
    | apply occurs_in_start
    | apply occurs_in_shared; eexists; rewrite ?append_assoc; reflexivity
    | apply occurs_in_later ].

(** What the results comment shows for each check: under the heading of the
    check the marker of its outcome, and its captured output, when there is
    any, in a fenced block. *)
Lemma formatResultsComment_shows
      (w : Worker) (lintOutput : string) (lintErr : error)
      (testOutput : string) (testErr : error) :
  let body := formatResultsComment w lintOutput lintErr testOutput testErr in
  (lintErr <> None ->
   strings.Contains body ("### Lint Results" +:+ LF +:+ failed_marker) = true)
  /\ (lintErr = None ->
      strings.Contains body ("### Lint Results" +:+ LF +:+ passed_marker) = true)
  /\ (testErr <> None ->
      strings.Contains body ("### Test Results" +:+ LF +:+ failed_marker) = true)
  /\ (testErr = None ->
      strings.Contains body ("### Test Results" +:+ LF +:+ passed_marker) = true)
  /\ (lintOutput <> EmptyString ->
      strings.Contains body (fenced lintOutput) = true)
  /\ (testOutput <> EmptyString ->
      strings.Contains body (fenced testOutput) = true).
Proof.
  cbv zeta. unfold formatResultsComment, formatCheck.
  repeat split; intros Hc; apply Contains_occurs;
    destruct lintErr as [le|], testErr as [te|];
    destruct lintOutput as [|lc lo], testOutput as [|tc to];
    try contradiction; try discriminate; cbn [String.length Nat.ltb Nat.leb];
    find_piece.
Qed.

(** FindStringSubmatch gives nothing, or the match and its group. *)
Lemma FindStringSubmatch_shape (re : Regexp) (s : string) :
  FindStringSubmatch re s = [] \/ exists m g, FindStringSubmatch re s = [m; g].
Proof.
  induction s as [|c s IH]; cbn [FindStringSubmatch];
    destruct (matchHere re _ None _) as [[s' cap]|]; eauto.
Qed.

(** ** Traces *)

Lemma ends_with_one {E} (ev : E) : ends_with [ev] ev.
Proof. exists []. reflexivity. Qed.

Lemma ends_with_cons {E} (e ev : E) tr : ends_with tr ev -> ends_with (e :: tr) ev.
Proof. intros [pre ->]. exists (e :: pre). reflexivity. Qed.

Lemma preceded_by_skip (P Q : Event -> Prop) e tr :
  ~ Q e -> preceded_by P Q tr -> preceded_by P Q (e :: tr).
Proof.
  intros Hq Htr [|e' pre] ev post Heq Hev; simplify_eq/=.
  - contradiction.
  - apply Exists_cons_tl. eapply Htr; eauto.
Qed.

Lemma preceded_by_hit (P Q : Event -> Prop) e tr :
  ~ Q e -> P e -> preceded_by P Q (e :: tr).
Proof.
  intros Hq Hp [|e' pre] ev post Heq Hev; simplify_eq/=.
  - contradiction.
  - apply Exists_cons_hd. assumption.
Qed.

Section WorkflowProperties.
Context {S : Type} `{!LocalGit S} `{!GitHub S} `{!CommandRunner S}.

(** Unfold one workflow down to the calls it makes. *)
Ltac open_workflow :=
  unfold run, ProcessPR, Start, head_tail, return_if_err, bind, invoke, ret,
    return_, panic, Errorf_w;
  cbn [impl trace fst snd app].

Ltac simp_step := cbn [impl trace fst snd app negb].

(** Case analysis on the result of the next call in program order. *)
Ltac next_call :=
  match goal with
  | |- context [GetPRInfo ?n ?s] =>
      destruct (GetPRInfo n s) as [[? [?|]] ?] eqn:?
  | |- context [extractBranchFromPRInfo ?w ?i] =>
      destruct (extractBranchFromPRInfo w i) as [? [?|]] eqn:?
  | |- context [CheckWorktreeExists ?b ?s] =>
      destruct (CheckWorktreeExists b s) as [[[|] [?|]] ?] eqn:?
  | |- context [GetWorktreePath ?b ?s] =>
      destruct (GetWorktreePath b s) as [[? [?|]] ?] eqn:?
  | |- context [CreateWorktree ?b ?p ?s] =>
      destruct (CreateWorktree b p s) as [[?|] ?] eqn:?
  | |- context [ChangeDirectory ?p ?s] =>
      destruct (ChangeDirectory p s) as [[?|] ?] eqn:?
  | |- context [RunWithStdin ?c ?i ?cmd ?a ?s] =>
      destruct (RunWithStdin c i cmd a s) as [[?|] ?] eqn:?
  | |- context [RunWithOutput ?c ?cmd ?a ?s] =>
      destruct (RunWithOutput c cmd a s) as [[? ?] ?] eqn:?
  | |- context [PostComment ?n ?b ?s] =>
      destruct (PostComment n b s) as [[?|] ?] eqn:?
  | |- context [CommitAndPush ?m ?s] =>
      destruct (CommitAndPush m s) as [[?|] ?] eqn:?
  | |- context [CreateBranch ?b ?s] =>
      destruct (CreateBranch b s) as [[?|] ?] eqn:?
  | |- context [WriteFile ?p ?c ?s] =>
      destruct (WriteFile p c s) as [[?|] ?] eqn:?
  | |- context [PushBranchUpstream ?b ?s] =>
      destruct (PushBranchUpstream b s) as [[?|] ?] eqn:?
  | |- context [CreatePR ?t ?d ?s] =>
      destruct (CreatePR t d s) as [[?|] ?] eqn:?
  | |- context [match AgentCommand ?w with _ => _ end] =>
      destruct (AgentCommand w) as [|? ?] eqn:?
  | |- context [match LintCommand ?w with _ => _ end] =>
      destruct (LintCommand w) as [|? ?] eqn:?
  | |- context [match TestCommand ?w with _ => _ end] =>
      destruct (TestCommand w) as [|? ?] eqn:?
  end; simp_step.

Ltac all_paths := open_workflow; repeat next_call.

(** Name the outcome and the trace of the finished run. *)
Ltac finished := intros [= <- <-]; cbn [trace].

(** Which event of a known trace a membership hypothesis speaks of. *)
Ltac which_event H :=
  cbn [In] in H;
  repeat (destruct H as [H|H]; [try discriminate H|]);
  try contradiction.

Ltac ends :=
  repeat first [apply ends_with_one | apply ends_with_cons].

(** extractBranchFromPRInfo fails exactly when no pattern matches. *)
Lemma extractBranchFromPRInfo_none (w : Worker) (prInfo : string) :
  no_branch_name prInfo ->
  extractBranchFromPRInfo w prInfo
  = (EmptyString, Some "could not extract branch name from PR info").
Proof.
  intros (H1 & H2 & H3). unfold extractBranchFromPRInfo.
  rewrite H1, H2, H3. reflexivity.
Qed.

(** And only then. *)
Lemma extractBranchFromPRInfo_fails (w : Worker) (prInfo : string) :
  (extractBranchFromPRInfo w prInfo).2 <> None <-> no_branch_name prInfo.
Proof.
  split.
  - unfold extractBranchFromPRInfo, no_branch_name.
    destruct (FindStringSubmatch_shape re_headRefName prInfo) as [->|(a & b & ->)];
      [|intros Hn; now contradiction Hn].
    destruct (FindStringSubmatch_shape re_branch prInfo) as [->|(a & b & ->)];
      [|intros Hn; now contradiction Hn].
    destruct (FindStringSubmatch_shape re_head prInfo) as [->|(a & b & ->)];
      [|intros Hn; now contradiction Hn].
    intros _. repeat split.
  - intros Hno. rewrite (extractBranchFromPRInfo_none w _ Hno). discriminate.
Qed.

(** C1. When the agent step fails, ProcessPR returns that failure at once:
    the failed RunWithStdin is the last call of the run, so neither the
    lint nor the test command is run, no comment is posted and nothing is
    committed. *)
Theorem ProcessPR_agent_failure_aborts
        (w : Worker) (prNumber : Z) (s : S) out W ctx stdin command args msg :
  run (ProcessPR w prNumber) s = (out, W) ->
  In (ERunWithStdin ctx stdin command args (Some msg)) (trace W) ->
  out = Returned (Some ("failed to run agent: " +:+ msg))
  /\ ends_with (trace W) (ERunWithStdin ctx stdin command args (Some msg))
  /\ calls MRunWithOutput (trace W) = 0
  /\ calls MPostComment (trace W) = 0
  /\ calls MCommitAndPush (trace W) = 0.
Proof.
  all_paths; finished; intros Hin; which_event Hin;
    injection Hin as <- <- <- <- <-;
    (split; [reflexivity | split; [ends | repeat split]]).
Qed.

(** C3. When no branch name can be extracted from the pull-request info,
    ProcessPR fails with the branch-resolution error and the fetch of the
    info is the only call it has made. *)
Theorem ProcessPR_unresolved_branch_aborts
        (w : Worker) (prNumber : Z) (s : S) out W prInfo :
  run (ProcessPR w prNumber) s = (out, W) ->
  In (EGetPRInfo prNumber prInfo None) (trace W) ->
  no_branch_name prInfo ->
  out = Returned (Some ("failed to extract branch from PR info: "
                        +:+ "could not extract branch name from PR info"))
  /\ trace W = [EGetPRInfo prNumber prInfo None].
Proof.
  all_paths; finished; intros Hin Hno; which_event Hin;
    injection Hin as <-;
    match goal with
    | E : extractBranchFromPRInfo _ _ = _ |- _ =>
        rewrite (extractBranchFromPRInfo_none _ _ Hno) in E;
        try discriminate E; injection E as <- <-
    end.
  split; reflexivity.
Qed.

(** C4. When posting the results comment fails, ProcessPR returns the
    reporting error at once and CommitAndPush is never called. *)
Theorem ProcessPR_comment_failure_aborts
        (w : Worker) (prNumber : Z) (s : S) out W n body msg :
  run (ProcessPR w prNumber) s = (out, W) ->
  In (EPostComment n body (Some msg)) (trace W) ->
  out = Returned (Some ("failed to post comment: " +:+ msg))
  /\ ends_with (trace W) (EPostComment n body (Some msg))
  /\ calls MCommitAndPush (trace W) = 0.
Proof.
  all_paths; finished; intros Hin; which_event Hin;
    injection Hin as <- <- <-;
    (split; [reflexivity | split; [ends | reflexivity]]).
Qed.

(** C5. With a resolvable branch, ProcessPR checks the worktree of that
    branch before any creation, creates a worktree at most once, and not
    at all when the check reports that one exists. *)
Theorem ProcessPR_worktree_check_then_create
        (w : Worker) (prNumber : Z) (s : S) out W prInfo branch :
  run (ProcessPR w prNumber) s = (out, W) ->
  In (EGetPRInfo prNumber prInfo None) (trace W) ->
  extractBranchFromPRInfo w prInfo = (branch, None) ->
  (exists found err, In (ECheckWorktreeExists branch found err) (trace W))
  /\ preceded_by (fun ev => exists found err,
                      ev = ECheckWorktreeExists branch found err)
                 (fun ev => method_of ev = MCreateWorktree) (trace W)
  /\ calls MCreateWorktree (trace W) <= 1
  /\ (forall err, In (ECheckWorktreeExists branch true err) (trace W) ->
                  calls MCreateWorktree (trace W) = 0).
Proof.
  intros Hrun Hin Hbranch; revert Hrun; all_paths; finished;
    cbn [trace] in Hin; which_event Hin; injection Hin as <-;
    match goal with
    | E : extractBranchFromPRInfo _ _ = _ |- _ =>
        rewrite Hbranch in E; try discriminate E; injection E as <-
    end.
  all: split; [do 2 eexists; right; left; reflexivity|].
  all: split;
    [apply preceded_by_skip; [discriminate|];
     apply preceded_by_hit; [discriminate | do 2 eexists; reflexivity]|].
  all: split; [unfold calls; cbn; lia|].
  all: intros err Hin; which_event Hin; reflexivity.
Qed.

(** C2. Once lint and test have run, their failures do not abort the run:
    exactly one comment is posted, on this pull request, with the report
    of the two results, which shows for each check the marker of its
    outcome and its captured output; and when that comment is accepted the
    run goes on to CommitAndPush, its last call. *)
Theorem ProcessPR_reports_check_results
        (w : Worker) (prNumber : Z) (s : S) out W
        lintOutput lintErr testOutput testErr :
  run (ProcessPR w prNumber) s = (out, W) ->
  check_results (trace W) = [(lintOutput, lintErr); (testOutput, testErr)] ->
  let body := formatResultsComment w lintOutput lintErr testOutput testErr in
  posted (trace W) = [(prNumber, body)]
  /\ calls MPostComment (trace W) = 1
  /\ ((lintErr <> None ->
       strings.Contains body ("### Lint Results" +:+ LF +:+ failed_marker) = true)
      /\ (lintErr = None ->
          strings.Contains body ("### Lint Results" +:+ LF +:+ passed_marker) = true)
      /\ (testErr <> None ->
          strings.Contains body ("### Test Results" +:+ LF +:+ failed_marker) = true)
      /\ (testErr = None ->
          strings.Contains body ("### Test Results" +:+ LF +:+ passed_marker) = true)
      /\ (lintOutput <> EmptyString ->
          strings.Contains body (fenced lintOutput) = true)
      /\ (testOutput <> EmptyString ->
          strings.Contains body (fenced testOutput) = true))
  /\ (In (EPostComment prNumber body None) (trace W) ->
      calls MCommitAndPush (trace W) = 1
      /\ exists err,
          ends_with (trace W)
                    (ECommitAndPush "Automated changes from kratt worker" err)).
Proof.
  intros Hrun Hchecks body. subst body.
  split; [|split; [|split; [apply formatResultsComment_shows|]]];
    revert Hrun; all_paths; finished; cbn in Hchecks; try discriminate Hchecks;
    injection Hchecks as <- <- <- <-; try reflexivity.
  all: intros Hin; which_event Hin; (split; [reflexivity | eexists; ends]).
Qed.

(** C9. ProcessPR takes element 0 and the rest of the agent, lint and test
    commands unguarded: a run that gets as far as the step of an empty
    command panics there, out of the bounds of the slice, with the text
    slice bounds out of range [1:0]; and with the three commands non-empty
    no run panics. *)
Theorem ProcessPR_empty_command_panics
        (w : Worker) (prNumber : Z) (s : S) out W :
  run (ProcessPR w prNumber) s = (out, W) ->
  (AgentCommand w = [] ->
   (exists path, In (EChangeDirectory path None) (trace W)) ->
   out = Panicked slice_bounds_panic)
  /\ (LintCommand w = [] ->
      (exists ctx stdin command args,
          In (ERunWithStdin ctx stdin command args None) (trace W)) ->
      out = Panicked slice_bounds_panic)
  /\ (TestCommand w = [] ->
      calls MRunWithOutput (trace W) <> 0 ->
      out = Panicked slice_bounds_panic)
  /\ (AgentCommand w <> [] -> LintCommand w <> [] -> TestCommand w <> [] ->
      forall msg, out <> Panicked msg).
Proof.
  all_paths; finished; repeat split;
    try (intros; discriminate); try reflexivity; try congruence.
  all: try (intros _ Hin; repeat destruct Hin as [? Hin]; which_event Hin).
  all: try (intros _ Hcalls; now contradiction Hcalls).
Qed.

(** C7. Start on branch feature/x with the instruction do thing: when
    every call succeeds it makes, in this order, the five calls CreateBranch,
    WriteFile, CommitAndPush, PushBranchUpstream and CreatePR with the
    arguments listed, the description naming both files; in any run the
    calls made are the first ones of that list, and a call that fails is
    the last one, its error being returned. *)
Theorem Start_feature_x (w : Worker) (s : S) out W :
  run (Start w "feature/x" "do thing") s = (out, W) ->
  let description :=
    "Study docs/feature/x-instructions.md and make a list of necessary implementation steps in docs/feature/x-implementation-status.md" in
  let steps e1 e2 e3 e4 e5 :=
    [ECreateBranch "feature/x" e1;
     EWriteFile "docs/feature/x-instructions.md" "do thing" e2;
     ECommitAndPush "Add instructions for feature/x" e3;
     EPushBranchUpstream "feature/x" e4;
     ECreatePR "Implement feature/x" description e5] in
  (Forall (fun ev => err_of ev = None) (trace W) ->
   out = Returned None /\ trace W = steps None None None None None)
  /\ strings.Contains description "docs/feature/x-instructions.md" = true
  /\ strings.Contains description "docs/feature/x-implementation-status.md" = true
  /\ (exists e1 e2 e3 e4 e5 k, trace W = firstn k (steps e1 e2 e3 e4 e5))
  /\ (forall ev msg, In ev (trace W) -> err_of ev = Some msg ->
        ends_with (trace W) ev
        /\ exists stage, out = Returned (Some (stage +:+ msg))).
Proof.
  intros Hrun description steps.
  split; [|split; [reflexivity|split; [reflexivity|split]]];
    revert Hrun; all_paths; finished.
  all: try (intros Hall;
            repeat match goal with
                   | H : Forall _ (_ :: _) |- _ =>
                       apply Forall_cons_iff in H as [? H]
                   end; try discriminate; split; reflexivity).
  all: try (intros ev msg Hin Herr; which_event Hin; subst ev;
            cbn [err_of] in Herr; try discriminate Herr;
            injection Herr as ->;
            (split; [ends | eexists; reflexivity])).
  all: match goal with
       | |- exists e1 e2 e3 e4 e5 k, ?tr = _ =>
           exists (nth 0 (map err_of tr) None), (nth 1 (map err_of tr) None),
             (nth 2 (map err_of tr) None), (nth 3 (map err_of tr) None),
             (nth 4 (map err_of tr) None), (length tr);
           reflexivity
       end.
Qed.

End WorkflowProperties.

(** ** The adapters *)

Section GitRunnerProperties.
Context {S : Type} `{!OS S}.
Variable url_Parse : string -> URL + string.

(** What Go's url.Parse answers on the HTTPS remote of the example. *)
Hypothesis url_Parse_https :
  url_Parse "https://github.com/acme/widgets.git"
  = inl (mkURL "https" "github.com" "/acme/widgets.git").

Ltac open_adapter :=
  unfold run, GitRunner.CommitAndPush, GitRunner.CheckWorktreeExists,
    GitRunner.GetGitHubRepository, GitRunner.Run, GitRunner.Output,
    return_if_err, bind, invoke, ret, return_, Errorf_w;
  cbn [impl trace fst snd app].

(** The loop of CheckWorktreeExists returns true at the first matching
    line and falls through when there is none. *)
Lemma range_lines_spec (branch : string) (lines : list string)
      (W : World S ExecEvent) :
  GitRunner.range_lines branch lines W
  = if existsb (fun line => strings.HasPrefix line "branch "
                            && strings.Contains line branch) lines
    then (Return (true, None), W)
    else (Next tt, W).
Proof.
  induction lines as [|line rest IH]; cbn [GitRunner.range_lines existsb].
  - reflexivity.
  - destruct (strings.HasPrefix line "branch " && strings.Contains line branch);
      [reflexivity | exact IH].
Qed.

(** C6. With nothing pending after staging (the output of git status
    --porcelain is empty or white space), CommitAndPush returns nil after
    the two commands git add and git status: neither git commit nor git
    push is invoked. *)
Theorem CommitAndPush_nothing_pending
        (message statusOutput : string) (s s1 s2 : S) :
  cmd_Run ["git"; "add"; "."] s = (None, s1) ->
  cmd_Output ["git"; "status"; "--porcelain"] s1 = ((statusOutput, None), s2) ->
  strings.TrimSpace statusOutput = EmptyString ->
  exists W,
    run (GitRunner.CommitAndPush message) s = (Returned None, W)
    /\ impl W = s2
    /\ trace W = [ExRun ["git"; "add"; "."] None;
                  ExOutput ["git"; "status"; "--porcelain"] statusOutput None]
    /\ forall ev, In ev (trace W) ->
                  ~ is_git "commit" ev /\ ~ is_git "push" ev.
Proof.
  intros Hadd Hstatus Hclean. open_adapter.
  rewrite Hadd. cbn [impl trace fst snd app]. rewrite Hstatus.
  cbn [impl trace fst snd app]. rewrite Hclean. cbn.
  eexists. split; [reflexivity|]. split; [reflexivity|].
  split; [reflexivity|]. cbn [trace].
  intros ev [<-|[<-|[]]]; split; intros [rest Hargv]; discriminate Hargv.
Qed.

(** C10. CheckWorktreeExists answers true exactly when some line of the
    worktree listing starts with the word branch and a space and has the
    queried name somewhere in it; so it answers true for a name that only
    occurs inside the branch reference of another worktree. *)
Theorem CheckWorktreeExists_matches_substrings
        (branch output : string) (s s' : S) :
  cmd_Output ["git"; "worktree"; "list"; "--porcelain"] s
  = ((output, None), s') ->
  exists found,
    (run (GitRunner.CheckWorktreeExists branch) s).1 = Returned (found, None)
    /\ (found = true <->
        exists line, In line (strings.Split output LF)
                     /\ strings.HasPrefix line "branch " = true
                     /\ strings.Contains line branch = true)
    /\ (forall other,
           occurs_in branch ("refs/heads/" +:+ other) ->
           In ("branch refs/heads/" +:+ other) (strings.Split output LF) ->
           found = true).
Proof.
  intros Hlist. open_adapter. rewrite Hlist. cbn [impl trace fst snd app].
  rewrite range_lines_spec.
  set (hit := fun line => strings.HasPrefix line "branch "
                          && strings.Contains line branch).
  assert (Hex : existsb hit (strings.Split output LF) = true <->
                exists line, In line (strings.Split output LF)
                             /\ strings.HasPrefix line "branch " = true
                             /\ strings.Contains line branch = true).
  { rewrite existsb_exists. unfold hit.
    split; intros (line & Hin & Hhit); exists line.
    - apply andb_true_iff in Hhit. tauto.
    - split; [tauto|]. apply andb_true_iff. tauto. }
  exists (existsb hit (strings.Split output LF)).
  split; [destruct (existsb hit _); reflexivity|].
  split; [exact Hex|].
  intros other Hsub Hin. apply Hex. exists ("branch refs/heads/" +:+ other).
  split; [exact Hin|]. split; [reflexivity|].
  apply Contains_occurs.
  change ("branch refs/heads/" +:+ other)
    with ("branch " +:+ "refs/heads/" +:+ other).
  apply occurs_in_later. exact Hsub.
Qed.

(** C8. GetGitHubRepository resolves the SSH remote and the HTTPS remote of
    acme/widgets to owner acme and repository widgets, the .git suffix
    dropped, and fails on a remote that parses as a URL whose host is not
    github.com. *)
Theorem GetGitHubRepository_resolves_remote (output : string) (s s' : S) :
  cmd_Output ["git"; "remote"; "get-url"; "origin"] s = ((output, None), s') ->
  let result := (run (GitRunner.GetGitHubRepository url_Parse) s).1 in
  (strings.TrimSpace output = "git@github.com:acme/widgets.git" ->
   result = Returned ("acme", "widgets", None))
  /\ (strings.TrimSpace output = "https://github.com/acme/widgets.git" ->
      result = Returned ("acme", "widgets", None))
  /\ (forall u,
         strings.HasPrefix (strings.TrimSpace output) "git@github.com:" = false ->
         url_Parse (strings.TrimSpace output) = inl u ->
         Host u <> "github.com" ->
         result = Returned (EmptyString, EmptyString,
                            Some ("not a GitHub repository: "
                                  +:+ strings.TrimSpace output))).
Proof.
  intros Hremote result. subst result. open_adapter. rewrite Hremote.
  cbn [impl trace fst snd app].
  split; [|split].
  - intros ->. reflexivity.
  - intros ->. cbn [strings.HasPrefix String.prefix].
    cbv [strings.HasPrefix]. cbn. rewrite url_Parse_https. reflexivity.
  - intros u Hssh Hparse Hhost. rewrite Hssh, Hparse.
    apply String.eqb_neq in Hhost. rewrite Hhost. reflexivity.
Qed.

End GitRunnerProperties.

(** ** The properties at work on the set-ups of the tests *)

Ltac by_computation :=
  vm_compute; repeat first [reflexivity | left; reflexivity | right | split].

Lemma ProcessPR_agent_failure_aborts_witness :
  let r := run (ProcessPR test_worker 123) agent_fails in
  let failed :=
    ERunWithStdin (WithTimeout 5000000000)
                  (generatePrompt test_worker test_prInfo)
                  "echo" ["agent-output"] (Some "exit status 1") in
  In failed (trace r.2)
  /\ r.1 = Returned (Some "failed to run agent: exit status 1")
  /\ ends_with (trace r.2) failed
  /\ calls MRunWithOutput (trace r.2) = 0
  /\ calls MPostComment (trace r.2) = 0
  /\ calls MCommitAndPush (trace r.2) = 0.
Proof.
  intros r failed.
  assert (Hin : In failed (trace r.2)) by by_computation.
  split; [exact Hin|].
  exact (ProcessPR_agent_failure_aborts test_worker 123 agent_fails r.1 r.2
           _ _ _ _ _ (surjective_pairing r) Hin).
Defined.

Lemma ProcessPR_unresolved_branch_aborts_witness :
  let r := run (ProcessPR test_worker 123) no_branch in
  In (EGetPRInfo 123 no_branch_prInfo None) (trace r.2)
  /\ no_branch_name no_branch_prInfo
  /\ r.1 = Returned (Some "failed to extract branch from PR info: could not extract branch name from PR info")
  /\ trace r.2 = [EGetPRInfo 123 no_branch_prInfo None].
Proof.
  intros r.
  assert (Hin : In (EGetPRInfo 123 no_branch_prInfo None) (trace r.2))
    by by_computation.
  assert (Hno : no_branch_name no_branch_prInfo) by by_computation.
  split; [exact Hin|]. split; [exact Hno|].
  exact (ProcessPR_unresolved_branch_aborts test_worker 123 no_branch r.1 r.2
           no_branch_prInfo (surjective_pairing r) Hin Hno).
Defined.

Lemma ProcessPR_comment_failure_aborts_witness :
  let r := run (ProcessPR test_worker 123) comments_refused in
  let body :=
    formatResultsComment test_worker "main.go" (Some "exit status 1")
                         ("PASS" +:+ LF +:+ "ok") None in
  let refused :=
    EPostComment 123 body
                 (Some "failed to post comment to PR #123: exit status 1") in
  In refused (trace r.2)
  /\ r.1 = Returned (Some "failed to post comment: failed to post comment to PR #123: exit status 1")
  /\ ends_with (trace r.2) refused
  /\ calls MCommitAndPush (trace r.2) = 0.
Proof.
  intros r body refused.
  assert (Hin : In refused (trace r.2)) by by_computation.
  split; [exact Hin|].
  exact (ProcessPR_comment_failure_aborts test_worker 123 comments_refused
           r.1 r.2 _ _ _ (surjective_pairing r) Hin).
Defined.

Lemma ProcessPR_worktree_check_then_create_witness :
  let r := run (ProcessPR test_worker 123) test_deps in
  In (EGetPRInfo 123 test_prInfo None) (trace r.2)
  /\ extractBranchFromPRInfo test_worker test_prInfo = ("feature-branch", None)
  /\ (exists found err,
         In (ECheckWorktreeExists "feature-branch" found err) (trace r.2))
  /\ preceded_by (fun ev => exists found err,
                      ev = ECheckWorktreeExists "feature-branch" found err)
                 (fun ev => method_of ev = MCreateWorktree) (trace r.2)
  /\ calls MCreateWorktree (trace r.2) <= 1
  /\ (forall err, In (ECheckWorktreeExists "feature-branch" true err) (trace r.2) ->
                  calls MCreateWorktree (trace r.2) = 0).
Proof.
  intros r.
  assert (Hin : In (EGetPRInfo 123 test_prInfo None) (trace r.2))
    by by_computation.
  assert (Hbranch : extractBranchFromPRInfo test_worker test_prInfo
                    = ("feature-branch", None)) by by_computation.
  split; [exact Hin|]. split; [exact Hbranch|].
  exact (ProcessPR_worktree_check_then_create test_worker 123 test_deps
           r.1 r.2 test_prInfo "feature-branch"
           (surjective_pairing r) Hin Hbranch).
Defined.

Lemma ProcessPR_reports_check_results_witness :
  let r := run (ProcessPR test_worker 123) lint_fails in
  let body :=
    formatResultsComment test_worker "main.go" (Some "exit status 1")
                         ("PASS" +:+ LF +:+ "ok") None in
  check_results (trace r.2)
  = [("main.go", Some "exit status 1"); ("PASS" +:+ LF +:+ "ok", None)]
  /\ In (EPostComment 123 body None) (trace r.2)
  /\ posted (trace r.2) = [(123%Z, body)]
  /\ strings.Contains body ("### Lint Results" +:+ LF +:+ failed_marker) = true
  /\ strings.Contains body ("### Test Results" +:+ LF +:+ passed_marker) = true
  /\ calls MCommitAndPush (trace r.2) = 1.
Proof.
  intros r body.
  assert (Hchecks : check_results (trace r.2)
                    = [("main.go", Some "exit status 1");
                       ("PASS" +:+ LF +:+ "ok", None)]) by by_computation.
  assert (Hin : In (EPostComment 123 body None) (trace r.2)) by by_computation.
  destruct (ProcessPR_reports_check_results test_worker 123 lint_fails
              r.1 r.2 _ _ _ _ (surjective_pairing r) Hchecks)
    as (Hposted & _ & (Hlint & _ & _ & Htest & _) & Hcommit).
  split; [exact Hchecks|]. split; [exact Hin|]. split; [exact Hposted|].
  split; [apply Hlint; discriminate|]. split; [apply Htest; reflexivity|].
  exact (proj1 (Hcommit Hin)).
Defined.

(** C2 as stated fails where the comment is refused: lint has failed, test
    has passed, the one comment was sent, and CommitAndPush is not called. *)
Lemma ProcessPR_no_commit_when_comment_refused :
  let r := run (ProcessPR test_worker 123) comments_refused in
  check_results (trace r.2)
  = [("main.go", Some "exit status 1"); ("PASS" +:+ LF +:+ "ok", None)]
  /\ calls MPostComment (trace r.2) = 1
  /\ calls MCommitAndPush (trace r.2) = 0.
Proof. by_computation. Qed.

Lemma ProcessPR_empty_command_panics_witness :
  let r := run (ProcessPR no_agent_worker 123) test_deps in
  AgentCommand no_agent_worker = []
  /\ (exists path, In (EChangeDirectory path None) (trace r.2))
  /\ r.1 = Panicked slice_bounds_panic.
Proof.
  intros r.
  assert (Hreached : exists path, In (EChangeDirectory path None) (trace r.2))
    by (exists "/fake/repo-feature-branch"; by_computation).
  split; [reflexivity|]. split; [exact Hreached|].
  exact (proj1 (ProcessPR_empty_command_panics no_agent_worker 123 test_deps
                  r.1 r.2 (surjective_pairing r)) eq_refl Hreached).
Defined.

(** C9 as stated fails on a run that ends before the agent step: with an
    empty agent command and an unknown pull request ProcessPR returns the
    fetch error and does not panic. *)
Lemma ProcessPR_empty_command_without_panic :
  let r := run (ProcessPR no_agent_worker 123) no_pull_request in
  AgentCommand no_agent_worker = []
  /\ r.1 = Returned (Some "failed to get PR info: PR #123 not found")
  /\ forall msg, r.1 <> Panicked msg.
Proof. by_computation. intros msg. discriminate. Qed.

Lemma Start_feature_x_witness :
  let r := run (Start test_worker "feature/x" "do thing") test_deps in
  Forall (fun ev => err_of ev = None) (trace r.2)
  /\ r.1 = Returned None
  /\ trace r.2
     = [ECreateBranch "feature/x" None;
        EWriteFile "docs/feature/x-instructions.md" "do thing" None;
        ECommitAndPush "Add instructions for feature/x" None;
        EPushBranchUpstream "feature/x" None;
        ECreatePR "Implement feature/x"
                  "Study docs/feature/x-instructions.md and make a list of necessary implementation steps in docs/feature/x-implementation-status.md"
                  None].
Proof.
  intros r.
  assert (Hok : Forall (fun ev => err_of ev = None) (trace r.2))
    by (vm_compute; repeat constructor).
  split; [exact Hok|].
  exact (proj1 (Start_feature_x test_worker test_deps r.1 r.2
                  (surjective_pairing r)) Hok).
Defined.

Lemma CommitAndPush_nothing_pending_witness :
  cmd_Run ["git"; "add"; "."] clean_machine = (None, clean_machine)
  /\ cmd_Output ["git"; "status"; "--porcelain"] clean_machine
     = ((" " +:+ LF, None), clean_machine)
  /\ strings.TrimSpace (" " +:+ LF) = EmptyString
  /\ exists W,
      run (GitRunner.CommitAndPush "Automated changes from kratt worker")
          clean_machine = (Returned None, W)
      /\ impl W = clean_machine
      /\ trace W = [ExRun ["git"; "add"; "."] None;
                    ExOutput ["git"; "status"; "--porcelain"] (" " +:+ LF) None]
      /\ forall ev, In ev (trace W) ->
                    ~ is_git "commit" ev /\ ~ is_git "push" ev.
Proof.
  split; [reflexivity|]. split; [reflexivity|]. split; [reflexivity|].
  exact (CommitAndPush_nothing_pending
           "Automated changes from kratt worker" (" " +:+ LF)
           clean_machine clean_machine clean_machine
           eq_refl eq_refl eq_refl).
Defined.

Lemma CheckWorktreeExists_matches_substrings_witness :
  let listing :=
    "worktree /src/kratt-feature-2" +:+ LF
    +:+ "HEAD 0123456789abcdef0123456789abcdef01234567" +:+ LF
    +:+ "branch refs/heads/feature-2" +:+ LF +:+ LF in
  cmd_Output ["git"; "worktree"; "list"; "--porcelain"] clean_machine
  = ((listing, None), clean_machine)
  /\ ~ In "branch refs/heads/feature" (strings.Split listing LF)
  /\ (run (GitRunner.CheckWorktreeExists "feature") clean_machine).1
     = Returned (true, None).
Proof.
  intros listing.
  assert (Hlist : cmd_Output ["git"; "worktree"; "list"; "--porcelain"]
                             clean_machine
                  = ((listing, None), clean_machine)) by reflexivity.
  split; [exact Hlist|].
  split; [vm_compute; intuition discriminate|].
  destruct (CheckWorktreeExists_matches_substrings "feature" listing
              clean_machine clean_machine Hlist)
    as (found & Hrun & _ & Hsub).
  rewrite Hrun. f_equal. f_equal.
  apply (Hsub "feature-2").
  - exists "refs/heads/", "-2". reflexivity.
  - by_computation.
Defined.

Lemma GetGitHubRepository_resolves_remote_witness :
  plain_url_Parse "https://github.com/acme/widgets.git"
  = inl (mkURL "https" "github.com" "/acme/widgets.git")
  /\ (run (GitRunner.GetGitHubRepository plain_url_Parse) clean_machine).1
     = Returned ("acme", "widgets", None)
  /\ (run (GitRunner.GetGitHubRepository plain_url_Parse) https_machine).1
     = Returned ("acme", "widgets", None)
  /\ (run (GitRunner.GetGitHubRepository plain_url_Parse) gitlab_machine).1
     = Returned (EmptyString, EmptyString,
                 Some "not a GitHub repository: https://gitlab.com/acme/widgets.git").
Proof.
  split; [reflexivity|]. split; [|split].
  - exact (proj1 (GetGitHubRepository_resolves_remote plain_url_Parse eq_refl
                    ("git@github.com:acme/widgets.git" +:+ LF)
                    clean_machine clean_machine eq_refl) eq_refl).
  - exact (proj1 (proj2 (GetGitHubRepository_resolves_remote plain_url_Parse
                           eq_refl ("https://github.com/acme/widgets.git" +:+ LF)
                           https_machine https_machine eq_refl)) eq_refl).
  - refine (proj2 (proj2 (GetGitHubRepository_resolves_remote plain_url_Parse
                            eq_refl ("https://gitlab.com/acme/widgets.git" +:+ LF)
                            gitlab_machine gitlab_machine eq_refl))
                  (mkURL "https" "gitlab.com" "/acme/widgets.git")
                  eq_refl eq_refl _).
    discriminate.
Defined.

(** ** Splitting on a slash *)

Lemma rev_string_app (s acc : string) :
  rev_string s acc = rev_string s EmptyString +:+ acc.
Proof.
  revert acc. induction s as [|c s IH]; intros acc; cbn [rev_string].
  - reflexivity.
  - rewrite (IH (String c acc)), (IH (String c EmptyString)).
    rewrite append_assoc. reflexivity.
Qed.

Lemma length_append (a b : string) :
  String.length (a +:+ b) = String.length a + String.length b.
Proof.
  induction a as [|x a IH]; [reflexivity|].
  rewrite append_cons. cbn [String.length]. now rewrite IH.
Qed.

Lemma drop_append (a b : string) : strings.drop (String.length a) (a +:+ b) = b.
Proof. induction a as [|x a IH]; [reflexivity | exact IH]. Qed.

Lemma take_append (a b : string) : strings.take (String.length a) (a +:+ b) = a.
Proof.
  induction a as [|x a IH]; [reflexivity|].
  rewrite append_cons. cbn [String.length strings.take]. now rewrite IH.
Qed.

Lemma Contains_cons (c : ascii) (s sub : string) :
  strings.Contains (String c s) sub = false ->
  String.prefix sub (String c s) = false /\ strings.Contains s sub = false.
Proof. cbn [strings.Contains]. apply orb_false_iff. Qed.

(** A string without a slash is one piece. *)
Lemma split_from_slash_free (cur s : string) :
  strings.Contains s "/" = false ->
  strings.split_from "/" 0 cur s = [rev_string cur EmptyString +:+ s].
Proof.
  revert cur. induction s as [|c s IH]; intros cur Hfree.
  - cbn [strings.split_from]. now rewrite append_nil_r.
  - apply Contains_cons in Hfree as [Hp Hfree].
    cbn [strings.split_from]. rewrite Hp. rewrite (IH _ Hfree).
    cbn [rev_string]. rewrite (rev_string_app cur).
    rewrite append_assoc. reflexivity.
Qed.

Lemma prefix_nil (s : string) : String.prefix EmptyString s = true.
Proof. now destruct s. Qed.

Lemma prefix_slash (rest : string) : String.prefix "/" (String "/" rest) = true.
Proof.
  cbn [String.prefix]. destruct (ascii_dec "/" "/") as [_|Hne];
    [apply prefix_nil | now contradiction Hne].
Qed.

(** The first piece ends at the first slash. *)
Lemma split_from_slash (cur a rest : string) :
  strings.Contains a "/" = false ->
  strings.split_from "/" 0 cur (a +:+ "/" +:+ rest)
  = (rev_string cur EmptyString +:+ a) :: strings.split_from "/" 0 EmptyString rest.
Proof.
  revert cur. induction a as [|c a IH]; intros cur Hfree.
  - rewrite append_nil_l, append_nil_r.
    change ("/" +:+ rest) with (String "/" rest).
    cbn [strings.split_from]. rewrite prefix_slash. reflexivity.
  - apply Contains_cons in Hfree as [Hp Hfree].
    rewrite append_cons. cbn [strings.split_from].
    change (String c (a +:+ "/" +:+ rest)) with (String c a +:+ "/" +:+ rest).
    assert (Hp' : String.prefix "/" (String c a +:+ "/" +:+ rest) = false).
    { rewrite append_cons. cbn [String.prefix] in Hp |- *.
      destruct (ascii_dec "/" c); [|reflexivity].
      now destruct a. }
    rewrite Hp'. rewrite (IH _ Hfree). cbn [rev_string].
    rewrite (rev_string_app cur), append_assoc. reflexivity.
Qed.

Lemma Split_slash_free (s : string) :
  strings.Contains s "/" = false -> strings.Split s "/" = [s].
Proof. intros Hfree. apply (split_from_slash_free EmptyString s Hfree). Qed.

Lemma Split_slash (a rest : string) :
  strings.Contains a "/" = false ->
  strings.Split (a +:+ "/" +:+ rest) "/" = a :: strings.Split rest "/".
Proof. intros Hfree. apply (split_from_slash EmptyString a rest Hfree). Qed.

(** Every string is slash-free, or a slash-free piece, a slash, and more. *)
Lemma first_slash (s : string) :
  strings.Contains s "/" = false
  \/ exists a rest, s = a +:+ "/" +:+ rest /\ strings.Contains a "/" = false.
Proof.
  induction s as [|c s IH]; [left; reflexivity|].
  destruct (ascii_dec c "/") as [->|Hne].
  - right. exists EmptyString, s. split; reflexivity.
  - assert (Hp : String.prefix "/" (String c s) = false).
    { cbn [String.prefix]. destruct (ascii_dec "/" c); [congruence | reflexivity]. }
    destruct IH as [Hfree|(a & rest & -> & Hfree)].
    + left. cbn [strings.Contains]. rewrite Hp, Hfree. reflexivity.
    + right. exists (String c a), rest. split; [reflexivity|].
      cbn [strings.Contains]. rewrite Hfree.
      assert (Hp2 : String.prefix "/" (String c a) = false).
      { cbn [String.prefix]. destruct (ascii_dec "/" c); [congruence | reflexivity]. }
      rewrite Hp2. reflexivity.
Qed.

Lemma HasSuffix_append (a suffix : string) :
  strings.HasSuffix (a +:+ suffix) suffix = true.
Proof.
  unfold strings.HasSuffix. rewrite length_append.
  replace (String.length a + String.length suffix - String.length suffix)
    with (String.length a) by lia.
  rewrite drop_append, String.eqb_refl.
  apply andb_true_iff. split; [apply Nat.leb_le; lia | reflexivity].
Qed.

Lemma TrimPrefix_other (c : ascii) (t : string) :
  c <> "/"%char -> strings.TrimPrefix (String c t) "/" = String c t.
Proof.
  intros Hne. unfold strings.TrimPrefix, strings.HasPrefix. cbn [String.prefix].
  destruct (ascii_dec "/" c); [congruence | reflexivity].
Qed.

Lemma TrimPrefix_slash (t : string) : strings.TrimPrefix ("/" +:+ t) "/" = t.
Proof.
  change ("/" +:+ t) with (String "/" t).
  unfold strings.TrimPrefix, strings.HasPrefix. rewrite prefix_slash.
  reflexivity.
Qed.

Lemma slash_free_head (c : ascii) (s : string) :
  strings.Contains (String c s) "/" = false -> c <> "/"%char.
Proof.
  intros Hfree ->. apply Contains_cons in Hfree as [Hp _].
  cbn [String.prefix] in Hp. destruct (ascii_dec "/" "/"); [|congruence].
  destruct s; discriminate Hp.
Qed.

Lemma parseGitHubPath_round_trip_lemma (owner repo : string) :
  owner <> EmptyString ->
  strings.Contains owner "/" = false ->
  strings.Contains repo "/" = false ->
  parseGitHubPath (owner +:+ "/" +:+ repo +:+ ".git") = (owner, repo, None)
  /\ parseGitHubPath ("/" +:+ owner +:+ "/" +:+ repo +:+ ".git")
     = (owner, repo, None).
Proof.
  intros Hne Ho Hr.
  assert (Hparse : forall path,
             strings.TrimPrefix path "/" = owner +:+ "/" +:+ repo +:+ ".git" ->
             parseGitHubPath path = (owner, repo, None)).
  { intros path Htrim. unfold parseGitHubPath. rewrite Htrim.
    replace (owner +:+ "/" +:+ repo +:+ ".git")
      with ((owner +:+ "/" +:+ repo) +:+ ".git")
      by now rewrite !append_assoc.
    rewrite HasSuffix_append.
    rewrite length_append.
    replace (String.length (owner +:+ "/" +:+ repo) + String.length ".git" - 4)
      with (String.length (owner +:+ "/" +:+ repo)) by (cbn [String.length]; lia).
    rewrite take_append, Split_slash by exact Ho.
    rewrite Split_slash_free by exact Hr. reflexivity. }
  split; apply Hparse.
  - destruct owner as [|c owner]; [now contradiction Hne|].
    rewrite append_cons. apply TrimPrefix_other.
    exact (slash_free_head _ _ Ho).
  - apply TrimPrefix_slash.
Qed.

(** X15. parseGitHubPath gives back the two names a path was made of: for a
    non-empty owner and a repository name, both without a slash, the path
    owner/repo.git, also behind one leading slash, is parsed as that owner
    and that repository with no error; of a .git suffix exactly one is
    taken off, and a repository name may be empty. *)
Theorem parseGitHubPath_round_trip (owner repo : string) :
  owner <> EmptyString ->
  strings.Contains owner "/" = false ->
  strings.Contains repo "/" = false ->
  parseGitHubPath (owner +:+ "/" +:+ repo +:+ ".git") = (owner, repo, None)
  /\ parseGitHubPath ("/" +:+ owner +:+ "/" +:+ repo +:+ ".git")
     = (owner, repo, None).
Proof. exact (parseGitHubPath_round_trip_lemma owner repo). Qed.

Lemma Contains_slash (a rest : string) :
  strings.Contains (a +:+ "/" +:+ rest) "/" = true.
Proof. apply Contains_occurs. exists a, rest. reflexivity. Qed.

(** X16. parseGitHubPath fails exactly on a path without a slash (one
    leading slash and one .git suffix apart), with both names empty and the
    path in the error. Otherwise it succeeds: the owner is what stands
    before the first slash, the repository what stands between the first
    and the second, neither contains a slash, and what follows a second
    slash is dropped without an error. *)
Theorem parseGitHubPath_needs_a_slash (path : string) :
  (strings.Contains (bare_path path) "/" = false ->
   parseGitHubPath path
   = (EmptyString, EmptyString,
      Some ("invalid GitHub path format: " +:+ bare_path path)))
  /\ (strings.Contains (bare_path path) "/" = true ->
      exists owner repo,
        parseGitHubPath path = (owner, repo, None)
        /\ strings.Contains owner "/" = false
        /\ strings.Contains repo "/" = false
        /\ (bare_path path = owner +:+ "/" +:+ repo
            \/ exists rest, bare_path path = owner +:+ "/" +:+ repo +:+ "/" +:+ rest)).
Proof.
  unfold parseGitHubPath. fold (bare_path path).
  destruct (first_slash (bare_path path)) as [Hfree|(a & rest & Hp & Ha)].
  - split; [|congruence]. intros _. rewrite Split_slash_free by exact Hfree.
    reflexivity.
  - rewrite Hp. split; [rewrite Contains_slash; discriminate|]. intros _.
    rewrite Split_slash by exact Ha.
    destruct (first_slash rest) as [Hfree|(b & rest' & -> & Hb)].
    + rewrite Split_slash_free by exact Hfree. exists a, rest.
      repeat split; try assumption. left. reflexivity.
    + rewrite Split_slash by exact Hb.
      exists a, b. split.
      * destruct (strings.Split rest' "/"); reflexivity.
      * split; [exact Ha|]. split; [exact Hb|]. right. exists rest'. reflexivity.
Qed.

(** ** The matcher *)

Section Matcher.
Context {R : Type}.

(** A match that succeeds has called its continuation. *)
Lemma matchHere_continues (r : Regexp) :
  forall (s : string) (cap : option string)
         (k : string -> option string -> option R) (res : R),
    matchHere r s cap k = Some res ->
    exists s' cap', k s' cap' = Some res.
Proof.
  induction r as [p|r1 IH1 r2 IH2|r1 IH1|r1 IH1]; intros s cap k res Hm;
    cbn [matchHere] in Hm.
  - destruct s as [|c s]; [discriminate|]. destruct (p c); [eauto|discriminate].
  - apply IH1 in Hm as (s1 & cap1 & Hm). eapply IH2. exact Hm.
  - remember (String.length s) as fuel eqn:Hfuel in Hm. clear Hfuel.
    revert s cap Hm.
    induction fuel as [|fuel IHf]; intros s cap Hm; [eauto|].
    destruct (matchHere r1 s cap _) as [res'|] eqn:Hstep.
    + injection Hm as ->. apply IH1 in Hstep as (s1 & cap1 & Hstep).
      destruct (String.length s1 <? String.length s)%nat; [|discriminate].
      eapply IHf. exact Hstep.
    + eauto.
  - apply IH1 in Hm as (s1 & cap1 & Hm). eauto.
Qed.

(** A starred class takes bytes of the class, then goes on. *)
Lemma matchHere_star_class (p : ascii -> bool) :
  forall (s : string) (cap : option string)
         (k : string -> option string -> option R) (res : R),
    matchHere (Star (Class p)) s cap k = Some res ->
    exists x s', s = x +:+ s' /\ every p x = true /\ k s' cap = Some res.
Proof.
  intros s cap k res Hm. cbn [matchHere] in Hm.
  remember (String.length s) as fuel eqn:Hfuel in Hm. clear Hfuel.
  revert s cap Hm.
  induction fuel as [|fuel IHf]; intros s cap Hm.
  - exists EmptyString, s. auto.
  - destruct s as [|c s].
    + exists EmptyString, EmptyString. auto.
    + destruct (p c) eqn:Hp.
      * destruct (String.length s <? String.length (String c s))%nat eqn:Hlt.
        -- match type of Hm with
           | match ?t with _ => _ end = _ => destruct t as [res'|] eqn:Hstep
           end.
           ++ injection Hm as ->.
              destruct (IHf _ _ Hstep) as (x & s' & -> & Hx & Hk).
              exists (String c x), s'. cbn [every]. rewrite Hp, Hx. auto.
           ++ exists EmptyString, (String c s). auto.
        -- exists EmptyString, (String c s). auto.
      * exists EmptyString, (String c s). auto.
Qed.

(** One or more bytes of a class, captured. *)
Lemma matchHere_group_plus_class (p : ascii -> bool) :
  forall (s : string) (cap : option string)
         (k : string -> option string -> option R) (res : R),
    matchHere (Group (Plus (Class p))) s cap k = Some res ->
    exists x s', s = x +:+ s' /\ x <> EmptyString /\ every p x = true
                 /\ k s' (Some x) = Some res.
Proof.
  intros s cap k res Hm. unfold Plus in Hm.
  cbn [matchHere] in Hm. destruct s as [|c s]; [discriminate|].
  destruct (p c) eqn:Hp; [|discriminate].
  change (matchHere (Star (Class p)) s cap
            (fun s' _ => k s' (Some (consumed (String c s) s'))) = Some res) in Hm.
  apply matchHere_star_class in Hm as (x & s' & -> & Hx & Hk).
  exists (String c x), s'. split; [reflexivity|]. split; [discriminate|].
  split; [cbn [every]; now rewrite Hp, Hx|].
  replace (consumed (String c (x +:+ s')) s') with (String c x) in Hk; [exact Hk|].
  unfold consumed. change (String c (x +:+ s')) with (String c x +:+ s').
  rewrite length_append.
  replace (String.length (String c x) + String.length s' - String.length s')
    with (String.length (String c x)) by lia.
  now rewrite take_append.
Qed.

End Matcher.

Lemma captures_group (p : ascii -> bool) : captures p (Group (Plus (Class p))).
Proof.
  intros s cap k res Hm.
  apply matchHere_group_plus_class in Hm as (x & s' & _ & Hne & Hx & Hk).
  eauto.
Qed.

Lemma captures_after (p : ascii -> bool) (r1 r2 : Regexp) :
  captures p r2 -> captures p (Cat r1 r2).
Proof.
  intros H2 s cap k res Hm. cbn [matchHere] in Hm.
  apply matchHere_continues in Hm as (s1 & cap1 & Hm). eapply H2. exact Hm.
Qed.

Lemma captures_before_class (p q : ascii -> bool) (r1 : Regexp) :
  captures p r1 -> captures p (Cat r1 (Class q)).
Proof.
  intros H1 s cap k res Hm. cbn [matchHere] in Hm.
  apply H1 in Hm as (x & s' & Hne & Hx & Hm).
  destruct s' as [|c s']; [discriminate|]. destruct (q c); [|discriminate].
  eauto.
Qed.

Lemma FindStringSubmatch_captures (p : ascii -> bool) (re : Regexp) :
  captures p re ->
  forall s m g, FindStringSubmatch re s = [m; g] ->
                g <> EmptyString /\ every p g = true.
Proof.
  intros Hre s. induction s as [|c s IH]; intros m g Hfind;
    cbn [FindStringSubmatch] in Hfind;
    destruct (matchHere re _ None _) as [[s' cap]|] eqn:Hm;
    try discriminate Hfind; try (eapply IH; exact Hfind).
  all: apply Hre in Hm as (x & s1 & Hne & Hx & Hk);
    injection Hk as _ <-; injection Hfind as _ <-; auto.
Qed.

Lemma re_headRefName_captures : captures not_quote re_headRefName.
Proof.
  unfold re_headRefName.
  repeat first [ apply captures_group
               | apply captures_before_class; apply captures_group
               | apply captures_after ].
Qed.

Lemma re_branch_captures : captures not_space re_branch.
Proof.
  unfold re_branch.
  repeat first [ apply captures_group | apply captures_after ].
Qed.

Lemma re_head_captures : captures not_space re_head.
Proof.
  unfold re_head.
  repeat first [ apply captures_group | apply captures_after ].
Qed.

(** What extractBranchFromPRInfo returns: a branch of one or more bytes,
    none of them a double quote (from the headRefName field) or none of
    them white space (from the two fallback patterns), and no error; or an
    empty branch with the error. *)
Lemma extractBranchFromPRInfo_shape (w : Worker) (prInfo : string) :
  let '(branch, err) := extractBranchFromPRInfo w prInfo in
  (err = None /\ branch <> EmptyString
   /\ (every not_quote branch = true \/ every not_space branch = true))
  \/ (err = Some "could not extract branch name from PR info"
      /\ branch = EmptyString).
Proof.
  unfold extractBranchFromPRInfo.
  destruct (FindStringSubmatch_shape re_headRefName prInfo) as [->|(m & g & Hf)].
  - destruct (FindStringSubmatch_shape re_branch prInfo) as [->|(m & g & Hf)].
    + destruct (FindStringSubmatch_shape re_head prInfo) as [->|(m & g & Hf)].
      * right. split; reflexivity.
      * rewrite Hf. left.
        destruct (FindStringSubmatch_captures _ _ re_head_captures _ _ _ Hf).
        cbn. auto.
    + rewrite Hf. left.
      destruct (FindStringSubmatch_captures _ _ re_branch_captures _ _ _ Hf).
      cbn. auto.
  - rewrite Hf. left.
    destruct (FindStringSubmatch_captures _ _ re_headRefName_captures _ _ _ Hf).
    cbn. auto.
Qed.

(** X19. A branch name extractBranchFromPRInfo returns without an error is
    never empty, and it has no double quote in it or no white space in it;
    with the error the name returned is empty. *)
Theorem extractBranchFromPRInfo_result (w : Worker) (prInfo branch : string)
        (err : error) :
  extractBranchFromPRInfo w prInfo = (branch, err) ->
  (err = None ->
   branch <> EmptyString
   /\ (every not_quote branch = true \/ every not_space branch = true))
  /\ (err <> None ->
      err = Some "could not extract branch name from PR info"
      /\ branch = EmptyString).
Proof.
  intros Hex. assert (Hshape := extractBranchFromPRInfo_shape w prInfo).
  rewrite Hex in Hshape.
  destruct Hshape as [(-> & Hne & Hclass)|(-> & ->)]; split; intros H;
    try discriminate H; try (now contradiction H); auto.
Qed.

(** ** Matching forward *)

Lemma prefix_append_split (a b s : string) :
  String.prefix (a +:+ b) s
  = String.prefix a s && String.prefix b (strings.drop (String.length a) s).
Proof.
  revert s. induction a as [|x a IH]; intros s.
  - rewrite append_nil_l, prefix_nil. reflexivity.
  - rewrite append_cons. destruct s as [|y s].
    + cbn [String.prefix String.length strings.drop andb]. reflexivity.
    + cbn [String.prefix String.length strings.drop].
      destruct (ascii_dec x y); [apply IH | reflexivity].
Qed.

Section Forward.
Context {R : Type}.

Lemma matchHere_Cat (r1 r2 : Regexp) (s : string) (cap : option string)
      (k : string -> option string -> option R) :
  matchHere (Cat r1 r2) s cap k
  = matchHere r1 s cap (fun s' cap' => matchHere r2 s' cap' k).
Proof. reflexivity. Qed.

Lemma matchHere_byte (c : ascii) (s : string) (cap : option string)
      (k : string -> option string -> option R) :
  matchHere (byte_is c) s cap k
  = if String.prefix (String c EmptyString) s
    then k (strings.drop 1 s) cap else None.
Proof.
  unfold byte_is. cbn [matchHere]. destruct s as [|y s]; [reflexivity|].
  cbn [String.prefix strings.drop]. rewrite prefix_nil.
  destruct (ascii_dec c y) as [->|Hne].
  - rewrite Ascii.eqb_refl. reflexivity.
  - apply Ascii.eqb_neq in Hne. rewrite Hne. reflexivity.
Qed.

(** A literal matches where the text starts with it. *)
Lemma matchHere_literal (c : ascii) (lit : string) :
  forall (s : string) (cap : option string)
         (k : string -> option string -> option R),
    matchHere (literal byte_is c lit) s cap k
    = if String.prefix (String c lit) s
      then k (strings.drop (String.length (String c lit)) s) cap else None.
Proof.
  revert c. induction lit as [|c' lit IH]; intros c s cap k.
  - cbn [literal]. rewrite matchHere_byte. reflexivity.
  - cbn [literal matchHere]. rewrite matchHere_byte.
    destruct s as [|y s]; [reflexivity|].
    cbn [String.prefix strings.drop String.length]. rewrite prefix_nil.
    destruct (ascii_dec c y) as [->|Hne]; [|reflexivity].
    rewrite IH. reflexivity.
Qed.

(** A starred class takes all the bytes of the class there are, when what
    follows then matches. *)
Lemma matchHere_star_greedy (p : ascii -> bool) (x rest : string)
      (cap : option string) (k : string -> option string -> option R) (res : R) :
  every p x = true ->
  rest = EmptyString \/ (exists c r, rest = String c r /\ p c = false) ->
  k rest cap = Some res ->
  matchHere (Star (Class p)) (x +:+ rest) cap k = Some res.
Proof.
  intros Hx Hhead Hk.
  cbn [matchHere].
  assert (Hfuel : String.length x <= String.length (x +:+ rest))
    by (rewrite length_append; lia).
  revert Hfuel. generalize (String.length (x +:+ rest)). intros fuel.
  revert fuel Hx. induction x as [|c x IH]; intros fuel Hx Hfuel.
  - rewrite append_nil_l. destruct fuel as [|fuel]; [exact Hk|].
    destruct Hhead as [->|(c & r & -> & Hp)].
    + exact Hk.
    + cbn [matchHere]. rewrite Hp. exact Hk.
  - destruct fuel as [|fuel]; [cbn [String.length] in Hfuel; lia|].
    cbn [every] in Hx. apply andb_true_iff in Hx as [Hp Hx].
    rewrite append_cons. cbn [matchHere]. rewrite Hp.
    assert (Hlt : (String.length (x +:+ rest)
                   <? String.length (String c (x +:+ rest)))%nat = true)
      by (apply Nat.ltb_lt; cbn [String.length]; lia).
    rewrite Hlt. rewrite (IH fuel Hx) by (cbn [String.length] in Hfuel; lia).
    reflexivity.
Qed.

(** A group of one or more bytes of a class captures all there are. *)
Lemma matchHere_group_plus_greedy (p : ascii -> bool) (x rest : string)
      (cap : option string) (k : string -> option string -> option R) (res : R) :
  x <> EmptyString ->
  every p x = true ->
  rest = EmptyString \/ (exists c r, rest = String c r /\ p c = false) ->
  k rest (Some x) = Some res ->
  matchHere (Group (Plus (Class p))) (x +:+ rest) cap k = Some res.
Proof.
  intros Hne Hx Hhead Hk. destruct x as [|c x]; [now contradiction Hne|].
  cbn [every] in Hx. apply andb_true_iff in Hx as [Hc Hx].
  rewrite append_cons.
  change (matchHere (Group (Plus (Class p))) (String c (x +:+ rest)) cap k)
    with (if p c
          then matchHere (Star (Class p)) (x +:+ rest) cap
                 (fun s' _ => k s' (Some (consumed (String c (x +:+ rest)) s')))
          else None).
  rewrite Hc. apply matchHere_star_greedy; [exact Hx | exact Hhead |].
  replace (consumed (String c (x +:+ rest)) rest) with (String c x);
    [exact Hk|].
  unfold consumed. change (String c (x +:+ rest)) with (String c x +:+ rest).
  rewrite length_append.
  replace (String.length (String c x) + String.length rest - String.length rest)
    with (String.length (String c x)) by lia.
  now rewrite take_append.
Qed.

End Forward.

Lemma quote_not_space : space quote = false.
Proof. reflexivity. Qed.

Lemma quote_is_quote : not_quote quote = false.
Proof. reflexivity. Qed.

(** Where the key is not, the pattern does not match. *)
Lemma re_headRefName_needs_key (s : string) (cap : option string)
      (k : string -> option string -> option (string * option string)) :
  String.prefix headRefName_key s = false ->
  matchHere re_headRefName s cap k = None.
Proof.
  intros Hkey. unfold re_headRefName. cbn [matchHere].
  rewrite matchHere_literal.
  change headRefName_key
    with (String quote "headRefName" +:+ String quote EmptyString +:+ ":") in Hkey.
  rewrite prefix_append_split in Hkey.
  destruct (String.prefix (String quote "headRefName") s); [|reflexivity].
  rewrite matchHere_byte. rewrite prefix_append_split in Hkey.
  cbn [andb] in Hkey.
  destruct (String.prefix (String quote EmptyString) _); [|reflexivity].
  rewrite matchHere_byte. cbn [andb] in Hkey.
  change (String.length (String quote EmptyString)) with 1 in Hkey.
  change (String ":" EmptyString) with ":" in *.
  rewrite Hkey. reflexivity.
Qed.

(** At the key, the pattern matches the field and captures its value. *)
Lemma re_headRefName_at_key (ws value post : string) :
  every space ws = true ->
  value <> EmptyString ->
  every not_quote value = true ->
  matchHere re_headRefName
            (headRefName_key +:+ ws +:+ quoted value +:+ post) None found
  = Some (post, Some value).
Proof.
  intros Hws Hne Hvalue.
  unfold re_headRefName. rewrite matchHere_Cat, matchHere_literal.
  replace (headRefName_key +:+ ws +:+ quoted value +:+ post)
    with (String quote "headRefName"
          +:+ String quote EmptyString
          +:+ ":" +:+ ws
          +:+ String quote EmptyString
          +:+ value +:+ String quote EmptyString +:+ post)
    by (unfold headRefName_key, quoted; now rewrite !append_assoc).
  rewrite prefix_append, drop_append.
  rewrite matchHere_Cat, matchHere_byte, prefix_append.
  change (strings.drop 1 (String quote EmptyString +:+ ?t)) with t.
  rewrite matchHere_Cat, matchHere_byte, prefix_append.
  change (strings.drop 1 (":" +:+ ?t)) with t.
  rewrite matchHere_Cat.
  apply matchHere_star_greedy; [exact Hws | right; eexists _, _; split;
                                [reflexivity | exact quote_not_space] |].
  rewrite matchHere_Cat, matchHere_byte, prefix_append.
  change (strings.drop 1 (String quote EmptyString +:+ ?t)) with t.
  rewrite matchHere_Cat.
  apply (matchHere_group_plus_greedy not_quote);
    [exact Hne | exact Hvalue
     | right; eexists _, _; split; [reflexivity | exact quote_is_quote] |].
  rewrite matchHere_byte, prefix_append. reflexivity.
Qed.

(** X20. The first headRefName field decides: when the pull-request info
    holds the key, white space or none, and a quoted value of one or more
    bytes without a double quote, and the key does not start anywhere
    before, extractBranchFromPRInfo returns that value, whatever else the
    info says about branches before or after. *)
Theorem extractBranchFromPRInfo_reads_headRefName
        (w : Worker) (pre ws value post : string) :
  let field := headRefName_key +:+ ws +:+ quoted value +:+ post in
  starts_nowhere_in headRefName_key pre field = true ->
  every space ws = true ->
  value <> EmptyString ->
  every not_quote value = true ->
  extractBranchFromPRInfo w (pre +:+ field) = (value, None).
Proof.
  intros field Hpre Hws Hne Hvalue.
  assert (Hfind : exists m, FindStringSubmatch re_headRefName (pre +:+ field)
                            = [m; value]).
  { induction pre as [|c pre IH].
    - rewrite append_nil_l. unfold field.
      destruct (headRefName_key +:+ ws +:+ quoted value +:+ post) eqn:Hs;
        cbn [FindStringSubmatch]; rewrite <- Hs;
        change (fun s' cap => Some (s', cap)) with found;
        rewrite (re_headRefName_at_key ws value post Hws Hne Hvalue);
        eexists; reflexivity.
    - cbn [starts_nowhere_in] in Hpre. apply andb_true_iff in Hpre as [Hhere Hpre].
      apply negb_true_iff in Hhere. rewrite append_cons in Hhere |- *.
      cbn [FindStringSubmatch].
      rewrite (re_headRefName_needs_key _ _ _ Hhere). exact (IH Hpre). }
  destruct Hfind as [m Hfind]. unfold extractBranchFromPRInfo.
  rewrite Hfind. reflexivity.
Qed.

Lemma adjacent_here {E} (a b : E) post : adjacent a b (a :: b :: post).
Proof. exists [], post. reflexivity. Qed.

Lemma adjacent_later {E} (a b e : E) tr : adjacent a b tr -> adjacent a b (e :: tr).
Proof. intros (pre & post & ->). exists (e :: pre), post. reflexivity. Qed.

Section MoreWorkflowProperties.
Context {S : Type} `{!LocalGit S} `{!GitHub S} `{!CommandRunner S}.

Ltac open_workflow :=
  unfold run, ProcessPR, Start, head_tail, return_if_err, bind, invoke, ret,
    return_, panic, Errorf_w;
  cbn [impl trace fst snd app].

Ltac simp_step := cbn [impl trace fst snd app negb].

Ltac next_call :=
  match goal with
  | |- context [GetPRInfo ?n ?s] =>
      destruct (GetPRInfo n s) as [[? [?|]] ?] eqn:?
  | |- context [extractBranchFromPRInfo ?w ?i] =>
      destruct (extractBranchFromPRInfo w i) as [? [?|]] eqn:?
  | |- context [CheckWorktreeExists ?b ?s] =>
      destruct (CheckWorktreeExists b s) as [[[|] [?|]] ?] eqn:?
  | |- context [GetWorktreePath ?b ?s] =>
      destruct (GetWorktreePath b s) as [[? [?|]] ?] eqn:?
  | |- context [CreateWorktree ?b ?p ?s] =>
      destruct (CreateWorktree b p s) as [[?|] ?] eqn:?
  | |- context [ChangeDirectory ?p ?s] =>
      destruct (ChangeDirectory p s) as [[?|] ?] eqn:?
  | |- context [RunWithStdin ?c ?i ?cmd ?a ?s] =>
      destruct (RunWithStdin c i cmd a s) as [[?|] ?] eqn:?
  | |- context [RunWithOutput ?c ?cmd ?a ?s] =>
      destruct (RunWithOutput c cmd a s) as [[? ?] ?] eqn:?
  | |- context [PostComment ?n ?b ?s] =>
      destruct (PostComment n b s) as [[?|] ?] eqn:?
  | |- context [CommitAndPush ?m ?s] =>
      destruct (CommitAndPush m s) as [[?|] ?] eqn:?
  | |- context [CreateBranch ?b ?s] =>
      destruct (CreateBranch b s) as [[?|] ?] eqn:?
  | |- context [WriteFile ?p ?c ?s] =>
      destruct (WriteFile p c s) as [[?|] ?] eqn:?
  | |- context [PushBranchUpstream ?b ?s] =>
      destruct (PushBranchUpstream b s) as [[?|] ?] eqn:?
  | |- context [CreatePR ?t ?d ?s] =>
      destruct (CreatePR t d s) as [[?|] ?] eqn:?
  | |- context [match AgentCommand ?w with _ => _ end] =>
      destruct (AgentCommand w) as [|? ?] eqn:?
  | |- context [match LintCommand ?w with _ => _ end] =>
      destruct (LintCommand w) as [|? ?] eqn:?
  | |- context [match TestCommand ?w with _ => _ end] =>
      destruct (TestCommand w) as [|? ?] eqn:?
  end; simp_step.

Ltac all_paths := open_workflow; repeat next_call.
Ltac finished := intros [= <- <-]; cbn [trace].
Ltac which_event H :=
  cbn [In] in H;
  repeat (destruct H as [H|H]; [try discriminate H|]);
  try contradiction.
Ltac ends :=
  repeat first [apply ends_with_one | apply ends_with_cons].
Ltac next_to :=
  repeat first [apply adjacent_here | apply adjacent_later].

(** X1. ProcessPR stops at the first call that fails, the lint and test
    commands apart: such a call is the last of the run and its error is
    returned behind the text of its stage. *)
Theorem ProcessPR_stops_at_first_failure
        (w : Worker) (prNumber : Z) (s : S) out W ev msg :
  run (ProcessPR w prNumber) s = (out, W) ->
  In ev (trace W) ->
  err_of ev = Some msg ->
  method_of ev <> MRunWithOutput ->
  ends_with (trace W) ev
  /\ out = Returned (Some (ProcessPR_stage (method_of ev) +:+ msg)).
Proof.
  intros Hrun Hin Herr Hcheck; revert Hrun; all_paths; finished;
    cbn [trace] in Hin; which_event Hin; subst ev;
    cbn [err_of] in Herr; try discriminate Herr;
    try (now contradiction Hcheck);
    injection Herr as ->; (split; [ends | reflexivity]).
Qed.

(** X2. ProcessPR returns nil only after a full run: one fetch, one worktree
    check, one change of directory, the agent, the two checks, one comment
    and one commit, its last call, and no call other than the two checks
    has failed. Conversely a run that ends with a successful CommitAndPush
    returns nil. *)
Theorem ProcessPR_success_is_a_full_run
        (w : Worker) (prNumber : Z) (s : S) out W :
  run (ProcessPR w prNumber) s = (out, W) ->
  (out = Returned None ->
   calls MGetPRInfo (trace W) = 1
   /\ calls MCheckWorktreeExists (trace W) = 1
   /\ calls MChangeDirectory (trace W) = 1
   /\ calls MRunWithStdin (trace W) = 1
   /\ calls MRunWithOutput (trace W) = 2
   /\ calls MPostComment (trace W) = 1
   /\ calls MCommitAndPush (trace W) = 1
   /\ ends_with (trace W)
                (ECommitAndPush "Automated changes from kratt worker" None)
   /\ forall ev, In ev (trace W) -> method_of ev <> MRunWithOutput ->
                 err_of ev = None)
  /\ (forall message, ends_with (trace W) (ECommitAndPush message None) ->
                      out = Returned None).
Proof.
  all_paths; finished; split.
  all: try (intros Hout; discriminate Hout).
  all: try (intros _; repeat (split; [reflexivity|]); split; [ends|];
            intros ev Hin Hcheck; which_event Hin; subst ev;
            try reflexivity; now contradiction Hcheck).
  all: try reflexivity.
  all: intros message [pre Hend];
    repeat (destruct pre as [|? pre]; [discriminate Hend|];
            injection Hend as <- Hend);
    destruct pre; try discriminate Hend;
    destruct pre; discriminate Hend.
Qed.

(** X3. The deadline and the configured commands: every command of a run
    is started with a context whose timeout is the Deadline of the worker;
    the agent gets the agent command and, on its standard input, the prompt
    made from the fetched info; the commands run for their output are the
    lint command, then the test command. *)
Theorem ProcessPR_runs_the_configured_commands
        (w : Worker) (prNumber : Z) (s : S) out W :
  run (ProcessPR w prNumber) s = (out, W) ->
  (forall ctx stdin command args err,
      In (ERunWithStdin ctx stdin command args err) (trace W) ->
      ctx = WithTimeout (Deadline w)
      /\ command :: args = AgentCommand w
      /\ exists prInfo,
          In (EGetPRInfo prNumber prInfo None) (trace W)
          /\ stdin = generatePrompt w prInfo)
  /\ (forall ctx command args output err,
         In (ERunWithOutput ctx command args output err) (trace W) ->
         ctx = WithTimeout (Deadline w))
  /\ exists k, checks_run (trace W) = firstn k [LintCommand w; TestCommand w].
Proof.
  all_paths; finished; (split; [|split]).
  all: try (intros ctx stdin command args err Hin; which_event Hin;
            injection Hin as <- <- <- <- <-;
            (split; [reflexivity|split; [reflexivity|]]);
            eexists; split; [left; reflexivity | reflexivity]).
  all: try (intros ctx command args output err Hin; which_event Hin;
            injection Hin as <- <- <- <- <-; reflexivity).
  all: match goal with
       | |- exists k, ?l = _ =>
           let n := eval cbn in (length l) in exists n; reflexivity
       end.
Qed.

(** X4. The paths are passed on as they come: a worktree is created at the
    path GetWorktreePath has just returned for the branch, and the
    directory is changed to the path the last GetWorktreePath returned;
    every worktree call of a run is about one and the same branch. *)
Theorem ProcessPR_passes_paths_on
        (w : Worker) (prNumber : Z) (s : S) out W :
  run (ProcessPR w prNumber) s = (out, W) ->
  (forall branch path err,
      In (ECreateWorktree branch path err) (trace W) ->
      adjacent (EGetWorktreePath branch path None)
               (ECreateWorktree branch path err) (trace W))
  /\ (forall path err,
         In (EChangeDirectory path err) (trace W) ->
         exists branch,
           adjacent (EGetWorktreePath branch path None)
                    (EChangeDirectory path err) (trace W))
  /\ (forall ev1 ev2 b1 b2,
         In ev1 (trace W) -> In ev2 (trace W) ->
         worktree_branch ev1 = Some b1 -> worktree_branch ev2 = Some b2 ->
         b1 = b2).
Proof.
  all_paths; finished; (split; [|split]).
  all: try (intros branch path err Hin; which_event Hin;
            injection Hin as <- <- <-; next_to).
  all: try (intros path err Hin; which_event Hin;
            injection Hin as <- <-; eexists; next_to).
  all: intros ev1 ev2 b1 b2 Hin1 Hin2 Hb1 Hb2;
    which_event Hin1; subst ev1; cbn [worktree_branch] in Hb1;
    try discriminate Hb1; injection Hb1 as <-;
    which_event Hin2; subst ev2; cbn [worktree_branch] in Hb2;
    try discriminate Hb2; injection Hb2 as <-; reflexivity.
Qed.

(** X5. The two workflows keep to their own calls: ProcessPR never creates
    a branch, writes a file, pushes a branch upstream or opens a pull
    request; Start never fetches a pull request, comments, touches a
    worktree, changes directory or runs a command. *)
Theorem workflows_keep_to_their_calls
        (w : Worker) (prNumber : Z) (branchName instruction : string)
        (s : S) :
  (forall m, In m [MCreateBranch; MWriteFile; MPushBranchUpstream; MCreatePR] ->
             calls m (trace (run (ProcessPR w prNumber) s).2) = 0)
  /\ (forall m, In m [MGetPRInfo; MPostComment; MCheckWorktreeExists;
                      MCreateWorktree; MChangeDirectory; MGetWorktreePath;
                      MRunWithStdin; MRunWithOutput] ->
                calls m (trace (run (Start w branchName instruction) s).2) = 0).
Proof.
  split; intros m Hm; all_paths;
    cbn [In] in Hm; intuition (subst; reflexivity).
Qed.

(** X6. Start on any branch name and instruction: the calls made are the
    first ones of CreateBranch, WriteFile (the instruction, at
    docs/<branch>-instructions.md), CommitAndPush, PushBranchUpstream and
    CreatePR; a call that fails is the last one and its error is returned
    behind the text of its stage; nil is returned exactly when all five
    calls were made and none failed. *)
Theorem Start_stops_at_first_failure
        (w : Worker) (branchName instruction : string) (s : S) out W :
  run (Start w branchName instruction) s = (out, W) ->
  let steps e1 e2 e3 e4 e5 :=
    [ECreateBranch branchName e1;
     EWriteFile ("docs/" +:+ branchName +:+ "-instructions.md") instruction e2;
     ECommitAndPush ("Add instructions for " +:+ branchName) e3;
     EPushBranchUpstream branchName e4;
     ECreatePR ("Implement " +:+ branchName)
               ("Study docs/" +:+ branchName
                +:+ "-instructions.md and make a list of necessary implementation steps in docs/"
                +:+ branchName +:+ "-implementation-status.md") e5] in
  (exists e1 e2 e3 e4 e5 k, trace W = firstn k (steps e1 e2 e3 e4 e5))
  /\ (forall ev msg, In ev (trace W) -> err_of ev = Some msg ->
        ends_with (trace W) ev
        /\ out = Returned (Some (Start_stage (method_of ev) +:+ msg)))
  /\ (out = Returned None <->
      trace W = steps None None None None None).
Proof.
  intros Hrun steps; subst steps; revert Hrun; all_paths; finished;
    (split; [|split]).
  all: try match goal with
       | |- exists e1 e2 e3 e4 e5 k, ?tr = _ =>
           exists (nth 0 (map err_of tr) None), (nth 1 (map err_of tr) None),
             (nth 2 (map err_of tr) None), (nth 3 (map err_of tr) None),
             (nth 4 (map err_of tr) None), (length tr);
           reflexivity
       end.
  all: try (intros ev msg Hin Herr; which_event Hin; subst ev;
            cbn [err_of] in Herr; try discriminate Herr;
            injection Herr as ->; (split; [ends | reflexivity])).
  all: split; intros Heq; try discriminate Heq; reflexivity.
Qed.

(** X21. Whatever ProcessPR does after fetching the pull-request info, it
    does for the branch extractBranchFromPRInfo reads from that very info:
    every later call of a run implies that the extraction succeeded, the
    branch is not empty, has no double quote or no white space in it, and is
    the branch of every worktree call. *)
Theorem ProcessPR_works_on_the_extracted_branch
        (w : Worker) (prNumber : Z) (s : S) out W ev :
  run (ProcessPR w prNumber) s = (out, W) ->
  In ev (trace W) ->
  method_of ev <> MGetPRInfo ->
  exists prInfo branch,
    In (EGetPRInfo prNumber prInfo None) (trace W)
    /\ extractBranchFromPRInfo w prInfo = (branch, None)
    /\ branch <> EmptyString
    /\ (every not_quote branch = true \/ every not_space branch = true)
    /\ (forall b, worktree_branch ev = Some b -> b = branch).
Proof.
  intros Hrun Hin Hm. revert Hrun. all_paths; finished; cbn [trace] in Hin;
    which_event Hin; subst ev; try (now contradiction Hm).
  all: match goal with
       | Hex : extractBranchFromPRInfo ?w' ?i = (?b, None) |- _ =>
           exists i, b; assert (Hshape := extractBranchFromPRInfo_shape w' i);
           rewrite Hex in Hshape;
           destruct Hshape as [(_ & Hne & Hclass)|(Hno & _)];
           [|discriminate Hno]
       end.
  all: split; [cbn [In]; repeat first [left; reflexivity | right]|].
  all: split; [assumption|]. all: split; [assumption|].
  all: split; [assumption|].
  all: intros b Hb; cbn [worktree_branch] in Hb; try discriminate Hb;
    now injection Hb as <-.
Qed.

End MoreWorkflowProperties.

(** ** The fakes *)

Lemma append_neq_self (a : string) (c : ascii) (b : string) :
  a +:+ String c b <> a.
Proof.
  induction a as [|x a IH]; [discriminate|].
  rewrite append_cons. intros [= Heq]. exact (IH Heq).
Qed.

(** X7. An error given to SetResponse stays: a later SetResponse for the
    same command with a nil error replaces the output and leaves the error
    in place, so RunWithOutput and RunWithStdin keep failing with it. *)
Theorem FakeCommandRunner_error_is_kept
        (ctx : Context) (command : string) (args : list string)
        (output output' msg stdin : string) (f : FakeCommandRunner) :
  let key := FakeCommandRunner.cmdKey command args in
  let f' := FakeCommandRunner.SetResponse key output' None
              (FakeCommandRunner.SetResponse key output (Some msg) f) in
  (FakeCommandRunner.RunWithOutput ctx command args f').1 = (output', Some msg)
  /\ (FakeCommandRunner.RunWithStdin ctx stdin command args f').1 = Some msg.
Proof.
  intros key f'. subst f'.
  unfold FakeCommandRunner.RunWithOutput, FakeCommandRunner.RunWithStdin,
    FakeCommandRunner.SetResponse.
  cbn [responses errors stdinInputs fst]. fold key.
  rewrite !lookup_insert_eq. cbn [fst]. split; reflexivity.
Qed.

(** X8. The key of a command without arguments ends in a space, so a
    response set under the bare name of the command is never the one
    looked up: after such a SetResponse, RunWithOutput and RunWithStdin of
    the command without arguments return what they returned before it; and
    when nothing is stored under the name with the space, RunWithOutput
    answers with the default output and no error. *)
Theorem FakeCommandRunner_bare_name_is_not_found
        (ctx : Context) (stdin command output : string) (err : error)
        (f : FakeCommandRunner) :
  let configured := FakeCommandRunner.SetResponse command output err f in
  FakeCommandRunner.cmdKey command [] = command +:+ " "
  /\ (FakeCommandRunner.RunWithOutput ctx command [] configured).1
     = (FakeCommandRunner.RunWithOutput ctx command [] f).1
  /\ (FakeCommandRunner.RunWithStdin ctx stdin command [] configured).1
     = (FakeCommandRunner.RunWithStdin ctx stdin command [] f).1
  /\ (responses f !! (command +:+ " ") = None ->
      (FakeCommandRunner.RunWithOutput ctx command [] configured).1
      = ("fake output", None)).
Proof.
  intros configured. subst configured.
  assert (Hkey : FakeCommandRunner.cmdKey command [] = command +:+ " ")
    by reflexivity.
  assert (Hother : command <> command +:+ " ")
    by (intros Heq; symmetry in Heq; exact (append_neq_self _ _ _ Heq)).
  assert (Hresponses :
            responses (FakeCommandRunner.SetResponse command output err f)
            !! (command +:+ " ") = responses f !! (command +:+ " ")).
  { unfold FakeCommandRunner.SetResponse. cbn [responses].
    now rewrite lookup_insert_ne. }
  assert (Herrors :
            errors (FakeCommandRunner.SetResponse command output err f)
            !! (command +:+ " ") = errors f !! (command +:+ " ")).
  { unfold FakeCommandRunner.SetResponse. cbn [errors].
    destruct err; [now rewrite lookup_insert_ne | reflexivity]. }
  split; [exact Hkey|].
  unfold FakeCommandRunner.RunWithOutput, FakeCommandRunner.RunWithStdin.
  rewrite Hkey, Hresponses, Herrors. cbn [fst].
  split; [|split; [reflexivity|]].
  - destruct (responses f !! (command +:+ " ")); reflexivity.
  - intros ->. reflexivity.
Qed.

(** X9. RunWithStdin keeps the input last given to a command, whether the
    command fails or not: GetStdinInput returns it under the key of the
    command, the inputs of other keys are as before, and the configured
    outputs and errors are untouched. *)
Theorem FakeCommandRunner_records_stdin
        (ctx : Context) (stdin command other : string) (args : list string)
        (f : FakeCommandRunner) :
  let f' := (FakeCommandRunner.RunWithStdin ctx stdin command args f).2 in
  GetStdinInput (FakeCommandRunner.cmdKey command args) f' = stdin
  /\ (other <> FakeCommandRunner.cmdKey command args ->
      GetStdinInput other f' = GetStdinInput other f)
  /\ responses f' = responses f
  /\ errors f' = errors f.
Proof.
  intros f'. subst f'. unfold GetStdinInput, FakeCommandRunner.RunWithStdin.
  cbn [snd stdinInputs responses errors].
  rewrite lookup_insert_eq. split; [reflexivity|].
  split; [|split; reflexivity].
  intros Hne. rewrite lookup_insert_ne by congruence. reflexivity.
Qed.

(** X10. A worktree created on the fake is found again: CheckWorktreeExists
    answers true for its branch and GetWorktreePath the path it was created
    at, replacing an earlier one; the other branches are as before, and a
    branch without a worktree gets the path /fake/repo-<branch>. *)
Theorem FakeLocalGit_worktree_round_trip
        (branch path other : string) (f : FakeLocalGit) :
  let f' := (FakeLocalGit.CreateWorktree branch path f).2 in
  (FakeLocalGit.CreateWorktree branch path f).1 = None
  /\ (FakeLocalGit.CheckWorktreeExists branch f').1 = (true, None)
  /\ (FakeLocalGit.GetWorktreePath branch f').1 = (path, None)
  /\ (other <> branch ->
      (FakeLocalGit.CheckWorktreeExists other f').1
      = (FakeLocalGit.CheckWorktreeExists other f).1
      /\ (FakeLocalGit.GetWorktreePath other f').1
         = (FakeLocalGit.GetWorktreePath other f).1)
  /\ (worktrees f !! other = None ->
      (FakeLocalGit.CheckWorktreeExists other f).1 = (false, None)
      /\ (FakeLocalGit.GetWorktreePath other f).1
         = ("/fake/repo-" +:+ other, None)).
Proof.
  intros f'. subst f'.
  unfold FakeLocalGit.CreateWorktree, FakeLocalGit.CheckWorktreeExists,
    FakeLocalGit.GetWorktreePath, FakeLocalGit.set_worktrees.
  cbn [fst snd worktrees].
  rewrite !lookup_insert_eq. cbn [fst].
  split; [reflexivity|]. split; [reflexivity|]. split; [reflexivity|]. split.
  - intros Hne. rewrite !lookup_insert_ne by congruence.
    split; [reflexivity|]. destruct (worktrees f !! other); reflexivity.
  - intros ->. split; reflexivity.
Qed.

(** X11. The fake GitHub keeps what it is given: the info set for a pull
    request is what GetPRInfo returns, a pull request never set is reported
    as not found with its number, and PostComment, which never fails, adds
    the comment after those already posted on that pull request and leaves
    the other pull requests and the infos alone. *)
Theorem FakeGitHub_keeps_infos_and_comments
        (prNumber other : Z) (info body : string) (f : FakeGitHub) :
  (FakeGitHub.GetPRInfo prNumber (FakeGitHub.SetPRInfo prNumber info f)).1
  = (info, None)
  /\ (prData f !! prNumber = None ->
      (FakeGitHub.GetPRInfo prNumber f).1
      = (EmptyString, Some ("PR #" +:+ Itoa prNumber +:+ " not found")))
  /\ let f' := (FakeGitHub.PostComment prNumber body f).2 in
     (FakeGitHub.PostComment prNumber body f).1 = None
     /\ FakeGitHub.GetComments prNumber f'
        = FakeGitHub.GetComments prNumber f ++ [body]
     /\ (other <> prNumber ->
         FakeGitHub.GetComments other f' = FakeGitHub.GetComments other f)
     /\ prData f' = prData f.
Proof.
  unfold FakeGitHub.GetPRInfo, FakeGitHub.SetPRInfo, FakeGitHub.PostComment,
    FakeGitHub.GetComments.
  cbn [fst snd prData comments].
  rewrite !lookup_insert_eq. split; [reflexivity|]. split.
  - intros ->. reflexivity.
  - split; [reflexivity|]. split; [reflexivity|]. split; [|reflexivity].
    intros Hne. rewrite lookup_insert_ne by congruence. reflexivity.
Qed.

(** X12. The fake does not refuse a branch that exists: unless told to fail,
    CreateBranch succeeds for any name, also one created before, and puts it
    at the end of the created branches; BranchExists answers true exactly
    for the names created. *)
Theorem FakeLocalGit_branches
        (branchName other : string) (f : FakeLocalGit) :
  ((FakeLocalGit.BranchExists other f).1.1 = true <-> In other (createdBranches f))
  /\ (FailCreateBranch f = false ->
      let f' := (FakeLocalGit.CreateBranch branchName f).2 in
      (FakeLocalGit.CreateBranch branchName f).1 = None
      /\ createdBranches f' = createdBranches f ++ [branchName]
      /\ (FakeLocalGit.BranchExists branchName f').1 = (true, None))
  /\ (FailCreateBranch f = true ->
      FakeLocalGit.CreateBranch branchName f
      = (Some "fake create branch failure", f)).
Proof.
  assert (Hex : forall l, existsb (String.eqb other) l = true <-> In other l).
  { intros l. rewrite existsb_exists. split.
    - intros (x & Hin & Heq). apply String.eqb_eq in Heq. now subst.
    - intros Hin. exists other. split; [exact Hin | apply String.eqb_refl]. }
  unfold FakeLocalGit.BranchExists, FakeLocalGit.CreateBranch,
    FakeLocalGit.set_createdBranches.
  cbn [fst snd]. split; [apply Hex|]. split.
  - intros ->. cbn [fst snd createdBranches].
    split; [reflexivity|]. split; [reflexivity|].
    f_equal. rewrite existsb_app. cbn [existsb]. rewrite String.eqb_refl.
    rewrite orb_true_r. reflexivity.
  - intros ->. reflexivity.
Qed.

(** Run a workflow on the fakes: unfold the calls down to the maps. *)
Ltac on_fakes :=
  cbv beta iota zeta delta
      [run ProcessPR Start head_tail return_if_err bind invoke ret
       return_ panic Errorf_w
       app negb
       GetPRInfo PostComment CreatePR
       CheckWorktreeExists CreateWorktree ChangeDirectory CommitAndPush
       GetWorktreePath CreateBranch WriteFile PushBranchUpstream
       RunWithStdin RunWithOutput
       Deps_GitHub Deps_LocalGit Deps_CommandRunner
       FakeGitHub_GitHub FakeLocalGit_LocalGit FakeCommandRunner_CommandRunner
       on_Git on_GitHub on_Runner
       FakeGitHub.GetPRInfo FakeGitHub.PostComment FakeGitHub.CreatePR
       FakeLocalGit.CheckWorktreeExists FakeLocalGit.CreateWorktree
       FakeLocalGit.ChangeDirectory FakeLocalGit.CommitAndPush
       FakeLocalGit.GetWorktreePath FakeLocalGit.CreateBranch
       FakeLocalGit.WriteFile FakeLocalGit.PushBranchUpstream
       FakeLocalGit.set_worktrees FakeLocalGit.set_currentDir
       FakeLocalGit.set_commits FakeLocalGit.set_createdBranches
       FakeLocalGit.set_writtenFiles FakeLocalGit.set_pushedBranches
       FakeCommandRunner.RunWithStdin FakeCommandRunner.RunWithOutput];
  cbn [impl trace fst snd Git GitHub_ Runner
       worktrees currentDir commits createdBranches writtenFiles pushedBranches
       FailCreateBranch FailWriteFile FailCommitAndPush FailPushBranchUpstream
       isGitRepo githubOwner githubRepo FailGetGitHubRepository
       prData comments createdPRs FailCreatePR
       stdinInputs responses errors].

Lemma is_Some_None_false {A} : bool_decide (is_Some (@None A)) = false.
Proof. reflexivity. Qed.

Lemma is_Some_Some_true {A} (x : A) : bool_decide (is_Some (Some x)) = true.
Proof. reflexivity. Qed.

(** X13. ProcessPR on the fakes, for a pull request the fake GitHub knows,
    whose info names a branch without a worktree, with three non-empty
    commands and no failure configured for the agent or for committing: the
    run returns nil whatever lint and test give; the worktree of the branch
    is registered at /fake/repo-<branch>, which is the current directory;
    the commit message is added to the commits, the report of the two
    checks to the comments of the pull request, and the prompt is recorded
    as the input of the agent. *)
Theorem ProcessPR_on_the_fakes
        (w : Worker) (prNumber : Z) (prInfo branch : string)
        (g : FakeLocalGit) (h : FakeGitHub) (r : FakeCommandRunner)
        (agent : string) (aargs : list string)
        (lint : string) (largs : list string)
        (test : string) (targs : list string) :
  prData h !! prNumber = Some prInfo ->
  extractBranchFromPRInfo w prInfo = (branch, None) ->
  worktrees g !! branch = None ->
  FailCommitAndPush g = false ->
  AgentCommand w = agent :: aargs ->
  LintCommand w = lint :: largs ->
  TestCommand w = test :: targs ->
  errors r !! FakeCommandRunner.cmdKey agent aargs = None ->
  let res := run (ProcessPR w prNumber) (mkDeps g h r) in
  let path := "/fake/repo-" +:+ branch in
  res.1 = Returned None
  /\ worktrees (Git (impl res.2)) = <[branch := path]> (worktrees g)
  /\ currentDir (Git (impl res.2)) = path
  /\ commits (Git (impl res.2))
     = commits g ++ ["Automated changes from kratt worker"]
  /\ GetStdinInput (FakeCommandRunner.cmdKey agent aargs) (Runner (impl res.2))
     = generatePrompt w prInfo
  /\ exists lintOutput lintErr testOutput testErr,
      check_results (trace res.2)
      = [(lintOutput, lintErr); (testOutput, testErr)]
      /\ FakeGitHub.GetComments prNumber (GitHub_ (impl res.2))
         = FakeGitHub.GetComments prNumber h
           ++ [formatResultsComment w lintOutput lintErr testOutput testErr].
Proof.
  intros Hinfo Hbranch Hnew Hcommit Hagent Hlint Htest Hok res path.
  subst res path. on_fakes.
  rewrite Hinfo. on_fakes. rewrite Hbranch. on_fakes. rewrite Hnew.
  rewrite is_Some_None_false. on_fakes. rewrite Hnew. on_fakes.
  rewrite lookup_insert_eq. on_fakes. rewrite Hagent. on_fakes.
  rewrite Hok. on_fakes. rewrite Hlint. on_fakes.
  destruct (responses r !! FakeCommandRunner.cmdKey lint largs);
    on_fakes; rewrite Htest; on_fakes;
    destruct (responses r !! FakeCommandRunner.cmdKey test targs);
    on_fakes; rewrite Hcommit; on_fakes.
  all: unfold GetStdinInput, FakeGitHub.GetComments;
    cbn [stdinInputs comments check_results flat_map app];
    rewrite !lookup_insert_eq;
    repeat (split; [reflexivity|]);
    do 4 eexists; split; reflexivity.
Qed.

(** X14. A worktree the fake already has is used again: for a pull request
    whose branch has one, ProcessPR never calls CreateWorktree and leaves
    the registered worktrees as they are, and the one directory it changes
    to is the registered path. *)
Theorem ProcessPR_on_the_fakes_reuses_the_worktree
        (w : Worker) (prNumber : Z) (prInfo branch path : string)
        (g : FakeLocalGit) (h : FakeGitHub) (r : FakeCommandRunner) :
  prData h !! prNumber = Some prInfo ->
  extractBranchFromPRInfo w prInfo = (branch, None) ->
  worktrees g !! branch = Some path ->
  let res := run (ProcessPR w prNumber) (mkDeps g h r) in
  calls MCreateWorktree (trace res.2) = 0
  /\ worktrees (Git (impl res.2)) = worktrees g
  /\ In (EChangeDirectory path None) (trace res.2)
  /\ currentDir (Git (impl res.2)) = path.
Proof.
  intros Hinfo Hbranch Hold res. subst res. on_fakes.
  rewrite Hinfo. on_fakes. rewrite Hbranch. on_fakes. rewrite Hold.
  rewrite is_Some_Some_true. on_fakes. rewrite Hold. on_fakes.
  destruct (AgentCommand w) as [|agent aargs]; on_fakes;
    [repeat split; cbn; auto|].
  destruct (errors r !! FakeCommandRunner.cmdKey agent aargs); on_fakes;
    [repeat split; cbn; auto|].
  destruct (LintCommand w) as [|lint largs]; on_fakes;
    [repeat split; cbn; auto|].
  destruct (responses r !! FakeCommandRunner.cmdKey lint largs); on_fakes;
    (destruct (TestCommand w) as [|test targs]; on_fakes;
     [repeat split; cbn; auto|]);
    (destruct (responses r !! FakeCommandRunner.cmdKey test targs); on_fakes;
     destruct (FailCommitAndPush g); on_fakes;
     repeat split; cbn; auto 10).
Qed.

Lemma length_zero_iff_nil_string (s : string) :
  String.length s = 0 -> s = EmptyString.
Proof. destruct s; [reflexivity | discriminate]. Qed.

Section MoreGitRunnerProperties.
Context {S : Type} `{!OS S}.
Variable url_Parse : string -> URL + string.

Ltac open_adapter :=
  unfold run, GitRunner.CommitAndPush, GitRunner.CheckWorktreeExists,
    GitRunner.GetGitHubRepository, GitRunner.Run, GitRunner.Output,
    return_if_err, bind, invoke, ret, return_, Errorf_w;
  cbn [impl trace fst snd app].

Ltac next_command :=
  match goal with
  | |- context [cmd_Run ?argv ?s] =>
      destruct (cmd_Run argv s) as [[?|] ?] eqn:?
  | |- context [cmd_Output ?argv ?s] =>
      destruct (cmd_Output argv s) as [[? [?|]] ?] eqn:?
  | |- context [(String.length (strings.TrimSpace ?o) =? 0)%nat] =>
      destruct (String.length (strings.TrimSpace o) =? 0)%nat eqn:?
  end; cbn [impl trace fst snd app].

Ltac which_command H :=
  cbn [In] in H;
  repeat (destruct H as [H|H]; [try discriminate H|]);
  try contradiction.

Ltac ends :=
  repeat first [apply ends_with_one | apply ends_with_cons].

(** X17. For every owner and repository name without a slash, the owner
    not empty, GetGitHubRepository resolves the SSH remote
    git@github.com:owner/repo.git to them, whatever url.Parse would say of
    it, and so it does the remote url.Parse reads as host github.com with
    the path /owner/repo.git; one command is run, git remote get-url
    origin. *)
Theorem GetGitHubRepository_resolves_any_repository
        (owner repo output : string) (s s' : S) :
  owner <> EmptyString ->
  strings.Contains owner "/" = false ->
  strings.Contains repo "/" = false ->
  cmd_Output ["git"; "remote"; "get-url"; "origin"] s = ((output, None), s') ->
  let res := run (GitRunner.GetGitHubRepository url_Parse) s in
  (strings.TrimSpace output
   = "git@github.com:" +:+ owner +:+ "/" +:+ repo +:+ ".git"
   \/ (strings.HasPrefix (strings.TrimSpace output) "git@github.com:" = false
       /\ exists scheme,
           url_Parse (strings.TrimSpace output)
           = inl (mkURL scheme "github.com"
                        ("/" +:+ owner +:+ "/" +:+ repo +:+ ".git")))) ->
  res.1 = Returned (owner, repo, None)
  /\ trace res.2 = [ExOutput ["git"; "remote"; "get-url"; "origin"] output None].
Proof.
  intros Hne Ho Hr Hremote res Hurl. subst res.
  destruct (parseGitHubPath_round_trip_lemma owner repo Hne Ho Hr) as [Hplain Hslash].
  open_adapter. rewrite Hremote. cbn [impl trace fst snd app].
  destruct Hurl as [->|(Hssh & scheme & Hparse)].
  - unfold strings.TrimPrefix.
    replace (strings.HasPrefix
               ("git@github.com:" +:+ owner +:+ "/" +:+ repo +:+ ".git")
               "git@github.com:") with true by (symmetry; apply prefix_append).
    rewrite drop_append, Hplain. split; reflexivity.
  - rewrite Hssh, Hparse. cbn [Host Path]. cbn. rewrite Hslash.
    split; reflexivity.
Qed.

(** X18. CommitAndPush of the GitRunner, step by step: the commands run are
    the first ones of git add ., git status --porcelain, git commit -m with
    the message as given, git branch --show-current and git push -u origin
    to the branch that command printed, white space trimmed; a command that
    fails is the last one and its error is returned behind the text of its
    step; git commit is run only after a status output that is not blank;
    and nil is returned exactly after the two commands of a clean tree or
    after all five. *)
Theorem CommitAndPush_step_by_step (message : string) (s : S) out W :
  run (GitRunner.CommitAndPush message) s = (out, W) ->
  let steps e1 o2 e2 e3 o4 e4 e5 :=
    [ExRun ["git"; "add"; "."] e1;
     ExOutput ["git"; "status"; "--porcelain"] o2 e2;
     ExRun ["git"; "commit"; "-m"; message] e3;
     ExOutput ["git"; "branch"; "--show-current"] o4 e4;
     ExRun ["git"; "push"; "-u"; "origin"; strings.TrimSpace o4] e5] in
  (exists e1 o2 e2 e3 o4 e4 e5 k,
      trace W = firstn k (steps e1 o2 e2 e3 o4 e4 e5))
  /\ (forall ev msg, In ev (trace W) -> exec_err ev = Some msg ->
        ends_with (trace W) ev
        /\ out = Returned (Some (CommitAndPush_stage ev +:+ msg)))
  /\ (forall err, In (ExRun ["git"; "commit"; "-m"; message] err) (trace W) ->
        exists o2, In (ExOutput ["git"; "status"; "--porcelain"] o2 None) (trace W)
                   /\ strings.TrimSpace o2 <> EmptyString)
  /\ (out = Returned None <->
      (exists o2, strings.TrimSpace o2 = EmptyString
                  /\ trace W = firstn 2 (steps None o2 None None EmptyString None None))
      \/ exists o2 o4, trace W = steps None o2 None None o4 None None).
Proof.
  intros Hrun steps; subst steps; revert Hrun.
  open_adapter; repeat next_command; intros [= <- <-]; cbn [trace].
  all: split;
    [match goal with
     | |- exists e1 o2 e2 e3 o4 e4 e5 k, ?tr = _ =>
         exists (nth 0 (map exec_err tr) None),
           (nth 1 (map (fun ev => match ev with
                                  | ExOutput _ o _ => o
                                  | ExRun _ _ => EmptyString
                                  end) tr) EmptyString),
           (nth 1 (map exec_err tr) None),
           (nth 2 (map exec_err tr) None),
           (nth 3 (map (fun ev => match ev with
                                  | ExOutput _ o _ => o
                                  | ExRun _ _ => EmptyString
                                  end) tr) EmptyString),
           (nth 3 (map exec_err tr) None),
           (nth 4 (map exec_err tr) None), (length tr);
         reflexivity
     end|].
  all: split;
    [intros ev msg Hin Herr; which_command Hin; subst ev;
     cbn [exec_err] in Herr; try discriminate Herr;
     injection Herr as ->; (split; [ends | reflexivity])|].
  all: split;
    [intros err Hin; which_command Hin;
     (eexists; split;
      [right; left; reflexivity
      |intros Hblank;
       match goal with
       | E : (String.length _ =? 0)%nat = false |- _ =>
           rewrite Hblank in E; discriminate E
       end])|].
  all: split;
    [intros Hout; try discriminate Hout;
     first [left; eexists; split;
            [apply length_zero_iff_nil_string;
             match goal with
             | E : (String.length _ =? 0)%nat = true |- _ =>
                 apply Nat.eqb_eq in E; exact E
             end | reflexivity]
           | right; do 2 eexists; reflexivity]
    |intros [(o2 & _ & Heq)|(o2 & o4 & Heq)];
     first [reflexivity | discriminate Heq]].
Qed.

End MoreGitRunnerProperties.

(** ** Branch names the command line accepts *)

Section BranchNames.
Import cmd.

Lemma every_append (p : ascii -> bool) (a b : string) :
  every p (a +:+ b) = every p a && every p b.
Proof.
  induction a as [|c a IH].
  - now rewrite append_nil_l.
  - rewrite append_cons. cbn [every]. rewrite IH. apply andb_assoc.
Qed.

(** A one-byte class matches where a byte of the class is. *)
Lemma MatchString_Class (p : ascii -> bool) (s : string) :
  MatchString (Class p) s = negb (every (fun c => negb (p c)) s).
Proof.
  unfold MatchString. induction s as [|c s IH].
  - reflexivity.
  - cbn [FindStringSubmatch matchHere every]. destruct (p c).
    + reflexivity.
    + cbn [negb andb]. exact IH.
Qed.

Lemma MatchString_dots (s : string) :
  MatchString re_dots s = strings.Contains s "..".
Proof.
  unfold MatchString, re_dots. induction s as [|c s IH].
  - reflexivity.
  - cbn [FindStringSubmatch strings.Contains].
    rewrite matchHere_Cat, matchHere_byte.
    change ".." with ("." +:+ ".").
    rewrite prefix_append_split.
    destruct (String.prefix "." (String c s)); cbn [andb orb].
    + rewrite matchHere_byte.
      change (String.length ".") with 1.
      destruct (String.prefix "." (strings.drop 1 (String c s)));
        cbn [orb]; [reflexivity | exact IH].
    + exact IH.
Qed.

Lemma prefix_one (c : ascii) (s : string) :
  String.prefix (String c EmptyString) s = first_is c s.
Proof.
  destruct s as [|x s]; [reflexivity|]. cbn [String.prefix first_is].
  rewrite prefix_nil. destruct (ascii_dec c x) as [->|Hne].
  - now rewrite Ascii.eqb_refl.
  - symmetry. apply Ascii.eqb_neq. congruence.
Qed.

Lemma byte_at_first (c : ascii) (s : string) :
  byte_at_is s 0 c = first_is c s.
Proof. now destruct s. Qed.

Lemma byte_at_last (c : ascii) (s : string) :
  byte_at_is s (String.length s - 1) c = last_is c s.
Proof.
  destruct s as [|x s]; [reflexivity|]. cbn [String.length].
  replace (S (String.length s) - 1) with (String.length s) by lia.
  revert x. induction s as [|y s IH]; intros x; [reflexivity|].
  change (last_is c (String x (String y s))) with (last_is c (String y s)).
  rewrite <- (IH y). reflexivity.
Qed.

Lemma first_is_append (c : ascii) (a b : string) :
  a <> EmptyString -> first_is c (a +:+ b) = first_is c a.
Proof. destruct a; [congruence | reflexivity]. Qed.

Lemma last_is_append (c : ascii) (a b : string) :
  b <> EmptyString -> last_is c (a +:+ b) = last_is c b.
Proof.
  intros Hb. induction a as [|x a IH]; [now rewrite append_nil_l|].
  rewrite append_cons. cbn [last_is]. rewrite IH.
  destruct (a +:+ b) eqn:Hab; [|reflexivity].
  destruct a; [rewrite append_nil_l in Hab; congruence | discriminate Hab].
Qed.

(** Two dots in a row, told by the first and the last byte of the parts. *)
Lemma Contains_dots_cons (c : ascii) (s : string) :
  strings.Contains (String c s) ".."
  = (Ascii.eqb c "." && first_is "." s) || strings.Contains s "..".
Proof.
  cbn [strings.Contains]. f_equal.
  change ".." with ("." +:+ "."). rewrite prefix_append_split.
  rewrite !prefix_one. reflexivity.
Qed.

Lemma Contains_dots_append (a b : string) :
  strings.Contains (a +:+ b) ".."
  = strings.Contains a ".." || strings.Contains b ".."
    || (last_is "." a && first_is "." b).
Proof.
  induction a as [|c a IH].
  - rewrite append_nil_l. cbn [last_is andb].
    now rewrite orb_false_r.
  - rewrite append_cons, !Contains_dots_cons, IH.
    destruct a as [|d a].
    + rewrite append_nil_l. cbn [first_is last_is strings.Contains].
      cbn [String.prefix orb andb].
      destruct (Ascii.eqb c "."), (first_is "." b), (strings.Contains b "..");
        reflexivity.
    + rewrite append_cons.
      change (first_is "." (String d (a +:+ b))) with (first_is "." (String d a)).
      change (last_is "." (String c (String d a))) with (last_is "." (String d a)).
      destruct (Ascii.eqb c "." && first_is "." (String d a)),
        (strings.Contains (String d a) ".."), (strings.Contains b ".."),
        (last_is "." (String d a) && first_is "." b); reflexivity.
Qed.

Lemma isValidBranchName_spelled_out (name : string) :
  isValidBranchName name
  = every allowed name
    && negb (String.length name =? 0)%nat
    && negb (first_is "." name) && negb (first_is "/" name)
    && negb (last_is "." name) && negb (last_is "/" name)
    && negb (strings.Contains name "..").
Proof.
  unfold isValidBranchName, re_invalidChars.
  rewrite MatchString_Class, MatchString_dots, !byte_at_first, !byte_at_last.
  change (fun c => negb (invalid_char c)) with allowed.
  destruct (every allowed name), (String.length name =? 0)%nat,
    (first_is "." name), (first_is "/" name), (last_is "." name),
    (last_is "/" name), (strings.Contains name ".."); reflexivity.
Qed.

Lemma isValidBranchName_parts (name : string) :
  isValidBranchName name = true ->
  name <> EmptyString
  /\ every allowed name = true
  /\ first_is "." name = false /\ first_is "/" name = false
  /\ last_is "." name = false /\ last_is "/" name = false
  /\ strings.Contains name ".." = false.
Proof.
  rewrite isValidBranchName_spelled_out. intros H.
  repeat (apply andb_true_iff in H as [H ?]).
  repeat match goal with
         | H : negb _ = true |- _ => apply negb_true_iff in H
         end.
  repeat split; try assumption.
  intros ->. discriminate.
Qed.

(** X22. isValidBranchName accepts exactly the names that are not empty,
    hold none of the bytes tilde, caret, colon, question mark, asterisk,
    square bracket, backslash, tab, line feed, form feed, carriage return
    and space, neither start nor end with a dot or a slash, and nowhere
    have two dots in a row. *)
Theorem isValidBranchName_accepts (name : string) :
  isValidBranchName name = true
  <-> name <> EmptyString
      /\ every allowed name = true
      /\ first_is "." name = false /\ first_is "/" name = false
      /\ last_is "." name = false /\ last_is "/" name = false
      /\ strings.Contains name ".." = false.
Proof.
  split; [apply isValidBranchName_parts|].
  intros (Hne & Hall & Hfd & Hfs & Hld & Hls & Hdots).
  rewrite isValidBranchName_spelled_out, Hall, Hfd, Hfs, Hld, Hls, Hdots.
  destruct name; [congruence | reflexivity].
Qed.

(** X23. Accepted names can be joined: two accepted names with any text
    between them that holds only allowed bytes and no two dots in a row
    make an accepted name again. So a slash, several slashes, a dot or
    nothing at all may join them, and the check sees no difference
    between path components. *)
Theorem isValidBranchName_joins (a between b : string) :
  isValidBranchName a = true ->
  isValidBranchName b = true ->
  every allowed between = true ->
  strings.Contains between ".." = false ->
  isValidBranchName (a +:+ between +:+ b) = true.
Proof.
  intros Ha Hb Hall Hdots.
  apply isValidBranchName_parts in Ha
    as (Hane & Haall & Hafd & Hafs & Hald & _ & Hadots).
  apply isValidBranchName_parts in Hb
    as (Hbne & Hball & Hbfd & _ & Hbld & Hbls & Hbdots).
  assert (Hne : between +:+ b <> EmptyString).
  { destruct between; [now rewrite append_nil_l | discriminate]. }
  rewrite isValidBranchName_spelled_out.
  rewrite !every_append, Haall, Hall, Hball.
  rewrite !(first_is_append _ a) by exact Hane. rewrite Hafd, Hafs.
  rewrite !(last_is_append _ a) by exact Hne.
  rewrite !(last_is_append _ between) by exact Hbne. rewrite Hbld, Hbls.
  rewrite !Contains_dots_append, Hadots, Hdots, Hbdots, Hbfd, Hald.
  rewrite andb_false_r.
  destruct a; [congruence | reflexivity].
Qed.

(** The model agrees with the table of the repository's test of the
    function. *)
Example isValidBranchName_test_table :
  forallb (fun t => Bool.eqb (isValidBranchName t.1) t.2) branch_name_tests
  = true.
Proof. vm_compute. reflexivity. Qed.

End BranchNames.

(** ** The start command *)

Section StartCommand.
Import cmd.
Context {S : Type} `{!LocalGit S} `{!GitHub S} `{!CommandRunner S}.

Ltac open_command :=
  unfold run, runWorkerStart, index, call, Printf, run, Start, return_if_err,
    bind, invoke, ret, return_, panic, Errorf_w;
  cbn [impl trace fst snd app map nth_error negb].

Ltac simp_step := cbn [impl trace fst snd app map negb].

Ltac next_call :=
  match goal with
  | |- context [isValidBranchName ?b] =>
      destruct (isValidBranchName b) eqn:?
  | |- context [IsGitRepository ?s] =>
      destruct (IsGitRepository s) as [[[|] [?|]] ?] eqn:?
  | |- context [GetGitHubRepository ?s] =>
      destruct (GetGitHubRepository s) as [[[? ?] [?|]] ?] eqn:?
  | |- context [verbose ?f] =>
      destruct (verbose f) eqn:?
  | |- context [BranchExists ?b ?s] =>
      destruct (BranchExists b s) as [[[|] [?|]] ?] eqn:?
  | |- context [CreateBranch ?b ?s] =>
      destruct (CreateBranch b s) as [[?|] ?] eqn:?
  | |- context [WriteFile ?p ?c ?s] =>
      destruct (WriteFile p c s) as [[?|] ?] eqn:?
  | |- context [CommitAndPush ?m ?s] =>
      destruct (CommitAndPush m s) as [[?|] ?] eqn:?
  | |- context [PushBranchUpstream ?b ?s] =>
      destruct (PushBranchUpstream b s) as [[?|] ?] eqn:?
  | |- context [CreatePR ?t ?d ?s] =>
      destruct (CreatePR t d s) as [[?|] ?] eqn:?
  end; simp_step.

Ltac all_paths := open_command; repeat next_call.
Ltac finished := intros [= <- <-]; cbn [trace].
Ltac which_event H :=
  cbn [In] in H;
  repeat (destruct H as [H|H]; [try discriminate H|]);
  try contradiction.

(** X24. The start command changes nothing before its checks have passed.
    With a branch name isValidBranchName refuses nothing at all is called.
    And the worker is called only for an accepted name, after
    IsGitRepository said yes, GetGitHubRepository found the repository and
    BranchExists said no, all three without an error; apart from these
    calls, the worker's and what the verbose flag prints the command does
    nothing. *)
Theorem runWorkerStart_checks_before_it_changes
        (f : Flags) (branchName instruction : string) (s : S) out W :
  run (runWorkerStart f [branchName; instruction]) s = (out, W) ->
  (isValidBranchName branchName = false ->
   trace W = []
   /\ out = Returned
              (Some "invalid branch name: must not contain invalid characters"))
  /\ (worker_calls (trace W) <> [] ->
      isValidBranchName branchName = true
      /\ exists owner repo said,
          trace W = checks_passed f branchName owner repo
                    ++ map EWorker (worker_calls (trace W)) ++ said
          /\ (said = []
              \/ (verbose f = true /\ out = Returned None
                  /\ said = [EPrintf ("Successfully created branch "
                                      +:+ branchName
                                      +:+ " and opened pull request"
                                      +:+ LF)]))).
Proof.
  all_paths; finished; (split; [intros Hbad; try discriminate Hbad; auto|]).
  all: cbn [worker_calls flat_map app]; intros Hcalls;
    try (now contradiction Hcalls); (split; [reflexivity|]).
  all: unfold checks_passed;
    match goal with
    | Hv : verbose _ = _ |- _ => rewrite Hv
    end; cbn [app map].
  all: do 2 eexists.
  all: first [ exists []; split; [reflexivity | left; reflexivity]
             | eexists; split; [reflexivity | right; auto] ].
Qed.

(** X25. What the start command returns, called with its two arguments. It
    never panics. It returns nil exactly when the worker made the five
    calls of Start and all went through. And the error of a call of the
    worker that failed comes back wrapped twice: behind the text failed
    to start branch with the branch name, and behind the text of the step
    of Start. *)
Theorem runWorkerStart_result
        (f : Flags) (branchName instruction : string) (s : S) out W :
  run (runWorkerStart f [branchName; instruction]) s = (out, W) ->
  (exists err, out = Returned err)
  /\ (out = Returned None
      <-> worker_calls (trace W) = started branchName instruction)
  /\ (forall ev msg,
         In ev (worker_calls (trace W)) -> err_of ev = Some msg ->
         out = Returned (Some ("failed to start branch " +:+ branchName
                               +:+ ": " +:+ Start_stage (method_of ev)
                               +:+ msg))).
Proof.
  all_paths; finished; cbn [worker_calls flat_map app];
    (split; [eexists; reflexivity|]);
    (split; [split; intros Heq; try discriminate Heq; reflexivity|]).
  all: intros ev msg Hin Herr; which_event Hin; subst ev;
    cbn [err_of] in Herr; try discriminate Herr; injection Herr as ->;
    cbn [method_of Start_stage]; rewrite <- ?append_assoc; reflexivity.
Qed.

End StartCommand.

(** ** Start on the fakes *)

Section StartOnFakes.

Ltac start_on_fakes :=
  cbv beta iota zeta delta
      [run Start return_if_err bind invoke ret return_ panic Errorf_w
       CreatePR CommitAndPush CreateBranch WriteFile PushBranchUpstream
       Deps_GitHub Deps_LocalGit Deps_CommandRunner
       FakeGitHub_GitHub FakeLocalGit_LocalGit FakeCommandRunner_CommandRunner
       on_Git on_GitHub on_Runner
       FakeGitHub.CreatePR
       FakeLocalGit.CommitAndPush FakeLocalGit.CreateBranch
       FakeLocalGit.WriteFile FakeLocalGit.PushBranchUpstream
       FakeLocalGit.set_commits FakeLocalGit.set_createdBranches
       FakeLocalGit.set_writtenFiles FakeLocalGit.set_pushedBranches];
  cbn [impl trace fst snd Git GitHub_ Runner app
       worktrees currentDir commits createdBranches writtenFiles pushedBranches
       FailCreateBranch FailWriteFile FailCommitAndPush FailPushBranchUpstream
       isGitRepo githubOwner githubRepo FailGetGitHubRepository
       prData comments createdPRs FailCreatePR].

Lemma existsb_last (b : string) (l : list string) :
  existsb (String.eqb b) (l ++ [b]) = true.
Proof.
  rewrite existsb_app. cbn [existsb]. rewrite String.eqb_refl.
  now rewrite orb_true_r.
Qed.

(** What Start leaves behind on fakes that do not fail. *)
Lemma Start_on_unfailing_fakes
      (w : Worker) (branchName instruction : string)
      (g : FakeLocalGit) (h : FakeGitHub) (r : FakeCommandRunner) :
  FailCreateBranch g = false ->
  FailWriteFile g = false ->
  FailCommitAndPush g = false ->
  FailPushBranchUpstream g = false ->
  FailCreatePR h = false ->
  run (Start w branchName instruction) (mkDeps g h r)
  = (Returned None,
     mkWorld
       (mkDeps
          (mkFakeLocalGit
             (worktrees g) (currentDir g)
             (commits g ++ ["Add instructions for " +:+ branchName])
             (isGitRepo g) (githubOwner g) (githubRepo g)
             (createdBranches g ++ [branchName])
             (<["docs/" +:+ branchName +:+ "-instructions.md" := instruction]>
                (writtenFiles g))
             (pushedBranches g ++ [branchName])
             false false false false (FailGetGitHubRepository g))
          (mkFakeGitHub
             (prData h) (comments h)
             (createdPRs h
              ++ [mkCreatedPR
                    ("Implement " +:+ branchName)
                    ("Study docs/" +:+ branchName
                     +:+ "-instructions.md and make a list of necessary implementation steps in docs/"
                     +:+ branchName +:+ "-implementation-status.md")])
             false)
          r)
       (cmd.started branchName instruction)).
Proof.
  intros Hbranch Hwrite Hcommit Hpush Hpr.
  start_on_fakes. rewrite Hbranch. start_on_fakes.
  rewrite Hwrite. start_on_fakes. rewrite Hcommit. start_on_fakes.
  rewrite Hpush. start_on_fakes. rewrite Hpr. start_on_fakes.
  rewrite ?Hbranch, ?Hwrite, ?Hcommit, ?Hpush, ?Hpr. reflexivity.
Qed.

(** X26. Start on the fakes, and Start again. With no failure configured
    in FakeLocalGit and FakeGitHub, Start returns nil after its five calls;
    the branch is added to the created and to the pushed branches and
    BranchExists finds it, the instructions are stored under
    docs/<branch>-instructions.md, the commit is recorded, the pull request
    is added to those of FakeGitHub, and the command runner is not touched.
    Start itself never asks whether the branch exists: run once more for
    the same branch it returns nil again, and the branch is listed twice
    and has two pull requests. *)
Theorem Start_on_the_fakes
        (w : Worker) (branchName instruction again : string)
        (g : FakeLocalGit) (h : FakeGitHub) (r : FakeCommandRunner) :
  FailCreateBranch g = false ->
  FailWriteFile g = false ->
  FailCommitAndPush g = false ->
  FailPushBranchUpstream g = false ->
  FailCreatePR h = false ->
  let first := run (Start w branchName instruction) (mkDeps g h r) in
  let second := run (Start w branchName again) (impl first.2) in
  let pr := mkCreatedPR
              ("Implement " +:+ branchName)
              ("Study docs/" +:+ branchName
               +:+ "-instructions.md and make a list of necessary implementation steps in docs/"
               +:+ branchName +:+ "-implementation-status.md") in
  first.1 = Returned None
  /\ trace first.2 = cmd.started branchName instruction
  /\ createdBranches (Git (impl first.2)) = createdBranches g ++ [branchName]
  /\ (FakeLocalGit.BranchExists branchName (Git (impl first.2))).1
     = (true, None)
  /\ pushedBranches (Git (impl first.2)) = pushedBranches g ++ [branchName]
  /\ writtenFiles (Git (impl first.2))
     = <["docs/" +:+ branchName +:+ "-instructions.md" := instruction]>
         (writtenFiles g)
  /\ commits (Git (impl first.2))
     = commits g ++ ["Add instructions for " +:+ branchName]
  /\ createdPRs (GitHub_ (impl first.2)) = createdPRs h ++ [pr]
  /\ Runner (impl first.2) = r
  /\ second.1 = Returned None
  /\ createdBranches (Git (impl second.2))
     = createdBranches g ++ [branchName; branchName]
  /\ createdPRs (GitHub_ (impl second.2)) = createdPRs h ++ [pr; pr]
  /\ writtenFiles (Git (impl second.2))
     !! ("docs/" +:+ branchName +:+ "-instructions.md") = Some again.
Proof.
  intros Hbranch Hwrite Hcommit Hpush Hpr first second pr.
  subst first second pr.
  rewrite (Start_on_unfailing_fakes w branchName instruction g h r
             Hbranch Hwrite Hcommit Hpush Hpr).
  cbn [fst snd impl trace].
  rewrite Start_on_unfailing_fakes by reflexivity.
  cbn [fst snd impl trace Git GitHub_ Runner createdBranches pushedBranches
       writtenFiles commits createdPRs].
  unfold FakeLocalGit.BranchExists. cbn [createdBranches fst].
  rewrite existsb_last, <- !app_assoc. cbn [app].
  repeat (split; [reflexivity|]). apply lookup_insert_eq.
Qed.

End StartOnFakes.

(** ** The further properties at work *)

Lemma ProcessPR_stops_at_first_failure_witness :
  let r := run (ProcessPR test_worker 123) no_pull_request in
  let ev := EGetPRInfo 123 EmptyString (Some "PR #123 not found") in
  In ev (trace r.2)
  /\ err_of ev = Some "PR #123 not found"
  /\ method_of ev <> MRunWithOutput
  /\ ends_with (trace r.2) ev
  /\ r.1 = Returned (Some "failed to get PR info: PR #123 not found").
Proof.
  intros r ev.
  assert (Hin : In ev (trace r.2)) by by_computation.
  assert (Hm : method_of ev <> MRunWithOutput) by discriminate.
  split; [exact Hin|]. split; [reflexivity|]. split; [exact Hm|].
  exact (ProcessPR_stops_at_first_failure test_worker 123 no_pull_request
           r.1 r.2 ev _ (surjective_pairing r) Hin eq_refl Hm).
Defined.

Lemma ProcessPR_success_is_a_full_run_witness :
  let r := run (ProcessPR test_worker 123) test_deps in
  r.1 = Returned None
  /\ calls MRunWithOutput (trace r.2) = 2
  /\ calls MPostComment (trace r.2) = 1
  /\ calls MCommitAndPush (trace r.2) = 1.
Proof.
  intros r.
  assert (Hout : r.1 = Returned None) by reflexivity.
  destruct (proj1 (ProcessPR_success_is_a_full_run test_worker 123 test_deps
                     r.1 r.2 (surjective_pairing r)) Hout)
    as (_ & _ & _ & _ & Hchecks & Hcomment & Hcommit & _).
  split; [exact Hout|]. split; [exact Hchecks|]. split; assumption.
Defined.

Lemma ProcessPR_runs_the_configured_commands_witness :
  let r := run (ProcessPR test_worker 123) test_deps in
  exists k, checks_run (trace r.2)
            = firstn k [LintCommand test_worker; TestCommand test_worker].
Proof.
  intros r.
  exact (proj2 (proj2 (ProcessPR_runs_the_configured_commands
                         test_worker 123 test_deps r.1 r.2
                         (surjective_pairing r)))).
Defined.

Lemma ProcessPR_passes_paths_on_witness :
  let r := run (ProcessPR test_worker 123) test_deps in
  let path := "/fake/repo-feature-branch" in
  In (ECreateWorktree "feature-branch" path None) (trace r.2)
  /\ adjacent (EGetWorktreePath "feature-branch" path None)
              (ECreateWorktree "feature-branch" path None) (trace r.2).
Proof.
  intros r path.
  assert (Hin : In (ECreateWorktree "feature-branch" path None) (trace r.2))
    by by_computation.
  split; [exact Hin|].
  exact (proj1 (ProcessPR_passes_paths_on test_worker 123 test_deps r.1 r.2
                  (surjective_pairing r)) _ _ _ Hin).
Defined.

Lemma Start_stops_at_first_failure_witness :
  let failing :=
    mkDeps NewFakeLocalGit
           (mkFakeGitHub ∅ ∅ [] true) NewFakeCommandRunner : Fakes in
  let r := run (Start test_worker "test-branch" "Test instructions") failing in
  let ev :=
    ECreatePR "Implement test-branch"
              "Study docs/test-branch-instructions.md and make a list of necessary implementation steps in docs/test-branch-implementation-status.md"
              (Some "fake create PR failure") in
  In ev (trace r.2)
  /\ ends_with (trace r.2) ev
  /\ r.1 = Returned (Some "failed to create pull request: fake create PR failure").
Proof.
  intros failing r ev.
  assert (Hin : In ev (trace r.2)) by by_computation.
  split; [exact Hin|].
  exact (proj1 (proj2 (Start_stops_at_first_failure test_worker "test-branch"
                         "Test instructions" failing r.1 r.2
                         (surjective_pairing r))) ev _ Hin eq_refl).
Defined.

Lemma FakeCommandRunner_bare_name_is_not_found_witness :
  responses NewFakeCommandRunner !! ("ls" +:+ " ") = None
  /\ (FakeCommandRunner.RunWithOutput (WithTimeout 0) "ls" []
        (FakeCommandRunner.SetResponse "ls" "a.go" (Some "exit status 2")
           NewFakeCommandRunner)).1
     = ("fake output", None).
Proof.
  split; [reflexivity|].
  exact (proj2 (proj2 (proj2 (FakeCommandRunner_bare_name_is_not_found
                                (WithTimeout 0) EmptyString "ls" "a.go"
                                (Some "exit status 2") NewFakeCommandRunner)))
               eq_refl).
Defined.

Lemma ProcessPR_on_the_fakes_witness :
  let r := run (ProcessPR test_worker 123) test_deps in
  prData (GitHub_ test_deps) !! 123%Z = Some test_prInfo
  /\ extractBranchFromPRInfo test_worker test_prInfo = ("feature-branch", None)
  /\ r.1 = Returned None
  /\ currentDir (Git (impl r.2)) = "/fake/repo-feature-branch"
  /\ commits (Git (impl r.2)) = ["Automated changes from kratt worker"].
Proof.
  intros r.
  assert (Hinfo : prData (GitHub_ test_deps) !! 123%Z = Some test_prInfo)
    by reflexivity.
  assert (Hbranch : extractBranchFromPRInfo test_worker test_prInfo
                    = ("feature-branch", None)) by by_computation.
  destruct (ProcessPR_on_the_fakes test_worker 123 test_prInfo "feature-branch"
              NewFakeLocalGit (GitHub_ test_deps) test_runner
              "echo" ["agent-output"] "goimports" ["-w"; "./..."]
              "go" ["test"; "./..."]
              Hinfo Hbranch eq_refl eq_refl eq_refl eq_refl eq_refl eq_refl)
    as (Hout & _ & Hdir & Hcommits & _).
  split; [exact Hinfo|]. split; [exact Hbranch|]. split; [exact Hout|].
  split; [exact Hdir | exact Hcommits].
Defined.

Lemma ProcessPR_on_the_fakes_reuses_the_worktree_witness :
  let again :=
    mkDeps (FakeLocalGit.CreateWorktree "feature-branch" "/src/wt" NewFakeLocalGit).2
           (GitHub_ test_deps) test_runner : Fakes in
  let r := run (ProcessPR test_worker 123) again in
  worktrees (Git again) !! "feature-branch" = Some "/src/wt"
  /\ calls MCreateWorktree (trace r.2) = 0
  /\ currentDir (Git (impl r.2)) = "/src/wt".
Proof.
  intros again r.
  assert (Hbranch : extractBranchFromPRInfo test_worker test_prInfo
                    = ("feature-branch", None)) by by_computation.
  assert (Hold : worktrees (Git again) !! "feature-branch" = Some "/src/wt")
    by reflexivity.
  destruct (ProcessPR_on_the_fakes_reuses_the_worktree test_worker 123
              test_prInfo "feature-branch" "/src/wt" (Git again)
              (GitHub_ test_deps) test_runner eq_refl Hbranch Hold)
    as (Hcalls & _ & _ & Hdir).
  split; [exact Hold|]. split; [exact Hcalls | exact Hdir].
Defined.

Lemma parseGitHubPath_round_trip_witness :
  "acme" <> EmptyString
  /\ strings.Contains "acme" "/" = false
  /\ strings.Contains "widgets" "/" = false
  /\ parseGitHubPath "/acme/widgets.git" = ("acme", "widgets", None).
Proof.
  split; [discriminate|]. split; [reflexivity|]. split; [reflexivity|].
  exact (proj2 (parseGitHubPath_round_trip "acme" "widgets"
                  ltac:(discriminate) eq_refl eq_refl)).
Defined.

Lemma parseGitHubPath_needs_a_slash_witness :
  strings.Contains (bare_path "/widgets.git") "/" = false
  /\ parseGitHubPath "/widgets.git"
     = (EmptyString, EmptyString, Some "invalid GitHub path format: widgets").
Proof.
  split; [reflexivity|].
  exact (proj1 (parseGitHubPath_needs_a_slash "/widgets.git") eq_refl).
Defined.

Lemma GetGitHubRepository_resolves_any_repository_witness :
  cmd_Output ["git"; "remote"; "get-url"; "origin"] clean_machine
  = (("git@github.com:acme/widgets.git" +:+ LF, None), clean_machine)
  /\ (run (GitRunner.GetGitHubRepository plain_url_Parse) clean_machine).1
     = Returned ("acme", "widgets", None).
Proof.
  split; [reflexivity|].
  exact (proj1 (GetGitHubRepository_resolves_any_repository plain_url_Parse
                  "acme" "widgets" ("git@github.com:acme/widgets.git" +:+ LF)
                  clean_machine clean_machine
                  ltac:(discriminate) eq_refl eq_refl eq_refl
                  (or_introl eq_refl))).
Defined.

Lemma CommitAndPush_step_by_step_witness :
  let r := run (GitRunner.CommitAndPush "Automated changes from kratt worker")
               dirty_machine in
  r.1 = Returned None
  /\ In (ExRun ["git"; "push"; "-u"; "origin"; "feature-branch"] None) (trace r.2)
  /\ exists o2,
      In (ExOutput ["git"; "status"; "--porcelain"] o2 None) (trace r.2)
      /\ strings.TrimSpace o2 <> EmptyString.
Proof.
  intros r.
  assert (Hcommit : In (ExRun ["git"; "commit"; "-m";
                               "Automated changes from kratt worker"] None)
                       (trace r.2)) by by_computation.
  split; [reflexivity|]. split; [by_computation|].
  exact (proj1 (proj2 (proj2 (CommitAndPush_step_by_step
                                "Automated changes from kratt worker"
                                dirty_machine r.1 r.2 (surjective_pairing r))))
               None Hcommit).
Defined.

Lemma extractBranchFromPRInfo_result_witness :
  extractBranchFromPRInfo test_worker test_prInfo = ("feature-branch", None)
  /\ "feature-branch" <> EmptyString
  /\ (every not_quote "feature-branch" = true
      \/ every not_space "feature-branch" = true).
Proof.
  assert (Hex : extractBranchFromPRInfo test_worker test_prInfo
                = ("feature-branch", None)) by (vm_compute; reflexivity).
  split; [exact Hex|].
  exact (proj1 (extractBranchFromPRInfo_result test_worker test_prInfo
                  "feature-branch" None Hex) eq_refl).
Defined.

Lemma extractBranchFromPRInfo_reads_headRefName_witness :
  extractBranchFromPRInfo
    test_worker
    ("branch: decoy " +:+ headRefName_key +:+ " " +:+ quoted "feature-x"
     +:+ ", " +:+ headRefName_key +:+ quoted "second")
  = ("feature-x", None).
Proof.
  assert (Hne : "feature-x" <> EmptyString) by discriminate.
  exact (extractBranchFromPRInfo_reads_headRefName
           test_worker "branch: decoy " " " "feature-x"
           (", " +:+ headRefName_key +:+ quoted "second")
           eq_refl eq_refl Hne eq_refl).
Defined.

Lemma ProcessPR_works_on_the_extracted_branch_witness :
  let r := run (ProcessPR test_worker 123) test_deps in
  let ev := ECreateWorktree "feature-branch" "/fake/repo-feature-branch" None in
  In ev (trace r.2)
  /\ method_of ev <> MGetPRInfo
  /\ exists prInfo branch,
      In (EGetPRInfo 123 prInfo None) (trace r.2)
      /\ extractBranchFromPRInfo test_worker prInfo = (branch, None)
      /\ branch <> EmptyString
      /\ (every not_quote branch = true \/ every not_space branch = true)
      /\ (forall b, worktree_branch ev = Some b -> b = branch).
Proof.
  intros r ev.
  assert (Hin : In ev (trace r.2)) by by_computation.
  assert (Hm : method_of ev <> MGetPRInfo) by discriminate.
  split; [exact Hin|]. split; [exact Hm|].
  exact (ProcessPR_works_on_the_extracted_branch
           test_worker 123 test_deps r.1 r.2 ev (surjective_pairing r) Hin Hm).
Defined.

Lemma isValidBranchName_accepts_witness :
  cmd.isValidBranchName "feature/auth" = true.
Proof.
  apply (proj2 (isValidBranchName_accepts "feature/auth")).
  split; [discriminate|]. repeat (split; [reflexivity|]). reflexivity.
Defined.

Lemma isValidBranchName_joins_witness :
  cmd.isValidBranchName ("feature" +:+ "//." +:+ "auth.lock") = true.
Proof.
  exact (isValidBranchName_joins "feature" "//." "auth.lock"
           eq_refl eq_refl eq_refl eq_refl).
Defined.

Lemma runWorkerStart_checks_before_it_changes_witness :
  let r := run (cmd.runWorkerStart cmd.default_flags
                  ["feature/auth"; "Add a login page"]) test_deps in
  cmd.worker_calls (trace r.2) <> []
  /\ cmd.isValidBranchName "feature/auth" = true
  /\ exists owner repo said,
      trace r.2
      = cmd.checks_passed cmd.default_flags "feature/auth" owner repo
        ++ map cmd.EWorker (cmd.worker_calls (trace r.2)) ++ said
      /\ (said = []
          \/ (cmd.verbose cmd.default_flags = true /\ r.1 = Returned None
              /\ said = [cmd.EPrintf ("Successfully created branch "
                                      +:+ "feature/auth"
                                      +:+ " and opened pull request"
                                      +:+ LF)])).
Proof.
  intros r.
  assert (Hcalls : cmd.worker_calls (trace r.2) <> [])
    by (vm_compute; discriminate).
  split; [exact Hcalls|].
  exact (proj2 (runWorkerStart_checks_before_it_changes
                  cmd.default_flags "feature/auth" "Add a login page"
                  test_deps r.1 r.2 (surjective_pairing r)) Hcalls).
Defined.

Lemma runWorkerStart_result_witness :
  let refusing : Fakes :=
    mkDeps (mkFakeLocalGit ∅ "/fake/repo" [] true "owner" "repo" [] ∅ []
                           true false false false false)
           NewFakeGitHub NewFakeCommandRunner in
  let r := run (cmd.runWorkerStart cmd.default_flags
                  ["feature/auth"; "Add a login page"]) refusing in
  In (ECreateBranch "feature/auth" (Some "fake create branch failure"))
     (cmd.worker_calls (trace r.2))
  /\ r.1 = Returned
             (Some "failed to start branch feature/auth: failed to create branch: fake create branch failure").
Proof.
  intros refusing r.
  assert (Hin : In (ECreateBranch "feature/auth"
                                  (Some "fake create branch failure"))
                   (cmd.worker_calls (trace r.2)))
    by (vm_compute; left; reflexivity).
  split; [exact Hin|].
  exact (proj2 (proj2 (runWorkerStart_result
                         cmd.default_flags "feature/auth" "Add a login page"
                         refusing r.1 r.2 (surjective_pairing r)))
               _ _ Hin eq_refl).
Defined.

Lemma Start_on_the_fakes_witness :
  let first := run (Start test_worker "test-branch" "Test instructions")
                   test_deps in
  let second := run (Start test_worker "test-branch" "Other instructions")
                    (impl first.2) in
  first.1 = Returned None
  /\ createdBranches (Git (impl first.2)) = ["test-branch"]
  /\ second.1 = Returned None
  /\ createdBranches (Git (impl second.2)) = ["test-branch"; "test-branch"].
Proof.
  intros first second.
  destruct (Start_on_the_fakes
              test_worker "test-branch" "Test instructions"
              "Other instructions" NewFakeLocalGit
              (FakeGitHub.SetPRInfo 123 test_prInfo NewFakeGitHub) test_runner
              eq_refl eq_refl eq_refl eq_refl eq_refl)
    as (Hfirst & _ & Hbranches & _ & _ & _ & _ & _ & _ & Hsecond & Htwice & _).
  split; [exact Hfirst|]. split; [exact Hbranches|].
  split; [exact Hsecond | exact Htwice].
Defined.
